(** * NTTBot: the tournament scrape / dedupe / persist / query pipeline

    A shallow embedding of [nttbscrape.py] (class [NTTBTournamentScraper])
    and [tournament_adapter.py] (class [TournamentClient]), and of their
    callers in [bot.py], [announcements.py] and [scheduled_tasks.py],
    followed by the properties of the pipeline that the specification
    states and by further properties of the code.

    Conventions.
    - A Python [str] is a [string]; the operations on it ([lower], [strip],
      [in], [split], slicing) are written out on ASCII, the bytes above 127
      are left as they are.
    - The parsed page (a BeautifulSoup tree) is the inductive type
      [Soup.node]; [find], [find_all] and [get_text] walk it in document
      order.
    - The two SQLite tables are lists of rows in insertion order; a NULL
      column is [None].  The [categories] column, written with [json.dumps]
      and read back with [json.loads], is modelled by the list it encodes.
    - A naive [datetime] is the number of microseconds since
      0001-01-01T00:00:00 in the proleptic Gregorian calendar. *)

From Stdlib Require Import ZArith List String Ascii Bool Lia Arith Permutation Sorted.
From Stdlib Require Import Numbers.DecimalString.
Import ListNotations.

Open Scope string_scope.
Open Scope list_scope.

(* ================================================================== *)
(** ** Python string primitives *)
(* ================================================================== *)

Module Py.

(** [c.lower()] on one ASCII character. *)
Definition lower_ascii (c : ascii) : ascii :=
  let n := nat_of_ascii c in
  if (65 <=? n)%nat && (n <=? 90)%nat then ascii_of_nat (n + 32) else c.

(** [s.lower()]. *)
Fixpoint lower (s : string) : string :=
  match s with
  | EmptyString => EmptyString
  | String c s' => String (lower_ascii c) (lower s')
  end.

(** [c.isspace()] on ASCII: tab, LF, VT, FF, CR, FS, GS, RS, US, space. *)
Definition isspace (c : ascii) : bool :=
  let n := nat_of_ascii c in
  ((9 <=? n)%nat && (n <=? 13)%nat) || ((28 <=? n)%nat && (n <=? 32)%nat).

(** [s.lstrip()]. *)
Fixpoint lstrip (s : string) : string :=
  match s with
  | EmptyString => EmptyString
  | String c s' => if isspace c then lstrip s' else s
  end.

(** [s.rstrip()]: a character is dropped when it is white space and
    everything after it has been dropped. *)
Fixpoint rstrip (s : string) : string :=
  match s with
  | EmptyString => EmptyString
  | String c s' =>
      match rstrip s' with
      | EmptyString => if isspace c then EmptyString else String c EmptyString
      | r => String c r
      end
  end.

(** [s.strip()]. *)
Definition strip (s : string) : string := rstrip (lstrip s).

(** [s.startswith(p)]. *)
Definition startswith (s p : string) : bool := String.prefix p s.

(** [needle in hay]. *)
Fixpoint contains (needle hay : string) : bool :=
  String.prefix needle hay ||
  match hay with
  | EmptyString => false
  | String _ hay' => contains needle hay'
  end.

(** [any(k in text for k in keywords)]. *)
Definition any_in (keywords : list string) (text : string) : bool :=
  existsb (fun k => contains k text) keywords.

(** [s[:n]]. *)
Definition slice_to (n : nat) (s : string) : string := String.substring 0 n s.

(** An empty [str] is falsy. *)
Definition truthy (s : string) : bool :=
  match s with EmptyString => false | _ => true end.

(** [bool(x)] for a value that is [None] or a [str]. *)
Definition truthy_opt (o : option string) : bool :=
  match o with Some s => truthy s | None => false end.

(** [x or d] for a value that is [None] or a [str]. *)
Definition or_default (o : option string) (d : string) : string :=
  match o with
  | Some s => if truthy s then s else d
  | None => d
  end.

(** [d.get(k, '')] for a key whose value, when present, is a [str]. *)
Definition get_or_empty (o : option string) : string :=
  match o with Some s => s | None => EmptyString end.

Definition rev_string (s : string) : string :=
  string_of_list_ascii (rev (list_ascii_of_string s)).

(** [s.split(sep)] for a non-empty separator: left to right, matches do
    not overlap.  [skip] counts the characters of a matched separator still
    to be passed over, [cur] holds the current piece in reverse. *)
Fixpoint split_aux (sep : string) (s : string) (skip : nat) (cur : string)
  : list string :=
  match s with
  | EmptyString => [rev_string cur]
  | String c s' =>
      match skip with
      | S k => split_aux sep s' k cur
      | O =>
          if String.prefix sep s
          then rev_string cur :: split_aux sep s' (String.length sep - 1) EmptyString
          else split_aux sep s' 0 (String c cur)
      end
  end.

Definition split (sep s : string) : list string := split_aux sep s 0 EmptyString.

(** [s.replace(a, b)] for a one-character [a]. *)
Fixpoint replace_char (a : ascii) (b : string) (s : string) : string :=
  match s with
  | EmptyString => EmptyString
  | String c s' =>
      if Ascii.eqb c a then b ++ replace_char a b s'
      else String c (replace_char a b s')
  end.

(** [''.join(pieces)]. *)
Definition join (pieces : list string) : string :=
  fold_right String.append EmptyString pieces.

(** [str(n)] for an integer. *)
Definition str_of_Z (n : Z) : string := NilZero.string_of_int (Z.to_int n).

(** [str(n)] for an index of [enumerate]. *)
Definition str_of_nat (n : nat) : string := str_of_Z (Z.of_nat n).

(** Comparison of two [str] (and of two SQLite TEXT values under the
    BINARY collation): byte by byte, a proper prefix is smaller. *)
Definition str_lt (a b : string) : bool :=
  match String.compare a b with Lt => true | _ => false end.

(** [s.isascii()]. *)
Definition isascii (s : string) : bool :=
  forallb (fun c => (nat_of_ascii c <? 128)%nat) (list_ascii_of_string s).

End Py.

(* ================================================================== *)
(** ** [hashlib.md5(...).hexdigest()] (RFC 1321) *)
(* ================================================================== *)

Module MD5.

Local Open Scope Z_scope.

Definition mask32 : Z := 4294967295.
Definition add32 (a b : Z) : Z := Z.land (a + b) mask32.
Definition rotl32 (x : Z) (c : Z) : Z :=
  Z.land (Z.lor (Z.shiftl x c) (Z.shiftr x (32 - c))) mask32.
Definition not32 (x : Z) : Z := Z.lxor x mask32.

(** [K[i] = floor(2^32 * abs(sin(i + 1)))]. *)
Definition K : list Z :=
  [3614090360; 3905402710; 606105819; 3250441966; 4118548399; 1200080426;
   2821735955; 4249261313; 1770035416; 2336552879; 4294925233; 2304563134;
   1804603682; 4254626195; 2792965006; 1236535329; 4129170786; 3225465664;
   643717713; 3921069994; 3593408605; 38016083; 3634488961; 3889429448;
   568446438; 3275163606; 4107603335; 1163531501; 2850285829; 4243563512;
   1735328473; 2368359562; 4294588738; 2272392833; 1839030562; 4259657740;
   2763975236; 1272893353; 4139469664; 3200236656; 681279174; 3936430074;
   3572445317; 76029189; 3654602809; 3873151461; 530742520; 3299628645;
   4096336452; 1126891415; 2878612391; 4237533241; 1700485571; 2399980690;
   4293915773; 2240044497; 1873313359; 4264355552; 2734768916; 1309151649;
   4149444226; 3174756917; 718787259; 3951481745].

(** Per-round left rotations. *)
Definition shifts : list Z :=
  [7; 12; 17; 22; 7; 12; 17; 22; 7; 12; 17; 22; 7; 12; 17; 22;
   5; 9; 14; 20; 5; 9; 14; 20; 5; 9; 14; 20; 5; 9; 14; 20;
   4; 11; 16; 23; 4; 11; 16; 23; 4; 11; 16; 23; 4; 11; 16; 23;
   6; 10; 15; 21; 6; 10; 15; 21; 6; 10; 15; 21; 6; 10; 15; 21].

Definition bytes_of_string (s : string) : list Z :=
  map (fun c => Z.of_nat (nat_of_ascii c)) (list_ascii_of_string s).

(** The 64-bit little-endian encoding of the message length in bits. *)
Definition length_bytes (bits : Z) : list Z :=
  map (fun i => Z.land (Z.shiftr bits (8 * Z.of_nat i)) 255) (seq 0 8).

(** Padding: a 1 bit, zeros up to 56 modulo 64, then the length. *)
Definition pad (msg : list Z) : list Z :=
  let len := Z.of_nat (List.length msg) in
  let zeros := Z.to_nat ((55 - len) mod 64) in
  msg ++ [128] ++ repeat 0 zeros ++ length_bytes (8 * len).

(** Four bytes, least significant first, as a word. *)
Definition word_of_bytes (b : list Z) : Z :=
  fold_right (fun x acc => x + 256 * acc) 0 b.

Fixpoint words_of_block (n : nat) (b : list Z) : list Z :=
  match n with
  | O => []
  | S n' => word_of_bytes (firstn 4 b) :: words_of_block n' (skipn 4 b)
  end.

Definition round (M : list Z) (st : Z * Z * Z * Z) (i : nat) : Z * Z * Z * Z :=
  let '(A, B, C, D) := st in
  let iz := Z.of_nat i in
  let '(F, g) :=
    if iz <? 16 then (Z.lor (Z.land B C) (Z.land (not32 B) D), iz)
    else if iz <? 32 then (Z.lor (Z.land D B) (Z.land (not32 D) C), (5 * iz + 1) mod 16)
    else if iz <? 48 then (Z.lxor (Z.lxor B C) D, (3 * iz + 5) mod 16)
    else (Z.lxor C (Z.lor B (not32 D)), (7 * iz) mod 16) in
  let F' := add32 (add32 (add32 F A) (nth i K 0)) (nth (Z.to_nat g) M 0) in
  (D, add32 B (rotl32 F' (nth i shifts 0)), B, C).

Definition process_block (st : Z * Z * Z * Z) (block : list Z) : Z * Z * Z * Z :=
  let M := words_of_block 16 block in
  let '(A, B, C, D) := fold_left (round M) (seq 0 64) st in
  let '(a0, b0, c0, d0) := st in
  (add32 a0 A, add32 b0 B, add32 c0 C, add32 d0 D).

Fixpoint process (n : nat) (st : Z * Z * Z * Z) (msg : list Z) : Z * Z * Z * Z :=
  match n with
  | O => st
  | S n' => process n' (process_block st (firstn 64 msg)) (skipn 64 msg)
  end.

Definition hex_digit (n : Z) : ascii :=
  if n <? 10 then ascii_of_nat (Z.to_nat (48 + n)) else ascii_of_nat (Z.to_nat (87 + n)).

Definition hex_byte (b : Z) : string :=
  String (hex_digit (Z.shiftr b 4)) (String (hex_digit (Z.land b 15)) EmptyString).

Definition hex_word (w : Z) : string :=
  Py.join (map (fun i => hex_byte (Z.land (Z.shiftr w (8 * Z.of_nat i)) 255)) (seq 0 4)).

(** [hashlib.md5(s.encode()).hexdigest()]. *)
Definition hexdigest (s : string) : string :=
  let msg := pad (bytes_of_string s) in
  let '(A, B, C, D) :=
    process (List.length msg / 64)
      (1732584193, 4023233417, 2562383102, 271733878) msg in
  hex_word A ++ hex_word B ++ hex_word C ++ hex_word D.

End MD5.

(* ================================================================== *)
(** ** [datetime] and [timedelta] *)
(* ================================================================== *)

Module DateTime.

Local Open Scope Z_scope.

Definition US_PER_SECOND : Z := 1000000.
Definition US_PER_DAY : Z := 86400 * US_PER_SECOND.

(** Days from 0001-01-01 to the given civil date. *)
Definition days_from_civil (y m d : Z) : Z :=
  let y' := if m <=? 2 then y - 1 else y in
  let era := y' / 400 in
  let yoe := y' - era * 400 in
  let mp := if 2 <? m then m - 3 else m + 9 in
  let doy := (153 * mp + 2) / 5 + d - 1 in
  let doe := yoe * 365 + yoe / 4 - yoe / 100 + doy in
  era * 146097 + doe - 306.

(** The civil date of a day count from 0001-01-01. *)
Definition civil_from_days (days : Z) : Z * Z * Z :=
  let z := days + 306 in
  let era := z / 146097 in
  let doe := z - era * 146097 in
  let yoe := (doe - doe / 1460 + doe / 36524 - doe / 146096) / 365 in
  let doy := doe - (365 * yoe + yoe / 4 - yoe / 100) in
  let mp := (5 * doy + 2) / 153 in
  let d := doy - (153 * mp + 2) / 5 + 1 in
  let m := if mp <? 10 then mp + 3 else mp - 9 in
  let y := yoe + era * 400 in
  (if m <=? 2 then y + 1 else y, m, d).

Definition is_leap (y : Z) : bool :=
  (y mod 4 =? 0) && (negb (y mod 100 =? 0) || (y mod 400 =? 0)).

Definition days_in_month (y m : Z) : Z :=
  if m =? 2 then (if is_leap y then 29 else 28)
  else if (m =? 4) || (m =? 6) || (m =? 9) || (m =? 11) then 30 else 31.

(** [datetime(y, mo, d, h, mi, s, us)]. *)
Definition datetime (y mo d h mi s us : Z) : Z :=
  days_from_civil y mo d * US_PER_DAY + ((h * 60 + mi) * 60 + s) * US_PER_SECOND + us.

(** [datetime.max] is 9999-12-31T23:59:59.999999. *)
Definition MAX_US : Z := days_from_civil 10000 1 1 * US_PER_DAY.

(** [dt + timedelta(days=n)]; [None] is [OverflowError], raised by
    [timedelta] beyond 999999999 days and by the sum outside
    [datetime.min .. datetime.max]. *)
Definition add_days (dt n : Z) : option Z :=
  if (n <? -999999999) || (999999999 <? n) then None
  else
    let r := dt + n * US_PER_DAY in
    if (r <? 0) || (MAX_US <=? r) then None else Some r.

(** A non-negative number written with at least [width] digits. *)
Definition zero_pad (width : nat) (n : Z) : string :=
  let s := Py.str_of_Z n in
  Py.join (repeat "0"%string (width - String.length s)) ++ s.

Definition date_string (dt : Z) : string :=
  let '(y, m, d) := civil_from_days (dt / US_PER_DAY) in
  zero_pad 4 y ++ "-" ++ zero_pad 2 m ++ "-" ++ zero_pad 2 d.

Definition time_string (dt : Z) : string :=
  let secs := (dt mod US_PER_DAY) / US_PER_SECOND in
  zero_pad 2 (secs / 3600) ++ ":" ++ zero_pad 2 ((secs / 60) mod 60)
    ++ ":" ++ zero_pad 2 (secs mod 60).

(** [dt.isoformat()]: the fraction is printed only when it is not zero. *)
Definition isoformat (dt : Z) : string :=
  let us := dt mod US_PER_SECOND in
  date_string dt ++ "T" ++ time_string dt
    ++ (if (us =? 0)%Z then "" else "." ++ zero_pad 6 us)%string.

(** The text SQLite stores for [CURRENT_TIMESTAMP] at the instant [dt]. *)
Definition current_timestamp (dt : Z) : string :=
  date_string dt ++ " " ++ time_string dt.

(** What [datetime.fromisoformat] gives: a naive datetime, an aware one
    (kept as its UTC instant) or [ValueError]. *)
Inductive iso_result : Type :=
| Naive (us : Z)
| Aware (utc_us : Z)
| ValueError.

Definition digit (c : ascii) : option Z :=
  let n := nat_of_ascii c in
  if (48 <=? n)%nat && (n <=? 57)%nat then Some (Z.of_nat n - 48) else None.

(** The number written by exactly the given digits. *)
Fixpoint number (cs : list ascii) (acc : Z) : option Z :=
  match cs with
  | [] => Some acc
  | c :: cs' =>
      match digit c with
      | Some d => number cs' (10 * acc + d)
      | None => None
      end
  end.

(** ["HH:MM"] or ["HH:MM:SS"], as seconds. *)
Definition parse_hms (cs : list ascii) : option Z :=
  match cs with
  | [h1; h2; c1; m1; m2] =>
      match number [h1; h2] 0, number [m1; m2] 0 with
      | Some h, Some m =>
          if Ascii.eqb c1 ":" && (h <? 24) && (m <? 60)
          then Some (h * 3600 + m * 60) else None
      | _, _ => None
      end
  | [h1; h2; c1; m1; m2; c2; s1; s2] =>
      match number [h1; h2] 0, number [m1; m2] 0, number [s1; s2] 0 with
      | Some h, Some m, Some s =>
          if Ascii.eqb c1 ":" && Ascii.eqb c2 ":" && (h <? 24) && (m <? 60) && (s <? 60)
          then Some (h * 3600 + m * 60 + s) else None
      | _, _, _ => None
      end
  | _ => None
  end.

(** ["YYYY-MM-DD"], as days from 0001-01-01. *)
Definition parse_date (cs : list ascii) : option Z :=
  match cs with
  | [y1; y2; y3; y4; c1; m1; m2; c2; d1; d2] =>
      match number [y1; y2; y3; y4] 0, number [m1; m2] 0, number [d1; d2] 0 with
      | Some y, Some m, Some d =>
          if Ascii.eqb c1 "-" && Ascii.eqb c2 "-" && (1 <=? y)
             && (1 <=? m) && (m <=? 12) && (1 <=? d) && (d <=? days_in_month y m)
          then Some (days_from_civil y m d) else None
      | _, _, _ => None
      end
  | _ => None
  end.

(** The time part with its optional UTC offset ["+HH:MM"] / ["-HH:MM"]:
    seconds of the day and the offset in seconds. *)
Definition parse_time (cs : list ascii) : option (Z * option Z) :=
  let n := List.length cs in
  let body := firstn (n - 6) cs in
  match skipn (n - 6) cs with
  | sign :: off =>
      if (6 <=? n)%nat && (Ascii.eqb sign "+" || Ascii.eqb sign "-") then
        match parse_hms body, parse_hms off with
        | Some t, Some o => Some (t, Some (if Ascii.eqb sign "+" then o else - o))
        | _, _ => None
        end
      else match parse_hms cs with Some t => Some (t, None) | None => None end
  | [] => match parse_hms cs with Some t => Some (t, None) | None => None end
  end.

(** [datetime.fromisoformat(s)] on the forms ["YYYY-MM-DD"] and
    ["YYYY-MM-DD*HH:MM[:SS][+HH:MM]"] ([*] is any one character); every
    other text is reported as [ValueError]. *)
Definition fromisoformat (s : string) : iso_result :=
  let cs := list_ascii_of_string s in
  match parse_date (firstn 10 cs) with
  | None => ValueError
  | Some days =>
      match skipn 10 cs with
      | [] => Naive (days * US_PER_DAY)
      | _ :: rest =>
          match parse_time rest with
          | Some (t, None) => Naive (days * US_PER_DAY + t * US_PER_SECOND)
          | Some (t, Some off) => Aware (days * US_PER_DAY + (t - off) * US_PER_SECOND)
          | None => ValueError
          end
      end
  end.

End DateTime.

(* ================================================================== *)
(** ** The parsed page *)
(* ================================================================== *)

Module Soup.

Local Set Warnings "-register-all".

(** A node of the tree BeautifulSoup builds: a piece of text, or a tag
    with its name, the values of its [class] attribute, its other
    attributes and its contents. *)
Inductive node : Type :=
| NavigableString (text : string)
| Tag (name : string) (classes : list string)
      (attrs : list (string * string)) (contents : list node).

(** Everything below a node, in document order. *)
Fixpoint descendants (n : node) : list node :=
  match n with
  | NavigableString _ => []
  | Tag _ _ _ cs => flat_map (fun c => c :: descendants c) cs
  end.

Definition is_tag (nm : string) (n : node) : bool :=
  match n with
  | Tag nm' _ _ _ => String.eqb nm nm'
  | NavigableString _ => false
  end.

(** The [class_=c] filter. *)
Definition has_class (c : string) (n : node) : bool :=
  match n with
  | Tag _ cls _ _ => existsb (String.eqb c) cls
  | NavigableString _ => false
  end.

(** [tag.get(k)]. *)
Definition get (k : string) (n : node) : option string :=
  match n with
  | Tag _ _ attrs _ =>
      match find (fun kv => String.eqb k (fst kv)) attrs with
      | Some kv => Some (snd kv)
      | None => None
      end
  | NavigableString _ => None
  end.

(** The [k=True] filter: the attribute is there. *)
Definition has_attr (k : string) (n : node) : bool :=
  match get k n with Some _ => true | None => false end.

(** The [k=v] filter. *)
Definition attr_is (k v : string) (n : node) : bool :=
  match get k n with Some v' => String.eqb v v' | None => false end.

(** [elem.find_all(...)] with the filter [p]. *)
Definition find_all (p : node -> bool) (elem : node) : list node :=
  filter p (descendants elem).

(** [elem.find(...)]: the first match or [None]. *)
Definition find (p : node -> bool) (elem : node) : option node :=
  hd_error (find_all p elem).

(** The strings below a node, in document order. *)
Definition strings (elem : node) : list string :=
  flat_map (fun d => match d with NavigableString s => [s] | Tag _ _ _ _ => [] end)
           (descendants elem).

(** [elem.get_text()]. *)
Definition get_text (elem : node) : string := Py.join (strings elem).

(** [elem.get_text(strip=True)]: every string stripped, the empty ones
    left out. *)
Definition get_text_strip (elem : node) : string :=
  Py.join (filter Py.truthy (map Py.strip (strings elem))).

End Soup.

(* ================================================================== *)
(** ** [nttbscrape.py]: class [NTTBTournamentScraper] *)
(* ================================================================== *)

Module Scraper.

Import Soup.
Local Open Scope string_scope.

Definition base_url : string := "https://nttb.toernooi.nl".

(** The tournament [dict] that [_extract_tournament_details] builds.  The
    keys it always sets are plain fields; a key it sets only when the
    markup has the value is an [option], [None] standing for the missing
    key ([tournament.get(k)] is [None]). *)
Record tournament : Type := mkTournament {
  c_id : string;
  c_extraction_method : string;
  c_timestamp : string;
  c_source : string;
  c_name : option string;
  c_tournament_url : option string;
  c_tournament_id : option string;
  c_location : option string;
  c_date : option string;
  c_start_date : option string;
  c_end_date : option string;
  c_categories : option (list string);
  c_registration_available : bool;
  c_registration_url : option string;
  c_registration_status : option string;
  c_hash : string
}.

(** The two readings of the clock an extraction takes: [int(time.time())]
    and [datetime.now()]. *)
Record clock : Type := mkClock {
  time_time : Z;
  datetime_now : Z
}.

(** *** [_extract_registration_info] *)

Definition registration_keywords : list string :=
  ["inschrijv"; "register"; "aanmeld"; "sign up"].
Definition closed_keywords : list string :=
  ["gesloten"; "closed"; "vol"; "full"].

(** The hyperlinks of an element: [find_all('a', href=True)]. *)
Definition hyperlinks (element : node) : list node :=
  find_all (fun n => is_tag "a" n && has_attr "href" n) element.

(** The three keys the function leaves in the dict:
    [registration_available], [registration_url], [registration_status]. *)
Definition registration_info : Type := (bool * option string * option string)%type.

Definition registration_url_of (href : string) : option string :=
  if Py.truthy href then
    if Py.startswith href "/" then Some (base_url ++ href)
    else if Py.startswith href "http" then Some href
    else None
  else None.

(** The loop over the links, left at the first link whose text has a
    registration keyword. *)
Fixpoint scan_links (links : list node) : registration_info :=
  match links with
  | [] => (false, None, None)
  | link :: rest =>
      let href := Py.get_or_empty (get "href" link) in
      let text := Py.lower (get_text link) in
      if Py.any_in registration_keywords text then
        if Py.any_in closed_keywords text
        then (false, registration_url_of href, Some "closed")
        else (true, registration_url_of href, None)
      else scan_links rest
  end.

Definition _extract_registration_info (element : node) : registration_info :=
  scan_links (hyperlinks element).

(** *** [_extract_tournament_details] *)

Definition is_title (n : node) : bool := is_tag "h4" n && has_class "media__title" n.
Definition is_value_span (n : node) : bool := is_tag "span" n && has_class "nav-link__value" n.
Definition is_subheading (n : node) : bool := is_tag "small" n && has_class "media__subheading" n.
Definition is_time (n : node) : bool := is_tag "time" n && has_attr "datetime" n.
Definition is_tag_list (n : node) : bool := is_tag "ul" n && has_class "list--inline" n.
Definition is_category_tag (n : node) : bool :=
  is_tag "span" n && (has_class "tag" n || has_class "tag-duo" n).

(** The [name] key. *)
Definition extract_name (element : node) : option string :=
  match find is_title element with
  | Some title_element =>
      match find is_value_span title_element with
      | Some name_span => Some (get_text_strip name_span)
      | None => None
      end
  | None => None
  end.

(** The [href] of the title link. *)
Definition title_href (element : node) : option string :=
  match find is_title element with
  | Some title_element =>
      match find (fun n => is_tag "a" n && has_attr "href" n) title_element with
      | Some title_link => get "href" title_link
      | None => None
      end
  | None => None
  end.

Definition extract_tournament_url (element : node) : option string :=
  match title_href element with
  | Some href => Some (if Py.startswith href "/" then base_url ++ href else href)
  | None => None
  end.

(** [href.split('id=')[1].split('&')[0]] when ['id=' in href]. *)
Definition extract_tournament_id (element : node) : option string :=
  match title_href element with
  | Some href =>
      if Py.contains "id=" href
      then Some (nth 0 (Py.split "&" (nth 1 (Py.split "id=" href) "")) "")
      else None
  | None => None
  end.

(** The [location] key: from the first subheading, the text between the
    first and the second ['|'] when there is a ['|']. *)
Definition extract_location (element : node) : option string :=
  match find_all is_subheading element with
  | first :: _ =>
      match find is_value_span first with
      | Some location_span =>
          let location_text := get_text_strip location_span in
          if Py.contains "|" location_text
          then Some (Py.strip (nth 1 (Py.split "|" location_text) ""))
          else Some location_text
      | None => None
      end
  | [] => None
  end.

(** The [date], [start_date] and [end_date] keys, from the [time]
    elements of the second subheading. *)
Definition extract_dates (element : node)
  : option string * option string * option string :=
  match find_all is_subheading element with
  | _ :: date_subheading :: _ =>
      match find_all is_time date_subheading with
      | [] => (None, None, None)
      | [t1] => (Some (get_text_strip t1), get "datetime" t1, None)
      | t1 :: t2 :: _ =>
          (Some (get_text_strip t1 ++ " t/m " ++ get_text_strip t2),
           get "datetime" t1, get "datetime" t2)
      end
  | _ => (None, None, None)
  end.

(** The category texts longer than one character. *)
Definition extract_categories (element : node) : option (list string) :=
  let categories :=
    flat_map (fun tag_list =>
      filter (fun tag_text => Py.truthy tag_text && (1 <? String.length tag_text)%nat)
             (map get_text_strip (find_all is_category_tag tag_list)))
      (find_all is_tag_list element) in
  match categories with
  | [] => None
  | _ => Some categories
  end.

(** The content fingerprint: MD5 of name, start date and location put
    side by side as they were extracted. *)
Definition hash_string (name start_date location : option string) : string :=
  Py.get_or_empty name ++ Py.get_or_empty start_date ++ Py.get_or_empty location.

Definition fingerprint (name start_date location : option string) : string :=
  MD5.hexdigest (hash_string name start_date location).

Definition _extract_tournament_details
    (clk : clock) (element : node) (index : nat) (source : string) : tournament :=
  let '(date, start_date, end_date) := extract_dates element in
  let '(available, url, status) := _extract_registration_info element in
  let name := extract_name element in
  let location := extract_location element in
  {| c_id := "tournament_" ++ source ++ "_" ++ Py.str_of_nat index
               ++ "_" ++ Py.str_of_Z (time_time clk);
     c_extraction_method := "nttb_scraper_v2";
     c_timestamp := DateTime.isoformat (datetime_now clk);
     c_source := source;
     c_name := name;
     c_tournament_url := extract_tournament_url element;
     c_tournament_id := extract_tournament_id element;
     c_location := location;
     c_date := date;
     c_start_date := start_date;
     c_end_date := end_date;
     c_categories := extract_categories element;
     c_registration_available := available;
     c_registration_url := url;
     c_registration_status := status;
     c_hash := fingerprint name start_date location |}.

(** *** [_parse_tournaments] *)

Definition is_list_item (n : node) : bool := is_tag "li" n && has_class "list__item" n.
Definition is_checkbox (n : node) : bool := is_tag "input" n && attr_is "type" "checkbox" n.
Definition is_ad (n : node) : bool := is_tag "div" n && has_class "ad" n.

Definition found (o : option node) : bool :=
  match o with Some _ => true | None => false end.

(** The filter of the list comprehension. *)
Definition qualifies (elem : node) : bool :=
  found (find is_title elem)
  && negb (found (find is_checkbox elem))
  && negb (found (find is_ad elem))
  && negb (Py.contains "cookie" (Py.slice_to 100 (Py.lower (get_text elem)))).

Definition tournament_elements (soup : node) : list node :=
  filter qualifies (find_all is_list_item soup).

(** The loop over [enumerate(tournament_elements)]; [clk i] is the clock
    as read while the element of index [i] is extracted. *)
Fixpoint parse_loop (clk : nat -> clock) (source : string) (i : nat)
    (elements : list node) : list tournament :=
  match elements with
  | [] => []
  | element :: rest =>
      let tournament_data := _extract_tournament_details (clk i) element i source in
      if Py.truthy_opt (c_name tournament_data)
      then tournament_data :: parse_loop clk source (S i) rest
      else parse_loop clk source (S i) rest
  end.

Definition _parse_tournaments (clk : nat -> clock) (soup : node) (source : string)
  : list tournament :=
  parse_loop clk source 0 (tournament_elements soup).

(** *** [_remove_duplicate_tournaments] *)

Definition key : Type := (string * string * string)%type.

Definition dedup_key (t : tournament) : key :=
  (Py.lower (Py.strip (Py.get_or_empty (c_name t))),
   Py.strip (Py.get_or_empty (c_start_date t)),
   Py.lower (Py.strip (Py.get_or_empty (c_location t)))).

Definition key_eqb (a b : key) : bool :=
  let '(a1, a2, a3) := a in
  let '(b1, b2, b3) := b in
  String.eqb a1 b1 && String.eqb a2 b2 && String.eqb a3 b3.

(** The loop; [seen] holds the keys of the dict of the same name. *)
Fixpoint dedup_loop (seen : list key) (tournaments : list tournament)
  : list tournament :=
  match tournaments with
  | [] => []
  | t :: rest =>
      if negb (Py.truthy_opt (c_name t)) then dedup_loop seen rest
      else
        let k := dedup_key t in
        if existsb (key_eqb k) seen then dedup_loop seen rest
        else t :: dedup_loop (k :: seen) rest
  end.

Definition _remove_duplicate_tournaments (tournaments : list tournament)
  : list tournament :=
  dedup_loop [] tournaments.

End Scraper.

(* ================================================================== *)
(** ** The [tournaments] table and the statements run against it *)
(* ================================================================== *)

Module Store.

Import Scraper.

(** One row of [tournaments].  [id] is the primary key, [name] is
    declared NOT NULL and [scraped_at] is filled by its default or by the
    UPDATE, so the three are never NULL in a row this program wrote. *)
Record row : Type := mkRow {
  r_id : string;
  r_tournament_id : option string;
  r_name : string;
  r_location : option string;
  r_date : option string;
  r_start_date : option string;
  r_end_date : option string;
  r_categories : option (list string);
  r_registration_available : bool;
  r_registration_url : option string;
  r_registration_deadline : option string;
  r_registration_status : option string;
  r_tournament_url : option string;
  r_participant_count : option Z;
  r_entry_fee : option string;
  r_contact_info : option string;
  r_source : option string;
  r_extraction_method : option string;
  r_raw_data : option string;
  r_scraped_at : string;
  r_hash : option string;
  r_is_active : bool
}.

Definition table : Type := list row.

(** What a statement or a method can raise. *)
Inductive exn : Type :=
| IntegrityError
| OperationalError
| OverflowError
| TypeError.

Inductive result (A : Type) : Type :=
| Returns (a : A)
| Raises (e : exn).
Arguments Returns {A} a.
Arguments Raises {A} e.

(** [WHERE hash = ? AND is_active = 1]. *)
Definition active_with_hash (h : string) (r : row) : bool :=
  match r_hash r with
  | Some h' => String.eqb h h' && r_is_active r
  | None => false
  end.

(** The SET clause of the UPDATE on one row; [now] is the text of
    CURRENT_TIMESTAMP. *)
Definition overwrite (t : tournament) (name now : string) (r : row) : row :=
  {| r_id := r_id r;
     r_tournament_id := r_tournament_id r;
     r_name := name;
     r_location := c_location t;
     r_date := c_date t;
     r_start_date := c_start_date t;
     r_end_date := c_end_date t;
     r_categories := c_categories t;
     r_registration_available := c_registration_available t;
     r_registration_url := c_registration_url t;
     r_registration_deadline := None;
     r_registration_status := c_registration_status t;
     r_tournament_url := c_tournament_url t;
     r_participant_count := r_participant_count r;
     r_entry_fee := r_entry_fee r;
     r_contact_info := r_contact_info r;
     r_source := Some (c_source t);
     r_extraction_method := Some (c_extraction_method t);
     r_raw_data := r_raw_data r;
     r_scraped_at := now;
     r_hash := r_hash r;
     r_is_active := r_is_active r |}.

(** The UPDATE on one row. *)
Definition update_row (t : tournament) (name now : string) (r : row) : row :=
  if active_with_hash (c_hash t) r then overwrite t name now r else r.

(** The row the INSERT creates; the columns it does not list take their
    defaults. *)
Definition new_row (t : tournament) (name now : string) : row :=
  {| r_id := c_id t;
     r_tournament_id := c_tournament_id t;
     r_name := name;
     r_location := c_location t;
     r_date := c_date t;
     r_start_date := c_start_date t;
     r_end_date := c_end_date t;
     r_categories := c_categories t;
     r_registration_available := c_registration_available t;
     r_registration_url := c_registration_url t;
     r_registration_deadline := None;
     r_registration_status := c_registration_status t;
     r_tournament_url := c_tournament_url t;
     r_participant_count := None;
     r_entry_fee := None;
     r_contact_info := None;
     r_source := Some (c_source t);
     r_extraction_method := Some (c_extraction_method t);
     r_raw_data := None;
     r_scraped_at := now;
     r_hash := Some (c_hash t);
     r_is_active := true |}.

(** The state of the loop of [_save_tournaments_to_db]: the table as the
    open transaction sees it, [saved_count], and the number of candidates
    handled so far. *)
Record save_state : Type := mkSave {
  rows : table;
  saved_count : nat;
  handled : nat
}.

(** One turn of the loop.  [now i] is the text of CURRENT_TIMESTAMP when
    the statement for candidate [i] runs.  A NULL name violates NOT NULL,
    an [id] already in the table violates the primary key. *)
Definition save_step (now : nat -> string) (st : save_state) (t : tournament)
  : result save_state :=
  let ts := now (handled st) in
  if existsb (active_with_hash (c_hash t)) (rows st) then
    match c_name t with
    | Some name =>
        Returns {| rows := map (update_row t name ts) (rows st);
                   saved_count := saved_count st;
                   handled := S (handled st) |}
    | None => Raises IntegrityError
    end
  else
    match c_name t with
    | Some name =>
        if existsb (fun r => String.eqb (c_id t) (r_id r)) (rows st)
        then Raises IntegrityError
        else Returns {| rows := rows st ++ [new_row t name ts];
                        saved_count := S (saved_count st);
                        handled := S (handled st) |}
    | None => Raises IntegrityError
    end.

Definition save_loop (now : nat -> string) (tournaments : list tournament)
    (st : result save_state) : result save_state :=
  fold_left (fun acc t =>
               match acc with
               | Returns st => save_step now st t
               | Raises e => Raises e
               end) tournaments st.

(** [_save_tournaments_to_db]: the table afterwards, and [saved_count] or
    the exception.  The commit is the last thing the method does, so an
    exception leaves the table as it was. *)
Definition _save_tournaments_to_db (now : nat -> string)
    (tournaments : list tournament) (db : table) : table * result nat :=
  match save_loop now tournaments
          (Returns {| rows := db; saved_count := 0; handled := 0 |}) with
  | Returns st => (rows st, Returns (saved_count st))
  | Raises e => (db, Raises e)
  end.

(** The WHERE clause of [cleanup_old_tournaments]; the three comparisons
    are between TEXT values. *)
Definition is_old (cutoff one_week_ago : string) (r : row) : bool :=
  Py.str_lt (r_scraped_at r) cutoff
  || match r_end_date r with
     | Some e => Py.str_lt e one_week_ago
     | None => false
     end
  || match r_start_date r, r_end_date r with
     | Some s, None => Py.str_lt s one_week_ago
     | _, _ => false
     end.

Definition deactivate (r : row) : row :=
  {| r_id := r_id r;
     r_tournament_id := r_tournament_id r;
     r_name := r_name r;
     r_location := r_location r;
     r_date := r_date r;
     r_start_date := r_start_date r;
     r_end_date := r_end_date r;
     r_categories := r_categories r;
     r_registration_available := r_registration_available r;
     r_registration_url := r_registration_url r;
     r_registration_deadline := r_registration_deadline r;
     r_registration_status := r_registration_status r;
     r_tournament_url := r_tournament_url r;
     r_participant_count := r_participant_count r;
     r_entry_fee := r_entry_fee r;
     r_contact_info := r_contact_info r;
     r_source := r_source r;
     r_extraction_method := r_extraction_method r;
     r_raw_data := r_raw_data r;
     r_scraped_at := r_scraped_at r;
     r_hash := r_hash r;
     r_is_active := false |}.

(** [cleanup_old_tournaments(days_old)]; [now] and [now'] are the two
    readings of [datetime.now()], for the cutoff and for the week. *)
Definition cleanup_old_tournaments (now now' : Z) (days_old : Z) (db : table)
  : result table :=
  match DateTime.add_days now (- days_old), DateTime.add_days now' (-7) with
  | Some cutoff_date, Some week =>
      let one_week_ago := DateTime.isoformat week in
      Returns (map (fun r => if is_old (DateTime.isoformat cutoff_date) one_week_ago r
                             then deactivate r else r) db)
  | _, _ => Raises OverflowError
  end.

Definition default_days_old : Z := 14.

End Store.

(* ================================================================== *)
(** ** [tournament_adapter.py]: class [TournamentClient] *)
(* ================================================================== *)

Module Adapter.

Import Store.
Local Open Scope string_scope.

(** The [Tournament] dataclass. *)
Record Tournament : Type := mkT {
  t_id : string;
  t_name : string;
  t_location : string;
  t_date : string;
  t_start_date : string;
  t_end_date : option string;
  t_categories : list string;
  t_registration_available : bool;
  t_registration_url : option string;
  t_registration_deadline : option string;
  t_tournament_url : option string;
  t_source : string
}.

(** The database as a reader finds it: the table, or a file that
    [sqlite3] cannot open or query. *)
Inductive database : Type :=
| Open (db : table)
| Fault.

(** [ORDER BY start_date ASC]: NULL before every text, texts byte by
    byte. *)
Definition start_date_le (a b : row) : bool :=
  match r_start_date a, r_start_date b with
  | None, _ => true
  | Some _, None => false
  | Some x, Some y => negb (Py.str_lt y x)
  end.

Fixpoint insert_sorted (r : row) (sorted : list row) : list row :=
  match sorted with
  | [] => [r]
  | x :: rest =>
      if start_date_le r x then r :: sorted else x :: insert_sorted r rest
  end.

(** Rows with equal start dates come in the order of the table. *)
Definition order_by_start_date (l : list row) : list row :=
  fold_right insert_sorted [] l.

(** The rows the SELECT of [_get_all_tournaments_sync] fetches. *)
Definition select_active (db : table) : list row :=
  order_by_start_date (filter r_is_active db).

(** [connect], [execute] and [fetchall] on the database. *)
Definition fetchall (d : database) : result (list row) :=
  match d with
  | Open db => Returns (select_active db)
  | Fault => Raises OperationalError
  end.

(** The [Tournament] built from one row of the cursor. *)
Definition of_row (r : row) : Tournament :=
  {| t_id := r_id r;
     t_name := r_name r;
     t_location := Py.or_default (r_location r) "Unknown";
     t_date := Py.or_default (r_date r) "TBA";
     t_start_date := Py.or_default (r_start_date r) "";
     t_end_date := r_end_date r;
     t_categories := match r_categories r with Some l => l | None => [] end;
     t_registration_available := r_registration_available r;
     t_registration_url := r_registration_url r;
     t_registration_deadline := r_registration_deadline r;
     t_tournament_url := r_tournament_url r;
     t_source := Py.or_default (r_source r) "unknown" |}.

(** [_get_all_tournaments_sync] (and [get_all_tournaments], which runs
    it in a thread): the [try] block builds the list, both [except]
    clauses return the empty list. *)
Definition get_all_tournaments (d : database) : list Tournament :=
  match fetchall d with
  | Returns fetched => map of_row fetched
  | Raises _ => []
  end.

Section Upcoming.

(** [datetime.fromisoformat], a function of the Python library. *)
Variable fromisoformat : string -> DateTime.iso_result.

(** One turn of the loop of [get_upcoming_tournaments]: [Returns true]
    appends the tournament, [Returns false] passes it over.  Comparing
    the naive [now] with an aware datetime raises [TypeError], which
    neither [except] clause catches. *)
Definition upcoming_test (now cutoff : Z) (t : Tournament) : result bool :=
  if Py.truthy (t_start_date t) then
    match fromisoformat (Py.replace_char "Z" "+00:00" (t_start_date t)) with
    | DateTime.Naive start => Returns ((now <=? start)%Z && (start <=? cutoff)%Z)
    | DateTime.Aware _ => Raises TypeError
    | DateTime.ValueError => Returns true
    end
  else Returns false.

Fixpoint upcoming_loop (now cutoff : Z) (all_tournaments : list Tournament)
  : result (list Tournament) :=
  match all_tournaments with
  | [] => Returns []
  | t :: rest =>
      match upcoming_test now cutoff t with
      | Raises e => Raises e
      | Returns keep =>
          match upcoming_loop now cutoff rest with
          | Raises e => Raises e
          | Returns upcoming => Returns (if keep then t :: upcoming else upcoming)
          end
      end
  end.

(** [get_upcoming_tournaments(days)] run when [datetime.now()] is
    [now]. *)
Definition get_upcoming_tournaments (now : Z) (days : Z) (d : database)
  : result (list Tournament) :=
  let all_tournaments := get_all_tournaments d in
  match DateTime.add_days now days with
  | Some cutoff => upcoming_loop now cutoff all_tournaments
  | None => Raises OverflowError
  end.

(** [get_tournaments_with_registration]. *)
Definition get_tournaments_with_registration (d : database) : list Tournament :=
  filter t_registration_available (get_all_tournaments d).

(** [search_tournaments(query)]. *)
Definition search_tournaments (query : string) (d : database) : list Tournament :=
  let query_lower := Py.lower query in
  filter (fun t => Py.contains query_lower (Py.lower (t_name t))
                   || Py.contains query_lower (Py.lower (t_location t)))
         (get_all_tournaments d).

(** The dict [get_tournament_stats] returns. *)
Record stats : Type := mkStats {
  total : nat;
  upcoming_30_days : nat;
  with_registration : nat
}.

(** The three readers open the database one after the other: [d],
    [d'] and [d''] are what each of them finds. *)
Definition get_tournament_stats (now : Z) (d d' d'' : database) : result stats :=
  let all_tournaments := get_all_tournaments d in
  match get_upcoming_tournaments now 30 d' with
  | Raises e => Raises e
  | Returns upcoming =>
      let with_reg := get_tournaments_with_registration d'' in
      Returns {| total := List.length all_tournaments;
                 upcoming_30_days := List.length upcoming;
                 with_registration := List.length with_reg |}
  end.

End Upcoming.

End Adapter.

(* ================================================================== *)
(** ** A small page and a small table, for the worked cases *)
(* ================================================================== *)

Module Fixture.

Import Soup Scraper Store Adapter.
Local Open Scope string_scope.

Definition value_span (s : string) : node :=
  Tag "span" ["nav-link__value"] [] [NavigableString s].

Definition title (name href : string) : node :=
  Tag "h4" ["media__title"] []
      [Tag "a" ["nav-link"] [("href", href)] [value_span name]].

Definition subheading_location (s : string) : node :=
  Tag "small" ["media__subheading"] [] [value_span s].

Definition subheading_date (iso shown : string) : node :=
  Tag "small" ["media__subheading"] []
      [Tag "time" [] [("datetime", iso)] [NavigableString shown]].

(** A list item of the tournament list. *)
Definition event (name href location iso shown : string) (extra : list node) : node :=
  Tag "li" ["list__item"] []
      ([title name href; subheading_location location; subheading_date iso shown]
         ++ extra)%list.

Definition link (text href : string) : node :=
  Tag "a" [] [("href", href)] [NavigableString text].


Definition page (items : list node) : node :=
  Tag "[document]" [] [] [Tag "ul" ["list"] [] items].

Definition clock0 : clock :=
  {| time_time := 1793707200;
     datetime_now := DateTime.datetime 2026 11 3 12 0 0 0 |}.

Definition rotterdam : node :=
  event " Open Toernooi " "/sport/tournament?id=AB12&x=1" "NTTB | Rotterdam"
        "2026-11-08" "8 nov" [link "Inschrijven" "/register/AB12"].

Definition rotterdam_closed : node :=
  event "Open Toernooi" "/sport/tournament?id=AB12" "NTTB | Rotterdam"
        "2026-11-08" "8 nov" [link "Inschrijving gesloten" "/register/AB12"].

Definition rotterdam_lowercase : node :=
  event "open toernooi" "/sport/tournament?id=AB12" "NTTB | rotterdam"
        "2026-11-08" "8 nov" [].

Definition rotterdam_spaced : node :=
  event "Open  Toernooi" "/sport/tournament?id=AB12" "NTTB | Rotterdam"
        "2026-11-08" "8 nov" [].


(** A candidate with the given identity and tab, everything else
    absent. *)
Definition candidate (id name start_date location source : string) : tournament :=
  {| c_id := id;
     c_extraction_method := "nttb_scraper_v2";
     c_timestamp := "2026-11-03T12:00:00";
     c_source := source;
     c_name := Some name;
     c_tournament_url := None;
     c_tournament_id := None;
     c_location := Some location;
     c_date := None;
     c_start_date := Some start_date;
     c_end_date := None;
     c_categories := None;
     c_registration_available := false;
     c_registration_url := None;
     c_registration_status := None;
     c_hash := fingerprint (Some name) (Some start_date) (Some location) |}.

(** An active row with the given dates and time of scraping, everything
    else absent. *)
Definition stored (id : string) (start_date end_date : option string)
    (scraped_at : string) : row :=
  {| r_id := id;
     r_tournament_id := None;
     r_name := id;
     r_location := None;
     r_date := None;
     r_start_date := start_date;
     r_end_date := end_date;
     r_categories := None;
     r_registration_available := false;
     r_registration_url := None;
     r_registration_deadline := None;
     r_registration_status := None;
     r_tournament_url := None;
     r_participant_count := None;
     r_entry_fee := None;
     r_contact_info := None;
     r_source := None;
     r_extraction_method := None;
     r_raw_data := None;
     r_scraped_at := scraped_at;
     r_hash := Some id;
     r_is_active := true |}.

(** The moment of the worked cases: 3 November 2026, noon. *)
Definition today : Z := DateTime.datetime 2026 11 3 12 0 0 0.

(** The table of the query scenario: start dates 5 and 40 days after
    [today], and one record without a date. *)
Definition in_5_days : row :=
  stored "in_5_days" (Some "2026-11-08") None "2026-11-02 06:00:00".
Definition in_40_days : row :=
  stored "in_40_days" (Some "2026-12-13") None "2026-11-02 06:00:00".
Definition undated : row :=
  stored "undated" None None "2026-11-02 06:00:00".
Definition scenario : table := [in_5_days; in_40_days; undated].

End Fixture.

(* ================================================================== *)
(** ** The notions the properties are stated with *)
(* ================================================================== *)

Module Notions.

Import Soup Scraper Store Adapter.
Local Open Scope string_scope.

(** The first hyperlink of an element whose text holds a registration
    keyword. *)
Definition first_registration_link (element : node) : option node :=
  List.find (fun link => Py.any_in registration_keywords (Py.lower (get_text link)))
            (hyperlinks element).

(** The text of a link holds one of the words for a closed
    registration. *)
Definition says_closed (link : node) : bool :=
  Py.any_in closed_keywords (Py.lower (get_text link)).


(** The candidate has a name that is not empty. *)
Definition has_name (t : tournament) : bool := Py.truthy_opt (c_name t).

(** The first candidate of a list that has a name and the given key. *)
Definition first_with_key (k : key) (tournaments : list tournament)
  : option tournament :=
  List.find (fun t => has_name t && key_eqb (dedup_key t) k) tournaments.

(** A text with its white space taken out. *)
Definition without_space (s : string) : string :=
  string_of_list_ascii
    (filter (fun c => negb (Py.isspace c)) (list_ascii_of_string s)).

(** Two texts that differ in white space and letter case at most. *)
Definition same_but_for_space_and_case (a b : string) : Prop :=
  Py.lower (without_space a) = Py.lower (without_space b).


(** Each fingerprint has at most one active row. *)
Definition at_most_one_active (db : table) : Prop :=
  forall h, (List.length (filter (active_with_hash h) db) <= 1)%nat.

Definition active_count (db : table) : nat := List.length (filter r_is_active db).

(** The table a reconciliation leaves. *)
Definition table_after (now : nat -> string) (tournaments : list tournament)
    (db : table) : table :=
  fst (_save_tournaments_to_db now tournaments db).

(** A row with its time of scraping blanked: what is left are the stored
    values that do not depend on when the statement ran. *)
Definition forget_scraped_at (r : row) : row :=
  {| r_id := r_id r;
     r_tournament_id := r_tournament_id r;
     r_name := r_name r;
     r_location := r_location r;
     r_date := r_date r;
     r_start_date := r_start_date r;
     r_end_date := r_end_date r;
     r_categories := r_categories r;
     r_registration_available := r_registration_available r;
     r_registration_url := r_registration_url r;
     r_registration_deadline := r_registration_deadline r;
     r_registration_status := r_registration_status r;
     r_tournament_url := r_tournament_url r;
     r_participant_count := r_participant_count r;
     r_entry_fee := r_entry_fee r;
     r_contact_info := r_contact_info r;
     r_source := r_source r;
     r_extraction_method := r_extraction_method r;
     r_raw_data := r_raw_data r;
     r_scraped_at := "";
     r_hash := r_hash r;
     r_is_active := r_is_active r |}.

Definition forget_state (st : save_state) : save_state :=
  {| rows := map forget_scraped_at (rows st);
     saved_count := saved_count st;
     handled := handled st |}.

Definition map_result {A B : Type} (f : A -> B) (r : result A) : result B :=
  match r with
  | Returns a => Returns (f a)
  | Raises e => Raises e
  end.

(** The columns no UPDATE of the reconciliation writes. *)
Definition frame (r : row)
  : string * option string * option Z * option string * option string
    * option string * option string * bool :=
  (r_id r, r_tournament_id r, r_participant_count r, r_entry_fee r,
   r_contact_info r, r_raw_data r, r_hash r, r_is_active r).

(** The UPDATE for one candidate on one row, at the time [k]. *)
Definition settle (k : string) (r : row) (t : tournament) : row :=
  match c_name t with
  | Some name => update_row t name k r
  | None => r
  end.

(** The UPDATEs for a list of candidates, in order, on one row. *)
Definition touch (k : string) (tournaments : list tournament) (r : row) : row :=
  fold_left (settle k) tournaments r.

Section Window.

Variable fromisoformat : string -> DateTime.iso_result.

(** What [get_upcoming_tournaments] parses for a tournament. *)
Definition start_of (t : Tournament) : DateTime.iso_result :=
  fromisoformat (Py.replace_char "Z" "+00:00" (t_start_date t)).

(** The tournament has a start date that does not parse, or one that
    parses to a naive datetime within [now .. cutoff]. *)
Definition kept (now cutoff : Z) (t : Tournament) : bool :=
  Py.truthy (t_start_date t)
  && match start_of t with
     | DateTime.Naive start => (now <=? start)%Z && (start <=? cutoff)%Z
     | DateTime.Aware _ => false
     | DateTime.ValueError => true
     end.

End Window.

(** The [Tournament] comes from an active row of the table. *)
Definition active_in (db : table) (t : Tournament) : Prop :=
  exists r, In r db /\ r_is_active r = true /\ t = of_row r.

(** The last candidate of a list with the given fingerprint. *)
Definition last_with_hash (h : string) (tournaments : list tournament)
  : option tournament :=
  List.find (fun t => String.eqb h (c_hash t)) (rev tournaments).

(** The row holds what the UPDATE and the INSERT write from the
    candidate. *)
Definition carries (t : tournament) (r : row) : Prop :=
  c_name t = Some (r_name r)
  /\ r_location r = c_location t
  /\ r_date r = c_date t
  /\ r_start_date r = c_start_date t
  /\ r_end_date r = c_end_date t
  /\ r_categories r = c_categories t
  /\ r_registration_available r = c_registration_available t
  /\ r_registration_url r = c_registration_url t
  /\ r_registration_deadline r = None
  /\ r_registration_status r = c_registration_status t
  /\ r_tournament_url r = c_tournament_url t
  /\ r_source r = Some (c_source t)
  /\ r_extraction_method r = Some (c_extraction_method t).

(** No candidate of the list has the fingerprint of an active row [r]. *)
Definition untouched_by (tournaments : list tournament) (r : row) : Prop :=
  forall t, In t tournaments -> active_with_hash (c_hash t) r = false.

End Notions.


(* ================================================================== *)
(** ** [get_active_tournaments] of the scraper *)
(* ================================================================== *)

Module Listing.

Import Scraper Store.

Section Sort.

Context {A : Type}.
Variable before : A -> A -> bool.

Fixpoint insert_by (x : A) (sorted : list A) : list A :=
  match sorted with
  | [] => [x]
  | y :: rest => if before x y then x :: sorted else y :: insert_by x rest
  end.

(** The rows in the order an ORDER BY gives them; rows the ordering does
    not tell apart come in the order of the table. *)
Definition sort_by (l : list A) : list A := fold_right insert_by [] l.

End Sort.

(** [ORDER BY start_date ASC, scraped_at DESC]: NULL start dates first,
    then the start dates byte by byte; among equal start dates the row
    scraped last comes first. *)
Definition listed_before (a b : row) : bool :=
  let later := negb (Py.str_lt (r_scraped_at a) (r_scraped_at b)) in
  match r_start_date a, r_start_date b with
  | None, None => later
  | None, Some _ => true
  | Some _, None => false
  | Some x, Some y =>
      match String.compare x y with
      | Lt => true
      | Eq => later
      | Gt => false
      end
  end.

(** The dict built from one row of the cursor. *)
Record listing : Type := mkListing {
  l_id : string;
  l_tournament_id : option string;
  l_name : string;
  l_location : option string;
  l_date : option string;
  l_start_date : option string;
  l_end_date : option string;
  l_categories : list string;
  l_registration_available : bool;
  l_registration_url : option string;
  l_registration_deadline : option string;
  l_registration_status : option string;
  l_tournament_url : option string;
  l_participant_count : option Z;
  l_entry_fee : option string;
  l_contact_info : option string;
  l_source : option string;
  l_scraped_at : string
}.

Definition listing_of_row (r : row) : listing :=
  {| l_id := r_id r;
     l_tournament_id := r_tournament_id r;
     l_name := r_name r;
     l_location := r_location r;
     l_date := r_date r;
     l_start_date := r_start_date r;
     l_end_date := r_end_date r;
     l_categories := match r_categories r with Some l => l | None => [] end;
     l_registration_available := r_registration_available r;
     l_registration_url := r_registration_url r;
     l_registration_deadline := r_registration_deadline r;
     l_registration_status := r_registration_status r;
     l_tournament_url := r_tournament_url r;
     l_participant_count := r_participant_count r;
     l_entry_fee := r_entry_fee r;
     l_contact_info := r_contact_info r;
     l_source := r_source r;
     l_scraped_at := r_scraped_at r |}.

(** The rows the SELECT of [get_active_tournaments] fetches. *)
Definition select_listed (db : table) : list row :=
  sort_by listed_before (filter r_is_active db).

(** [get_active_tournaments] on a database that opens. *)
Definition get_active_tournaments (db : table) : list listing :=
  map listing_of_row (select_listed db).

(** The order of two start dates as [ORDER BY start_date] sees it, on the
    texts a [Tournament] holds. *)
Definition start_date_sorted (l : list Adapter.Tournament) : Prop :=
  Sorted (fun a b => Py.str_lt (Adapter.t_start_date b) (Adapter.t_start_date a) = false) l.

End Listing.


(* ================================================================== *)
(** ** The browser pass and [scrape_tournaments] *)
(* ================================================================== *)

Module Pipeline.

Import Soup Scraper Store.
Local Open Scope string_scope.

(** *** [_handle_cookie_banner] *)

Definition accept_selectors : list string :=
  ["//a[@id='CybotCookiebotDialogBodyLevelButtonLevelOptinAllowAll']";
   "//a[@id='CybotCookiebotDialogBodyButtonAccept']";
   "//button[@id='CybotCookiebotDialogBodyLevelButtonLevelOptinAllowAll']";
   "//button[@id='CybotCookiebotDialogBodyButtonAccept']";
   "//button[contains(translate(text(), 'ABCDEFGHIJKLMNOPQRSTUVWXYZ', 'abcdefghijklmnopqrstuvwxyz'), 'accept')]";
   "//button[contains(translate(text(), 'ABCDEFGHIJKLMNOPQRSTUVWXYZ', 'abcdefghijklmnopqrstuvwxyz'), 'accepteren')]";
   "//a[contains(translate(text(), 'ABCDEFGHIJKLMNOPQRSTUVWXYZ', 'abcdefghijklmnopqrstuvwxyz'), 'accept')]";
   "//a[contains(translate(text(), 'ABCDEFGHIJKLMNOPQRSTUVWXYZ', 'abcdefghijklmnopqrstuvwxyz'), 'accepteren')]";
   "//button[contains(@class, 'accept')]";
   "//a[contains(@class, 'accept')]"].

(** What waiting for a selector and clicking its element comes to: the
    click went through, the wait ran into [TimeoutException], or the scroll
    or the click raised something else. *)
Inductive click_outcome : Type :=
| Clicked
| TimedOut
| Failed.

Definition was_clicked (o : click_outcome) : bool :=
  match o with Clicked => true | _ => false end.

(** The loop over the selectors: the selectors tried, in order, and
    whether one was clicked.  Both exceptions go on to the next
    selector. *)
Fixpoint try_selectors (page : string -> click_outcome) (selectors : list string)
  : list string * bool :=
  match selectors with
  | [] => ([], false)
  | selector :: rest =>
      match page selector with
      | Clicked => ([selector], true)
      | TimedOut | Failed =>
          let '(tried, clicked) := try_selectors page rest in
          (selector :: tried, clicked)
      end
  end.

Definition _handle_cookie_banner (page : string -> click_outcome)
  : list string * bool :=
  try_selectors page accept_selectors.

(** *** [_scroll_to_load_all] *)

Definition max_scrolls : nat := 5.

(** The [while] loop.  [height k] is what [document.body.scrollHeight]
    reads once the page has been scrolled to the bottom [k] times;
    [budget] is
    [max_scrolls - scroll_attempts].  The result is [scroll_attempts] and
    the number of times the page was scrolled. *)
Fixpoint scroll_loop (height : nat -> Z) (budget : nat)
    (scroll_attempts scrolled : nat) (last_height : Z) : nat * nat :=
  match budget with
  | O => (scroll_attempts, scrolled)
  | S budget' =>
      let new_height := height (S scrolled) in
      if (new_height =? last_height)%Z then (scroll_attempts, S scrolled)
      else scroll_loop height budget' (S scroll_attempts) (S scrolled) new_height
  end.

Definition _scroll_to_load_all (height : nat -> Z) : nat * nat :=
  scroll_loop height max_scrolls 0 0 (height 0).

(** *** [_scrape_upcoming_tab], [_scrape_recent_tab] *)

(** What a tab comes to once its selectors were tried and the page was
    scrolled: the parsed [page_source], or an exception on the way, which
    the method catches. *)
Inductive tab_view : Type :=
| TabPage (soup : node)
| TabError.

Definition _scrape_upcoming_tab (clk : nat -> clock) (v : tab_view) : list tournament :=
  match v with
  | TabPage soup => _parse_tournaments clk soup "upcoming"
  | TabError => []
  end.

Definition _scrape_recent_tab (clk : nat -> clock) (v : tab_view) : list tournament :=
  match v with
  | TabPage soup => _parse_tournaments clk soup "recent"
  | TabError => []
  end.

(** *** [_scrape_with_selenium] *)

(** A browser session: the driver raises [WebDriverException] outside the
    two tab methods, or an exception of another class (with its text),
    which the method does not catch, or it shows the two tabs. *)
Inductive session : Type :=
| DriverError
| OtherError (message : string)
| Tabs (upcoming recent : tab_view).

(** The candidates gathered from the two tabs. *)
Definition gathered (clk clk' : nat -> clock) (upcoming recent : tab_view)
  : list tournament :=
  (_scrape_upcoming_tab clk upcoming ++ _scrape_recent_tab clk' recent)%list.

(** The return value and [self.tournaments_data] afterwards; [None] is
    the exception the method lets through.  (The page the method writes
    to [debug_page.html] when nothing was found is left out.) *)
Definition _scrape_with_selenium (clk clk' : nat -> clock) (s : session)
    (tournaments_data : list tournament)
  : option (bool * list tournament) :=
  match s with
  | DriverError => Some (false, tournaments_data)
  | OtherError _ => None
  | Tabs upcoming recent =>
      match gathered clk clk' upcoming recent with
      | [] => Some (false, tournaments_data)
      | all_tournaments =>
          Some (true, _remove_duplicate_tournaments all_tournaments)
      end
  end.

(** *** [_log_scrape_attempt] and [scrape_tournaments] *)

(** One row of [scrape_log]. *)
Record log_row : Type := mkLog {
  g_id : nat;
  g_scraped_at : string;
  g_tournaments_found : nat;
  g_status : string;
  g_error_message : option string
}.

(** The two tables and the scraper's [tournaments_data]. *)
Record state : Type := mkState {
  tournaments : table;
  scrape_log : list log_row;
  tournaments_data : list tournament
}.

(** The INSERT of [_log_scrape_attempt]; the id is one more than the
    largest of the table. *)
Definition _log_scrape_attempt (at_ : string) (tournaments_found : nat)
    (status : string) (error_message : option string) (log : list log_row)
  : list log_row :=
  (log ++ [{| g_id := S (list_max (map g_id log));
              g_scraped_at := at_;
              g_tournaments_found := tournaments_found;
              g_status := status;
              g_error_message := error_message |}])%list.

(** [scrape_tournaments]: the state afterwards and the return value.
    [now] gives the time of each statement of the reconciliation, [at_]
    the time of the log row.

    When [_save_tournaments_to_db] raises, its connection is neither
    committed nor closed, and the exception the handler holds keeps it
    alive: the transaction it began still has the write lock of the
    database.  The handler's [_log_scrape_attempt] opens a second
    connection, its INSERT waits for the lock and raises
    [sqlite3.OperationalError] (database is locked), which leaves
    [scrape_tournaments]; no row is logged. *)
Definition scrape_tournaments (clk clk' : nat -> clock) (now : nat -> string)
    (at_ : string) (s : session) (st : state) : state * result bool :=
  match _scrape_with_selenium clk clk' s (tournaments_data st) with
  | Some (true, data) =>
      match _save_tournaments_to_db now data (tournaments st) with
      | (db, Returns saved_count) =>
          ({| tournaments := db;
              scrape_log := _log_scrape_attempt at_ saved_count "success"
                              (Some "Used selenium method") (scrape_log st);
              tournaments_data := data |}, Returns true)
      | (db, Raises _) =>
          ({| tournaments := db;
              scrape_log := scrape_log st;
              tournaments_data := data |}, Raises OperationalError)
      end
  | Some (false, data) =>
      ({| tournaments := tournaments st;
          scrape_log := _log_scrape_attempt at_ 0 "failed" (Some "Selenium failed")
                          (scrape_log st);
          tournaments_data := data |}, Returns false)
  | None =>
      ({| tournaments := tournaments st;
          scrape_log := _log_scrape_attempt at_ 0 "error"
                          (Some ("Scraping error: "
                                   ++ match s with OtherError message => message
                                      | _ => "" end))
                          (scrape_log st);
          tournaments_data := tournaments_data st |}, Returns false)
  end.

End Pipeline.


(* ================================================================== *)
(** ** The callers: announcements, commands and timers *)
(* ================================================================== *)

Module Frontend.

Import Store Adapter.
Local Open Scope string_scope.

(** A text given by its bytes (the literals of the source that are not
    ASCII). *)
Definition bytes (l : list nat) : string := string_of_list_ascii (map ascii_of_nat l).

(** ["\n"]. *)
Definition nl : string := bytes [10].

(** [sep.join(parts)]. *)
Fixpoint join_with (sep : string) (parts : list string) : string :=
  match parts with
  | [] => ""
  | [p] => p
  | p :: rest => p ++ sep ++ join_with sep rest
  end.

(** What the code puts in a [discord.Embed]. *)
Record embed : Type := mkEmbed {
  e_title : string;
  e_description : option string;
  e_color : Z;
  e_timestamp : option Z;
  e_fields : list (string * string * bool);
  e_footer : option string
}.

(** [NTTBStyle]. *)
Definition PRIMARY_BLUE : Z := 26316.
Definition ACCENT_ORANGE : Z := 16737792.
Definition NEUTRAL_GRAY : Z := 8421504.
Definition EMOJI_ping_pong : string := bytes [239; 163; 191; 195; 188; 195; 168; 195; 172].
Definition EMOJI_info : string :=
  bytes [226; 128; 154; 195; 145; 207; 128; 195; 148; 226; 136; 143; 195; 168].

(** *** [AnnouncementBuilder.build_tournament_reminder] *)

Definition reminder_field (t : Tournament) : string * string * bool :=
  let value := "**Locatie:** " ++ t_location t ++ nl ++ "**Datum:** " ++ t_date t in
  let value := if t_registration_available t
               then value ++ nl ++ "**Inschrijving:** OPEN" else value in
  let value := if Py.truthy_opt (t_tournament_url t)
               then value ++ nl ++ "[Meer info](" ++ Py.get_or_empty (t_tournament_url t) ++ ")"
               else value in
  (t_name t, value, false).

Section Reminder.

Variable fromisoformat : string -> DateTime.iso_result.

(** The embed, or [None]; [now] is [datetime.now()] of the query and
    [utc_now] the timestamp of the embed.  The [except] clause turns every
    exception into [None]. *)
Definition build_tournament_reminder (now utc_now : Z) (d : database) : option embed :=
  match get_upcoming_tournaments fromisoformat now 7 d with
  | Raises _ => None
  | Returns [] => None
  | Returns upcoming =>
      Some {| e_title := bytes [240; 159; 143; 134] ++ " Toernooien Deze Week";
              e_description :=
                Some (Py.str_of_nat (List.length upcoming)
                        ++ " toernooien in de komende 7 dagen");
              e_color := 16753920;
              e_timestamp := Some utc_now;
              e_fields := map reminder_field (firstn 5 upcoming);
              e_footer := Some "Gebruik /toernooien voor volledige lijst" |}
  end.

End Reminder.

(** *** [create_embeds] *)

(** [range(0, n, k)] for a positive [k]. *)
Definition page_starts (n k : nat) : list nat :=
  map (fun j => j * k) (seq 0 ((n + k - 1) / k)).

Section Embeds.

Context {A : Type}.

(** [items[i:i + k]]. *)
Definition chunk (items : list A) (i k : nat) : list A := firstn k (skipn i items).

(** The chunks the loop of [create_embeds] walks through. *)
Definition chunks (items : list A) (k : nat) : list (list A) :=
  map (fun i => chunk items i k) (page_starts (List.length items) k).

(** [create_embeds]; [None] is the [ZeroDivisionError] of a page size 0.
    [utc_now i] is the clock when the page that starts at [i] is built. *)
Definition create_embeds (utc_now : nat -> Z) (items : list A) (title : string)
    (format_func : A -> string) (items_per_page : Z) (color : option Z)
  : option (list embed) :=
  let color := match color with Some c => c | None => PRIMARY_BLUE end in
  match items with
  | [] =>
      Some [{| e_title := EMOJI_info ++ " " ++ title;
               e_description := Some "Geen data beschikbaar";
               e_color := NEUTRAL_GRAY;
               e_timestamp := None;
               e_fields := [];
               e_footer := Some "TTV Salamanders" |}]
  | _ =>
      if (items_per_page =? 0)%Z then None
      else if (items_per_page <? 0)%Z then Some []
      else
        let k := Z.to_nat items_per_page in
        let n := List.length items in
        let total_pages := (n + k - 1) / k in
        Some (map (fun i =>
                     {| e_title := EMOJI_ping_pong ++ " " ++ title;
                        e_description :=
                          Some (join_with (nl ++ nl) (map format_func (chunk items i k)));
                        e_color := color;
                        e_timestamp := Some (utc_now i);
                        e_fields := [];
                        e_footer :=
                          Some ("Pagina " ++ Py.str_of_nat (i / k + 1) ++ "/"
                                  ++ Py.str_of_nat total_pages ++ " "
                                  ++ bytes [226; 128; 154; 195; 132; 194; 162]
                                  ++ " TTV Salamanders") |})
                  (page_starts n k))
  end.

End Embeds.

(** *** [PaginationView] *)

Record view : Type := mkView {
  embeds : list embed;
  current_page : Z;
  previous_disabled : bool;
  next_disabled : bool
}.

Definition update_buttons (v : view) : view :=
  {| embeds := embeds v;
     current_page := current_page v;
     previous_disabled := (current_page v =? 0)%Z;
     next_disabled := (current_page v =? Z.of_nat (List.length (embeds v)) - 1)%Z |}.

(** [PaginationView(embeds)]. *)
Definition new_view (es : list embed) : view :=
  update_buttons {| embeds := es; current_page := 0;
                    previous_disabled := false; next_disabled := false |}.

Definition turn_to (v : view) (page : Z) : view :=
  update_buttons {| embeds := embeds v; current_page := page;
                    previous_disabled := previous_disabled v;
                    next_disabled := next_disabled v |}.

Definition previous_button (v : view) : view :=
  if (0 <? current_page v)%Z then turn_to v (current_page v - 1) else v.

Definition next_button (v : view) : view :=
  if (current_page v <? Z.of_nat (List.length (embeds v)) - 1)%Z
  then turn_to v (current_page v + 1) else v.

(** The two buttons. *)
Inductive press : Type :=
| Previous
| Next.

Definition pressed (v : view) (p : press) : view :=
  match p with
  | Previous => previous_button v
  | Next => next_button v
  end.

(** [self.embeds[self.current_page]], the page a press shows; a negative
    index counts from the end, and [None] is the [IndexError]. *)
Definition shown (v : view) : option embed :=
  let n := Z.of_nat (List.length (embeds v)) in
  let i := if (current_page v <? 0)%Z then (current_page v + n)%Z else current_page v in
  if (i <? 0)%Z then None else nth_error (embeds v) (Z.to_nat i).

(** *** [tournaments_command] *)

(** What the command sends: a text, one embed, or the first embed under a
    [PaginationView]. *)
Inductive response : Type :=
| Text (content : string) (ephemeral : bool)
| Single (e : embed)
| Paged (first : embed) (v : view).

(** [format_tournament] of [tournaments_command]. *)
Definition format_tournament (t : Tournament) : string :=
  let text := "**" ++ t_name t ++ "**" ++ nl
              ++ bytes [239; 163; 191; 195; 188; 195; 172; 195; 167] ++ " "
              ++ t_location t ++ " | "
              ++ bytes [239; 163; 191; 195; 188; 195; 172; 195; 150] ++ " " ++ t_date t in
  let text := match t_categories t with
              | [] => text
              | _ => text ++ nl ++ bytes [239; 163; 191; 195; 188; 195; 168; 195; 172]
                       ++ " " ++ join_with ", " (firstn 3 (t_categories t))
              end in
  let text := if t_registration_available t
              then text ++ nl ++ bytes [226; 128; 154; 195; 186; 195; 150]
                     ++ " **Inschrijving open**"
              else text in
  if Py.truthy_opt (t_tournament_url t)
  then text ++ nl ++ "[Meer info](" ++ Py.get_or_empty (t_tournament_url t) ++ ")"
  else text.

Definition unavailable_text : string :=
  "Toernooifunctie is niet beschikbaar. Voer eerst `python nttbscrape.py --mode scrape` uit.".

Definition error_text : string :=
  "Fout bij ophalen toernooien. Zorg dat de database bestaat (run nttbscrape.py).".

Definition nothing_found (days : Z) : embed :=
  {| e_title := bytes [239; 163; 191; 195; 188; 195; 168; 195; 156]
                  ++ " Geen Toernooien Gevonden";
     e_description :=
       Some ("Geen toernooien gevonden in de komende " ++ Py.str_of_Z days ++ " dagen.");
     e_color := NEUTRAL_GRAY;
     e_timestamp := None;
     e_fields := [];
     e_footer := None |}.

Section Command.

Variable fromisoformat : string -> DateTime.iso_result.

(** [tournaments_command(days)]; [available] is [TOURNAMENTS_AVAILABLE].
    The [except] clause answers every exception with [error_text]. *)
Definition tournaments_command (available : bool) (now : Z) (utc_now : nat -> Z)
    (days : Z) (d : database) : response :=
  if negb available then Text unavailable_text true
  else
    match get_upcoming_tournaments fromisoformat now days d with
    | Raises _ => Text error_text true
    | Returns [] => Single (nothing_found days)
    | Returns tournaments =>
        match create_embeds utc_now tournaments
                ("Komende Toernooien (" ++ Py.str_of_Z days ++ " dagen)")
                format_tournament 5 (Some ACCENT_ORANGE) with
        | None => Text error_text true
        | Some [] => Text error_text true
        | Some [e] => Single e
        | Some (e :: es) => Paged e (new_view (e :: es))
        end
    end.

End Command.

(** *** [ScheduledTasks._wait_until_time], [_wait_until_weekday] *)

Inductive timer_exn : Type :=
| ValueError
| OverflowError.

(** [dt.replace(hour=h, minute=m, second=0, microsecond=0)]. *)
Definition replace_time (dt hour minute : Z) : option Z :=
  if (0 <=? hour)%Z && (hour <? 24)%Z && (0 <=? minute)%Z && (minute <? 60)%Z
  then Some ((dt / DateTime.US_PER_DAY * DateTime.US_PER_DAY
              + (hour * 3600 + minute * 60) * DateTime.US_PER_SECOND)%Z)
  else None.

(** [dt.weekday()]: Monday is 0; 0001-01-01 is a Monday. *)
Definition weekday_of (dt : Z) : Z := ((dt / DateTime.US_PER_DAY) mod 7)%Z.

(** [dt.hour]. *)
Definition hour_of (dt : Z) : Z :=
  ((dt mod DateTime.US_PER_DAY) / (3600 * DateTime.US_PER_SECOND))%Z.

(** [_wait_until_time]: the target and [target - now], in
    microseconds. *)
Definition _wait_until_time (now hour minute : Z) : timer_exn + (Z * Z) :=
  match replace_time now hour minute with
  | None => inl ValueError
  | Some target =>
      if (target <=? now)%Z then
        match DateTime.add_days target 1 with
        | Some target' => inr (target', (target' - now)%Z)
        | None => inl OverflowError
        end
      else inr (target, (target - now)%Z)
  end.

(** [_wait_until_weekday]: the target and [target - now], in
    microseconds. *)
Definition _wait_until_weekday (now weekday hour minute : Z) : timer_exn + (Z * Z) :=
  let days_ahead := (weekday - weekday_of now)%Z in
  let days_ahead :=
    if (days_ahead <? 0)%Z || ((days_ahead =? 0)%Z && (hour <=? hour_of now)%Z)
    then (days_ahead + 7)%Z else days_ahead in
  match DateTime.add_days now days_ahead with
  | None => inl OverflowError
  | Some target =>
      match replace_time target hour minute with
      | None => inl ValueError
      | Some target' => inr (target', (target' - now)%Z)
      end
  end.

End Frontend.


(* ================================================================== *)
(** * Properties *)
(* ================================================================== *)

Import Soup Scraper Store Adapter.

(** ** The primitives on small inputs *)

Example md5_empty : MD5.hexdigest "" = "d41d8cd98f00b204e9800998ecf8427e".
Proof. vm_compute. reflexivity. Qed.
Example md5_abc : MD5.hexdigest "abc" = "900150983cd24fb0d6963f7d28e17f72".
Proof. vm_compute. reflexivity. Qed.
Example md5_long :
  MD5.hexdigest "aaaaaaaaaaaaaaaaaaaaaaaaaaaaaaaaaaaaaaaaaaaaaaaaaaaaaaaaaaaaaaaaaaaaaa"
  = "0f5c6c4e740bfcc08c3c26ccb2673d46".
Proof. vm_compute. reflexivity. Qed.
Example split_pipe : Py.split "|" "NTTB | Rotterdam | x" = ["NTTB "; " Rotterdam "; " x"].
Proof. vm_compute. reflexivity. Qed.
Example split_id : Py.split "id=" "/t?id=AB12&x=1" = ["/t?"; "AB12&x=1"].
Proof. vm_compute. reflexivity. Qed.
Example strip_ex : Py.strip "  a b  " = "a b".
Proof. vm_compute. reflexivity. Qed.
Example str_ex : Py.str_of_Z 1700000000 = "1700000000" /\ Py.str_of_nat 0 = "0".
Proof. vm_compute. split; reflexivity. Qed.
Example civil_roundtrip :
  DateTime.civil_from_days (DateTime.days_from_civil 2026 11 3) = (2026, 11, 3)%Z
  /\ DateTime.days_from_civil 1 1 1 = 0%Z
  /\ DateTime.days_from_civil 1970 1 1 = 719162%Z.
Proof. vm_compute. repeat split; reflexivity. Qed.
Example isoformat_ex :
  DateTime.isoformat (DateTime.datetime 2026 11 3 9 5 7 0) = "2026-11-03T09:05:07"
  /\ DateTime.isoformat (DateTime.datetime 2024 2 29 23 59 59 1500) = "2024-02-29T23:59:59.001500"
  /\ DateTime.current_timestamp (DateTime.datetime 2026 11 3 9 5 7 0) = "2026-11-03 09:05:07".
Proof. vm_compute. repeat split; reflexivity. Qed.
Example fromisoformat_ex :
  DateTime.fromisoformat "2026-11-08" = DateTime.Naive (DateTime.datetime 2026 11 8 0 0 0 0)
  /\ DateTime.fromisoformat "2026-11-08T10:30:00" = DateTime.Naive (DateTime.datetime 2026 11 8 10 30 0 0)
  /\ DateTime.fromisoformat "2026-11-08 10:30" = DateTime.Naive (DateTime.datetime 2026 11 8 10 30 0 0)
  /\ DateTime.fromisoformat "2026-11-08T10:30:00+00:00" = DateTime.Aware (DateTime.datetime 2026 11 8 10 30 0 0)
  /\ DateTime.fromisoformat "8 november" = DateTime.ValueError
  /\ DateTime.fromisoformat "2026-02-30" = DateTime.ValueError.
Proof. vm_compute. repeat split; reflexivity. Qed.

(** ** Strings *)

Section StringFacts.

Lemma prefix_lower (n h : string) :
  String.prefix n h = true -> String.prefix (Py.lower n) (Py.lower h) = true.
Proof.
  revert n; induction h as [|b h IH]; intros [|a n] H; simpl in *;
    try reflexivity; try discriminate.
  destruct (ascii_dec a b) as [->|]; [|discriminate].
  destruct (ascii_dec (Py.lower_ascii b) (Py.lower_ascii b)); [|congruence].
  now apply IH.
Qed.

Lemma contains_lower (n h : string) :
  Py.contains n h = true -> Py.contains (Py.lower n) (Py.lower h) = true.
Proof.
  induction h as [|b h IH]; simpl; intros H.
  - rewrite orb_false_r in *. now apply (prefix_lower n EmptyString).
  - apply orb_true_iff in H as [H|H]; apply orb_true_iff.
    + left. now apply (prefix_lower n (String b h)).
    + right. now apply IH.
Qed.



End StringFacts.

Import Notions.

(** ** The record extractor *)

Section Extraction.



(** A record of the loop comes from the element at its index. *)
Lemma parse_loop_origin (clk : nat -> clock) (source : string)
    (elements : list node) :
  forall i t,
    In t (parse_loop clk source i elements) ->
    exists j element,
      nth_error elements j = Some element
      /\ t = _extract_tournament_details (clk (i + j)) element (i + j) source
      /\ has_name t = true.
Proof.
  induction elements as [|e rest IH]; intros i t H; simpl in H; [destruct H|].
  destruct (Py.truthy_opt (c_name (_extract_tournament_details (clk i) e i source)))
    eqn:Hn.
  - destruct H as [<-|H].
    + exists 0, e. rewrite Nat.add_0_r. repeat split; assumption.
    + destruct (IH _ _ H) as (j & el & Hj & Ht & Hnm).
      exists (S j), el. rewrite Nat.add_succ_r. repeat split; assumption.
  - destruct (IH _ _ H) as (j & el & Hj & Ht & Hnm).
    exists (S j), el. rewrite Nat.add_succ_r. repeat split; assumption.
Qed.


(** The registration keys of an extracted record are those
    [_extract_registration_info] computes. *)
Lemma details_registration (clk : clock) (element : node) (i : nat) (source : string) :
  let t := _extract_tournament_details clk element i source in
  (c_registration_available t, c_registration_url t, c_registration_status t)
  = _extract_registration_info element.
Proof.
  unfold _extract_tournament_details.
  destruct (extract_dates element) as [[? ?] ?].
  destruct (_extract_registration_info element) as [[? ?] ?]. reflexivity.
Qed.

Lemma scan_links_closed (links : list node) (link : node) :
  List.find (fun l => Py.any_in registration_keywords (Py.lower (get_text l))) links
    = Some link ->
  says_closed link = true ->
  exists url, scan_links links = (false, url, Some "closed").
Proof.
  induction links as [|l rest IH]; intros Hf Hc; [discriminate|].
  cbn [List.find] in Hf. cbn [scan_links].
  destruct (Py.any_in registration_keywords (Py.lower (get_text l))) eqn:Hr.
  - injection Hf as ->. unfold says_closed in Hc. rewrite Hc. eauto.
  - now apply IH.
Qed.

End Extraction.



(** Every candidate gathered from a tab has a name that is not empty. *)
Lemma parsed_candidates_have_names
    (clk : nat -> clock) (soup : node) (source : string) (t : tournament) :
  In t (_parse_tournaments clk soup source) -> has_name t = true.
Proof.
  intros H. unfold _parse_tournaments in H.
  now destruct (parse_loop_origin _ _ _ _ _ H) as (_ & _ & _ & _ & Hn).
Qed.

(** C7.  When the first hyperlink whose text holds a registration keyword
    also holds a closed keyword, the extracted record has
    [registration_available = False] and [registration_status = 'closed'],
    link or no link; the link text ["Inschrijving gesloten"] is such a
    text. *)
Theorem closed_link_overrides_registration
    (clk : clock) (element : node) (index : nat) (source : string) (link : node) :
  first_registration_link element = Some link ->
  says_closed link = true ->
  let t := _extract_tournament_details clk element index source in
  c_registration_available t = false
  /\ c_registration_status t = Some "closed".
Proof.
  intros Hf Hc t.
  pose proof (details_registration clk element index source) as Hd.
  fold t in Hd. cbv zeta in Hd.
  destruct (scan_links_closed _ _ Hf Hc) as [url Hs].
  unfold _extract_registration_info in Hd. rewrite Hs in Hd.
  injection Hd as H1 _ H3. now split.
Qed.

Lemma closed_link_overrides_registration_witness :
  let link := Fixture.link "Inschrijving gesloten" "/register/AB12" in
  let t := _extract_tournament_details Fixture.clock0 Fixture.rotterdam_closed 0 "upcoming" in
  first_registration_link Fixture.rotterdam_closed = Some link
  /\ says_closed link = true
  /\ c_registration_available t = false
  /\ c_registration_status t = Some "closed".
Proof.
  intros link t.
  assert (Hf : first_registration_link Fixture.rotterdam_closed = Some link)
    by (vm_compute; reflexivity).
  assert (Hc : says_closed link = true) by (vm_compute; reflexivity).
  split; [exact Hf|]. split; [exact Hc|].
  exact (closed_link_overrides_registration
           Fixture.clock0 Fixture.rotterdam_closed 0 "upcoming" link Hf Hc).
Defined.

(** ** The fingerprint *)

Lemma details_hash (clk : clock) (element : node) (i : nat) (source : string) :
  let t := _extract_tournament_details clk element i source in
  c_hash t = MD5.hexdigest (Py.get_or_empty (c_name t)
                              ++ Py.get_or_empty (c_start_date t)
                              ++ Py.get_or_empty (c_location t)).
Proof.
  unfold _extract_tournament_details.
  destruct (extract_dates element) as [[? ?] ?].
  destruct (_extract_registration_info element) as [[? ?] ?]. reflexivity.
Qed.

(** C2, as the code has it.  The fingerprint is the MD5 of name, start date
    and location as extracted, put side by side: two candidates whose three
    texts are the same have the same fingerprint, whichever tab, index or
    moment they were extracted at. *)
Theorem fingerprint_of_equal_identity
    (clk1 clk2 : clock) (e1 e2 : node) (i1 i2 : nat) (s1 s2 : string) :
  let a := _extract_tournament_details clk1 e1 i1 s1 in
  let b := _extract_tournament_details clk2 e2 i2 s2 in
  c_name a = c_name b ->
  c_start_date a = c_start_date b ->
  c_location a = c_location b ->
  c_hash a = c_hash b.
Proof.
  intros a b Hn Hs Hl. unfold a, b.
  rewrite (details_hash clk1 e1 i1 s1), (details_hash clk2 e2 i2 s2).
  fold a b. now rewrite Hn, Hs, Hl.
Qed.

Lemma fingerprint_of_equal_identity_witness :
  let later := {| time_time := 1793793600;
                  datetime_now := DateTime.datetime 2026 11 4 12 0 0 0 |} in
  let a := _extract_tournament_details Fixture.clock0 Fixture.rotterdam 0 "upcoming" in
  let b := _extract_tournament_details later Fixture.rotterdam_closed 3 "recent" in
  c_name a = c_name b
  /\ c_start_date a = c_start_date b
  /\ c_location a = c_location b
  /\ c_hash a = c_hash b.
Proof.
  intros later a b.
  assert (Hn : c_name a = c_name b) by (vm_compute; reflexivity).
  assert (Hs : c_start_date a = c_start_date b) by (vm_compute; reflexivity).
  assert (Hl : c_location a = c_location b) by (vm_compute; reflexivity).
  split; [exact Hn|]. split; [exact Hs|]. split; [exact Hl|].
  exact (fingerprint_of_equal_identity Fixture.clock0 later Fixture.rotterdam
           Fixture.rotterdam_closed 0 3 "upcoming" "recent" Hn Hs Hl).
Defined.

(** C2, as stated, fails.  Two list items with the same start date whose
    names and locations differ in letter case only, and two that differ in
    inner white space only, get different fingerprints. *)
Lemma fingerprint_differs_on_case_and_space :
  let a := _extract_tournament_details Fixture.clock0 Fixture.rotterdam_closed 0 "upcoming" in
  let b := _extract_tournament_details Fixture.clock0 Fixture.rotterdam_lowercase 0 "upcoming" in
  let c := _extract_tournament_details Fixture.clock0 Fixture.rotterdam_spaced 0 "upcoming" in
  (same_but_for_space_and_case (Py.get_or_empty (c_name a)) (Py.get_or_empty (c_name b))
   /\ same_but_for_space_and_case (Py.get_or_empty (c_location a))
                                  (Py.get_or_empty (c_location b))
   /\ c_start_date a = c_start_date b
   /\ c_hash a = "a37579725df8c8173c50646925e48f96"
   /\ c_hash b = "d9f537875fa9ef542648ae2e841e1010")
  /\ (same_but_for_space_and_case (Py.get_or_empty (c_name a)) (Py.get_or_empty (c_name c))
      /\ c_location a = c_location c
      /\ c_start_date a = c_start_date c
      /\ c_hash c = "554728abea3a56885eea65a859c39109")
  /\ c_hash a <> c_hash b
  /\ c_hash a <> c_hash c.
Proof.
  vm_compute. repeat split; discriminate.
Qed.

(** ** The deduplicator *)

Section Dedup.

Local Arguments dedup_key : simpl never.
Local Arguments key_eqb : simpl never.
Local Arguments first_with_key : simpl never.

Lemma key_eqb_eq (a b : key) : key_eqb a b = true <-> a = b.
Proof.
  destruct a as [[a1 a2] a3], b as [[b1 b2] b3]. unfold key_eqb.
  rewrite !andb_true_iff, !String.eqb_eq. split.
  - intros [[-> ->] ->]. reflexivity.
  - intros H. injection H as -> -> ->. auto.
Qed.

Lemma key_eqb_refl (a : key) : key_eqb a a = true.
Proof. now apply key_eqb_eq. Qed.

Lemma seen_In (k : key) (seen : list key) :
  existsb (key_eqb k) seen = true <-> In k seen.
Proof.
  rewrite existsb_exists. split.
  - intros [x [Hin He]]. apply key_eqb_eq in He. now subst.
  - intros Hin. exists k. split; [assumption | apply key_eqb_refl].
Qed.

(** A record the loop keeps has a key not seen before, and is the first
    named candidate with that key in what the loop was given. *)
Lemma dedup_loop_first (tournaments : list tournament) :
  forall seen u,
    In u (dedup_loop seen tournaments) ->
    ~ In (dedup_key u) seen
    /\ first_with_key (dedup_key u) tournaments = Some u.
Proof.
  induction tournaments as [|t rest IH]; intros seen u H; simpl in H; [destruct H|].
  assert (Hstep : first_with_key (dedup_key u) (t :: rest)
                  = if has_name t && key_eqb (dedup_key t) (dedup_key u)
                    then Some t else first_with_key (dedup_key u) rest)
    by reflexivity.
  rewrite Hstep. unfold has_name at 1.
  destruct (Py.truthy_opt (c_name t)) eqn:Hn; simpl in H |- *.
  - destruct (existsb (key_eqb (dedup_key t)) seen) eqn:Hs.
    + destruct (IH _ _ H) as [Hu Hf]. split; [assumption|].
      destruct (key_eqb (dedup_key t) (dedup_key u)) eqn:He; [|assumption].
      apply key_eqb_eq in He. apply seen_In in Hs. congruence.
    + destruct H as [<-|H].
      * rewrite key_eqb_refl. split; [|reflexivity].
        intros Hin. apply seen_In in Hin. congruence.
      * destruct (IH _ _ H) as [Hu Hf]. split; [intros Hin; apply Hu; now right|].
        destruct (key_eqb (dedup_key t) (dedup_key u)) eqn:He; [|assumption].
        apply key_eqb_eq in He. exfalso. apply Hu. now left.
  - now apply IH.
Qed.

Lemma dedup_loop_NoDup (tournaments : list tournament) :
  forall seen, NoDup (map dedup_key (dedup_loop seen tournaments)).
Proof.
  induction tournaments as [|t rest IH]; intros seen; simpl; [constructor|].
  destruct (Py.truthy_opt (c_name t)); simpl; [|apply IH].
  destruct (existsb (key_eqb (dedup_key t)) seen); [apply IH|].
  simpl. constructor; [|apply IH].
  intros Hin. apply in_map_iff in Hin as [u [Hk Hu]].
  apply dedup_loop_first in Hu as [Hu _]. apply Hu. rewrite Hk. now left.
Qed.


End Dedup.




(** ** Reconciliation *)

Section ListFacts.

Context {A B : Type}.

Lemma existsb_map_inv (p : B -> bool) (q : A -> bool) (f : A -> B) (l : list A) :
  (forall x, p (f x) = q x) -> existsb p (map f l) = existsb q l.
Proof.
  intros H. induction l as [|x l IH]; simpl; [reflexivity|]. now rewrite H, IH.
Qed.

Lemma filter_map_length (p : B -> bool) (q : A -> bool) (f : A -> B) (l : list A) :
  (forall x, p (f x) = q x) ->
  List.length (filter p (map f l)) = List.length (filter q l).
Proof.
  intros H. induction l as [|x l IH]; simpl; [reflexivity|].
  rewrite H. destruct (q x); simpl; now rewrite IH.
Qed.

Lemma existsb_false_filter (p : A -> bool) (l : list A) :
  existsb p l = false -> filter p l = [].
Proof.
  induction l as [|x l IH]; simpl; [reflexivity|]. intros H.
  apply orb_false_iff in H as [Hx Hl]. rewrite Hx. now apply IH.
Qed.

Lemma existsb_false_In (p : A -> bool) (l : list A) (x : A) :
  existsb p l = false -> In x l -> p x = false.
Proof.
  intros H Hin. destruct (p x) eqn:E; [|reflexivity].
  assert (existsb p l = true) by (apply existsb_exists; eauto). congruence.
Qed.

End ListFacts.

Section Reconciliation.

Variable now : nat -> string.

Lemma active_with_hash_frame (h : string) (x y : row) :
  frame x = frame y -> active_with_hash h x = active_with_hash h y.
Proof.
  unfold frame, active_with_hash. intros H. injection H as _ _ _ _ _ _ Hh Ha.
  now rewrite Hh, Ha.
Qed.

Lemma overwrite_frame (t : tournament) (n k : string) (x y : row) :
  frame x = frame y -> overwrite t n k x = overwrite t n k y.
Proof.
  unfold frame, overwrite. intros H. injection H as -> -> -> -> -> -> -> ->.
  reflexivity.
Qed.

Lemma frame_update_row (t : tournament) (n k : string) (r : row) :
  frame (update_row t n k r) = frame r.
Proof. unfold update_row. now destruct (active_with_hash (c_hash t) r). Qed.

Lemma active_with_hash_update (h : string) (t : tournament) (n k : string) (r : row) :
  active_with_hash h (update_row t n k r) = active_with_hash h r.
Proof. apply active_with_hash_frame, frame_update_row. Qed.

Lemma frame_settle (k : string) (r : row) (t : tournament) :
  frame (settle k r t) = frame r.
Proof. unfold settle. destruct (c_name t); [apply frame_update_row | reflexivity]. Qed.

Lemma frame_touch (k : string) (l : list tournament) :
  forall r, frame (touch k l r) = frame r.
Proof.
  unfold touch. induction l as [|t l IH]; intros r; simpl; [reflexivity|].
  now rewrite IH, frame_settle.
Qed.

Lemma touch_snoc (k : string) (l : list tournament) (t : tournament) (r : row) :
  touch k (l ++ [t]) r = settle k (touch k l r) t.
Proof. unfold touch. now rewrite fold_left_app. Qed.

(** Candidates with other fingerprints leave a row as it is. *)
Lemma touch_untouched (k : string) (l : list tournament) (r : row) :
  (forall t, In t l -> active_with_hash (c_hash t) r = false) ->
  touch k l r = r.
Proof.
  unfold touch. induction l as [|t l IH]; intros H; simpl; [reflexivity|].
  assert (Hs : settle k r t = r).
  { unfold settle, update_row. rewrite (H t (or_introl eq_refl)).
    now destruct (c_name t). }
  rewrite Hs. apply IH. intros t' Ht'. apply H. now right.
Qed.

Lemma save_loop_raises (l : list tournament) (e : exn) :
  save_loop now l (Raises e) = Raises e.
Proof. unfold save_loop. induction l as [|t l IH]; simpl; [reflexivity | exact IH]. Qed.

Lemma save_loop_cons (t : tournament) (l : list tournament) (st : save_state) :
  save_loop now (t :: l) (Returns st) = save_loop now l (save_step now st t).
Proof. reflexivity. Qed.

Lemma save_loop_snoc (l : list tournament) (t : tournament) (r : result save_state) :
  save_loop now (l ++ [t]) r
  = match save_loop now l r with
    | Returns st => save_step now st t
    | Raises e => Raises e
    end.
Proof. unfold save_loop. now rewrite fold_left_app. Qed.

(** The two ways a turn of the loop succeeds. *)
Lemma save_step_inv (st st' : save_state) (t : tournament) :
  save_step now st t = Returns st' ->
  exists name,
    c_name t = Some name
    /\ ((existsb (active_with_hash (c_hash t)) (rows st) = true
         /\ rows st' = map (update_row t name (now (handled st))) (rows st)
         /\ saved_count st' = saved_count st)
        \/ (existsb (active_with_hash (c_hash t)) (rows st) = false
            /\ existsb (fun r => String.eqb (c_id t) (r_id r)) (rows st) = false
            /\ rows st' = rows st ++ [new_row t name (now (handled st))]
            /\ saved_count st' = S (saved_count st))).
Proof.
  unfold save_step. intros H.
  destruct (existsb (active_with_hash (c_hash t)) (rows st)) eqn:Hex;
    destruct (c_name t) as [name|]; try discriminate.
  - injection H as <-. exists name. split; [reflexivity|]. left. auto.
  - destruct (existsb (fun r => String.eqb (c_id t) (r_id r)) (rows st)) eqn:Hid;
      [discriminate|].
    injection H as <-. exists name. split; [reflexivity|]. right. auto.
Qed.

Lemma new_row_active (t : tournament) (n k : string) :
  active_with_hash (c_hash t) (new_row t n k) = true.
Proof. unfold active_with_hash. simpl. now rewrite String.eqb_refl. Qed.

Lemma new_row_other (h : string) (t : tournament) (n k : string) :
  h <> c_hash t -> active_with_hash h (new_row t n k) = false.
Proof.
  intros H. unfold active_with_hash. simpl.
  destruct (String.eqb h (c_hash t)) eqn:E; [|reflexivity].
  apply String.eqb_eq in E. contradiction.
Qed.

(** A turn of the loop keeps the active rows of every fingerprint, and
    leaves one for the fingerprint of its candidate. *)
Lemma save_step_keeps (st st' : save_state) (t : tournament) (h : string) :
  save_step now st t = Returns st' ->
  existsb (active_with_hash h) (rows st) = true ->
  existsb (active_with_hash h) (rows st') = true.
Proof.
  intros H Hex. destruct (save_step_inv _ _ _ H) as (n & _ & [(_ & -> & _)|(_ & _ & -> & _)]).
  - rewrite (existsb_map_inv _ (active_with_hash h)); [assumption|].
    intros x. apply active_with_hash_update.
  - rewrite existsb_app, Hex. reflexivity.
Qed.

Lemma save_step_own (st st' : save_state) (t : tournament) :
  save_step now st t = Returns st' ->
  existsb (active_with_hash (c_hash t)) (rows st') = true.
Proof.
  intros H. destruct (save_step_inv _ _ _ H) as (n & _ & [(Hex & _)|(_ & _ & -> & _)]).
  - eapply save_step_keeps; eauto.
  - rewrite existsb_app. simpl. rewrite new_row_active. apply orb_true_iff. right. reflexivity.
Qed.

Lemma save_step_unique (st st' : save_state) (t : tournament) :
  save_step now st t = Returns st' ->
  at_most_one_active (rows st) -> at_most_one_active (rows st').
Proof.
  intros H Hu h.
  destruct (save_step_inv _ _ _ H) as (n & _ & [(_ & -> & _)|(Hex & _ & -> & _)]).
  - rewrite (filter_map_length _ (active_with_hash h)); [apply Hu|].
    intros x. apply active_with_hash_update.
  - rewrite filter_app, length_app. simpl.
    destruct (String.eqb h (c_hash t)) eqn:E.
    + apply String.eqb_eq in E. subst h.
      rewrite (existsb_false_filter _ _ Hex). rewrite new_row_active. simpl. lia.
    + rewrite new_row_other; [specialize (Hu h); simpl; lia|].
      intros ->. rewrite String.eqb_refl in E. discriminate.
Qed.

Lemma save_loop_unique (l : list tournament) :
  forall st st',
    save_loop now l (Returns st) = Returns st' ->
    at_most_one_active (rows st) -> at_most_one_active (rows st').
Proof.
  induction l as [|t l IH]; intros st st' H Hu.
  - injection H as <-. exact Hu.
  - rewrite save_loop_cons in H.
    destruct (save_step now st t) as [st1|e] eqn:Hs.
    + eapply IH; [exact H|]. eapply save_step_unique; eauto.
    + rewrite save_loop_raises in H. discriminate.
Qed.

End Reconciliation.

(** C4.  Reconciliation keeps the fingerprints unique among the active
    rows: from a table in which each fingerprint has at most one active row,
    [_save_tournaments_to_db] leaves such a table, for every list of
    candidates.  A turn of its loop that finds an active row with the hash
    of the candidate updates in place and adds no row; a turn that finds
    none appends one row, the only active one with that hash. *)
Theorem reconciliation_keeps_fingerprints_unique
    (now : nat -> string) (tournaments : list tournament) (db : table) :
  at_most_one_active db ->
  at_most_one_active (table_after now tournaments db)
  /\ (forall st st' t,
         save_step now st t = Returns st' ->
         if existsb (active_with_hash (c_hash t)) (rows st)
         then List.length (rows st') = List.length (rows st)
              /\ saved_count st' = saved_count st
         else exists r, rows st' = rows st ++ [r]
                        /\ r_hash r = Some (c_hash t) /\ r_is_active r = true
                        /\ saved_count st' = S (saved_count st)).
Proof.
  intros Hu. split.
  - unfold table_after, _save_tournaments_to_db.
    destruct (save_loop now tournaments _) as [st|e] eqn:H; simpl; [|exact Hu].
    eapply save_loop_unique; [exact H | exact Hu].
  - intros st st' t H.
    destruct (save_step_inv _ _ _ _ H) as (n & _ & [(Hex & -> & Hc)|(Hex & _ & -> & Hc)]);
      rewrite Hex.
    + split; [apply length_map | exact Hc].
    + eexists. split; [reflexivity|]. repeat split. exact Hc.
Qed.

Lemma reconciliation_keeps_fingerprints_unique_witness :
  let db := [Fixture.stored "a37579725df8c8173c50646925e48f96" (Some "2026-11-08") None
                            "2026-11-02 06:00:00"] in
  let tournaments :=
    [Fixture.candidate "tournament_upcoming_0_1793707200"
                       "Open Toernooi" "2026-11-08" "Rotterdam" "upcoming";
     Fixture.candidate "tournament_upcoming_1_1793707200"
                       "Jeugdtoernooi" "2026-11-15" "Zwolle" "upcoming"] in
  at_most_one_active db
  /\ at_most_one_active (table_after (fun _ => "2026-11-03 12:00:00") tournaments db).
Proof.
  intros db tournaments.
  assert (Hu : at_most_one_active db).
  { intros h. unfold db. cbn [filter].
    destruct (active_with_hash h _); simpl; lia. }
  split; [exact Hu|].
  exact (proj1 (reconciliation_keeps_fingerprints_unique
                  (fun _ => "2026-11-03 12:00:00") tournaments db Hu)).
Defined.

Section Idempotence.

(** *** The time of scraping does not steer the loop *)

Lemma active_with_hash_forget (h : string) (r : row) :
  active_with_hash h (forget_scraped_at r) = active_with_hash h r.
Proof. reflexivity. Qed.

Lemma forget_update_row (t : tournament) (n k : string) (r : row) :
  forget_scraped_at (update_row t n k r) = update_row t n "" (forget_scraped_at r).
Proof.
  unfold update_row. rewrite active_with_hash_forget.
  now destruct (active_with_hash (c_hash t) r).
Qed.

Lemma save_step_forget (now : nat -> string) (st : save_state) (t : tournament) :
  map_result forget_state (save_step now st t)
  = save_step (fun _ => "") (forget_state st) t.
Proof.
  unfold save_step, forget_state. cbn [rows saved_count handled].
  rewrite (existsb_map_inv _ (active_with_hash (c_hash t)))
    by (intros x; apply active_with_hash_forget).
  rewrite (existsb_map_inv _ (fun r => String.eqb (c_id t) (r_id r)))
    by reflexivity.
  destruct (existsb (active_with_hash (c_hash t)) (rows st));
    destruct (c_name t) as [n|]; try reflexivity.
  - cbn [map_result rows saved_count handled]. rewrite !map_map.
    do 2 f_equal. apply map_ext. intros r. apply forget_update_row.
  - destruct (existsb (fun r => String.eqb (c_id t) (r_id r)) (rows st));
      [reflexivity|].
    cbn [map_result rows saved_count handled]. now rewrite map_app.
Qed.

Lemma save_loop_forget (now : nat -> string) (l : list tournament) :
  forall r,
    map_result forget_state (save_loop now l r)
    = save_loop (fun _ => "") l (map_result forget_state r).
Proof.
  induction l as [|t l IH]; intros [st|e]; try reflexivity.
  - rewrite save_loop_cons, IH, save_step_forget. reflexivity.
  - cbn [map_result]. now rewrite !save_loop_raises.
Qed.

(** A run at any times is, once the times are blanked, the run at the
    blank time on the blanked table. *)
Lemma save_forget (now : nat -> string) (l : list tournament) (db : table) :
  map forget_scraped_at (table_after now l db)
  = table_after (fun _ => "") l (map forget_scraped_at db)
  /\ snd (_save_tournaments_to_db now l db)
     = snd (_save_tournaments_to_db (fun _ => "") l (map forget_scraped_at db)).
Proof.
  unfold table_after, _save_tournaments_to_db.
  pose proof (save_loop_forget now l
                (Returns {| rows := db; saved_count := 0; handled := 0 |})) as H.
  cbn [map_result] in H. unfold forget_state in H at 2.
  cbn [rows saved_count handled] in H. rewrite <- H.
  destruct (save_loop now l _) as [st|e]; simpl; auto.
Qed.

(** *** One clock: the second run changes nothing *)

Variable k : string.

Let at_k : nat -> string := fun _ => k.

(** After a run that succeeded, every candidate has a name and an active
    row, and every row is a fixed point of the candidates' UPDATEs. *)
Lemma save_loop_settled (l : list tournament) :
  forall st0 st,
    save_loop at_k l (Returns st0) = Returns st ->
    (forall t, In t l -> c_name t <> None)
    /\ (forall t, In t l -> existsb (active_with_hash (c_hash t)) (rows st) = true)
    /\ (forall r, In r (rows st) -> touch k l r = r).
Proof.
  induction l as [|t l IH] using rev_ind; intros st0 st H.
  - repeat split; intros ? []. 
  - rewrite save_loop_snoc in H.
    destruct (save_loop at_k l (Returns st0)) as [st1|e] eqn:Hl; [|discriminate].
    destruct (IH _ _ Hl) as (Hname & Hrow & Hfix).
    destruct (save_step_inv _ _ _ _ H) as (n & Hn & Hcase).
    split; [|split].
    + intros t' Hin. apply in_app_or in Hin as [Hin|[<-|[]]]; [auto | congruence].
    + intros t' Hin. apply in_app_or in Hin as [Hin|[<-|[]]].
      * eapply save_step_keeps; eauto.
      * eapply save_step_own; eauto.
    + intros r Hin. rewrite touch_snoc. unfold settle. rewrite Hn.
      destruct Hcase as [(Hex & Hrows & _)|(Hex & _ & Hrows & _)];
        rewrite Hrows in Hin.
      * apply in_map_iff in Hin as (r1 & <- & Hin1). fold at_k.
        unfold update_row at 2.
        destruct (active_with_hash (c_hash t) r1) eqn:Hm.
        -- unfold update_row.
           rewrite (active_with_hash_frame _ _ r1)
             by (rewrite frame_touch; reflexivity).
           rewrite Hm. apply overwrite_frame. rewrite frame_touch. reflexivity.
        -- rewrite (Hfix _ Hin1). unfold update_row. now rewrite Hm.
      * apply in_app_or in Hin as [Hin|[<-|[]]].
        -- rewrite (Hfix _ Hin). unfold update_row.
           now rewrite (existsb_false_In _ _ _ Hex Hin).
        -- rewrite touch_untouched.
           ++ unfold update_row. rewrite new_row_active. reflexivity.
           ++ intros t' Hin'. destruct (String.eqb (c_hash t') (c_hash t)) eqn:E.
              ** apply String.eqb_eq in E. specialize (Hrow _ Hin').
                 rewrite E in Hrow. congruence.
              ** apply new_row_other. intros Heq. rewrite Heq, String.eqb_refl in E.
                 discriminate.
Qed.

(** A run in which every candidate finds its active row is a run of
    UPDATEs. *)
Lemma save_loop_updates (l : list tournament) :
  forall R s i,
    (forall t, In t l -> c_name t <> None) ->
    (forall t, In t l -> existsb (active_with_hash (c_hash t)) R = true) ->
    save_loop at_k l (Returns {| rows := R; saved_count := s; handled := i |})
    = Returns {| rows := map (touch k l) R; saved_count := s;
                 handled := i + List.length l |}.
Proof.
  induction l as [|t l IH]; intros R s i Hname Hrow.
  - simpl. rewrite map_id, Nat.add_0_r. reflexivity.
  - rewrite save_loop_cons. unfold save_step. cbn [rows saved_count handled].
    rewrite (Hrow t (or_introl eq_refl)).
    destruct (c_name t) as [n|] eqn:Hn; [|exfalso; eapply Hname; [now left | exact Hn]].
    rewrite IH.
    + rewrite map_map. cbn [List.length]. rewrite Nat.add_succ_r.
      do 2 f_equal. apply map_ext. intros r.
      change (touch k (t :: l) r) with (touch k l (settle k r t)).
      unfold settle. rewrite Hn. reflexivity.
    + intros t' Hin. apply Hname. now right.
    + intros t' Hin.
      rewrite (existsb_map_inv _ (active_with_hash (c_hash t')))
        by (intros x; apply active_with_hash_update).
      apply Hrow. now right.
Qed.

Lemma save_twice_one_clock (l : list tournament) (db : table) :
  table_after at_k l (table_after at_k l db) = table_after at_k l db
  /\ snd (_save_tournaments_to_db at_k l (table_after at_k l db))
     = match snd (_save_tournaments_to_db at_k l db) with
       | Returns _ => Returns 0
       | Raises e => Raises e
       end.
Proof.
  unfold table_after, _save_tournaments_to_db.
  destruct (save_loop at_k l (Returns {| rows := db; saved_count := 0; handled := 0 |}))
    as [st|e] eqn:H; cbn [fst snd].
  - destruct (save_loop_settled _ _ _ H) as (Hname & Hrow & Hfix).
    rewrite (save_loop_updates l (rows st) 0 0 Hname Hrow). cbn [fst snd rows saved_count].
    split; [|reflexivity].
    rewrite (map_ext_in _ (fun r => r)) by exact Hfix. apply map_id.
  - rewrite H. cbn [fst snd]. split; reflexivity.
Qed.

End Idempotence.

(** C3, as the code has it.  Running [_save_tournaments_to_db] a second
    time with the same candidates, from any table and at any times, leaves
    the rows of the first run with every stored value but [scraped_at],
    which it refreshes: as many rows, as many active rows, no row inserted.
    A run that raised left the table as it was, and so does the second. *)
Theorem reconciliation_twice_same_as_once
    (now1 now2 : nat -> string) (tournaments : list tournament) (db : table) :
  let once := table_after now1 tournaments db in
  let twice := table_after now2 tournaments once in
  map forget_scraped_at twice = map forget_scraped_at once
  /\ active_count twice = active_count once
  /\ List.length twice = List.length once
  /\ snd (_save_tournaments_to_db now2 tournaments once)
     = match snd (_save_tournaments_to_db now1 tournaments db) with
       | Returns _ => Returns 0
       | Raises e => Raises e
       end.
Proof.
  intros once twice.
  destruct (save_forget now1 tournaments db) as [E1 S1].
  destruct (save_forget now2 tournaments once) as [E2 S2].
  destruct (save_twice_one_clock "" tournaments (map forget_scraped_at db)) as [I1 I2].
  fold once in E1. fold twice in E2.
  assert (Hrows : map forget_scraped_at twice = map forget_scraped_at once).
  { rewrite E2, E1. exact I1. }
  split; [exact Hrows|]. split; [|split].
  - unfold active_count.
    rewrite <- (filter_map_length r_is_active r_is_active forget_scraped_at twice)
      by reflexivity.
    rewrite <- (filter_map_length r_is_active r_is_active forget_scraped_at once)
      by reflexivity.
    now rewrite Hrows.
  - rewrite <- (length_map forget_scraped_at twice),
            <- (length_map forget_scraped_at once).
    now rewrite Hrows.
  - rewrite S2, S1, E1. exact I2.
Qed.

(** C3, as stated, fails on [scraped_at]: the second run, five seconds
    after the first, stores its own time in the row the first run
    inserted. *)
Lemma reconciliation_twice_refreshes_scraped_at :
  let tournaments :=
    [Fixture.candidate "tournament_upcoming_0_1793707200"
                       "Open Toernooi" "2026-11-08" "Rotterdam" "upcoming"] in
  let once := table_after (fun _ => "2026-11-03 12:00:00") tournaments [] in
  let twice := table_after (fun _ => "2026-11-03 12:00:05") tournaments once in
  map r_scraped_at once = ["2026-11-03 12:00:00"]
  /\ map r_scraped_at twice = ["2026-11-03 12:00:05"]
  /\ twice <> once.
Proof.
  vm_compute. repeat split. discriminate.
Qed.

(** ** The retention sweep *)

(** The four cases of the specification, on 3 November 2026 at noon, for
    rows scraped the day before: an end date ten days back retires the row,
    one three days back does not; without an end date the start date
    decides in the same way. *)
Example retention_cases :
  let scraped := "2026-11-02 06:00:00" in
  let ended_10 := Fixture.stored "a" (Some "2026-10-23") (Some "2026-10-24") scraped in
  let ended_3 := Fixture.stored "b" (Some "2026-10-30") (Some "2026-10-31") scraped in
  let started_10 := Fixture.stored "c" (Some "2026-10-24") None scraped in
  let started_3 := Fixture.stored "d" (Some "2026-10-31") None scraped in
  cleanup_old_tournaments Fixture.today Fixture.today default_days_old
    [ended_10; ended_3; started_10; started_3]
  = Returns [deactivate ended_10; ended_3; deactivate started_10; started_3].
Proof. vm_compute. reflexivity. Qed.

(** What the sweep does to a table: row by row, nothing but [is_active]
    changes, and a row is active afterwards when it was and the WHERE
    clause does not hold for it. *)
Lemma cleanup_row_by_row (now now' days_old cutoff week : Z) (db : table) :
  DateTime.add_days now (- days_old) = Some cutoff ->
  DateTime.add_days now' (-7) = Some week ->
  exists db',
    cleanup_old_tournaments now now' days_old db = Returns db'
    /\ Forall2 (fun r r' =>
                  deactivate r' = deactivate r
                  /\ r_is_active r'
                     = r_is_active r
                       && negb (is_old (DateTime.isoformat cutoff)
                                       (DateTime.isoformat week) r))
               db db'.
Proof.
  intros Hc Hw. unfold cleanup_old_tournaments. rewrite Hc, Hw.
  eexists. split; [reflexivity|].
  induction db as [|r db IH]; simpl; constructor; [|exact IH].
  destruct (is_old _ _ r); simpl; split; try reflexivity.
  - now rewrite andb_false_r.
  - now rewrite andb_true_r.
Qed.

(** C5.  The sweep compares the text of [scraped_at], which SQLite wrote as
    ["YYYY-MM-DD HH:MM:SS"], with the ISO text of the cutoff, which has a
    ["T"] where the other has a space.  On 3 November 2026 at noon the
    cutoff is ["2026-10-20T12:00:00"]; a row scraped on 20 October at
    18:00, less than 14 days before, with no dates, is retired all the
    same. *)
Theorem cleanup_retires_a_row_scraped_within_14_days :
  let scraped := DateTime.datetime 2026 10 20 18 0 0 0 in
  let r := Fixture.stored "a" None None (DateTime.current_timestamp scraped) in
  (Fixture.today - 14 * DateTime.US_PER_DAY < scraped)%Z
  /\ r_scraped_at r = "2026-10-20 18:00:00"
  /\ DateTime.add_days Fixture.today (- default_days_old)
     = Some (DateTime.datetime 2026 10 20 12 0 0 0)
  /\ DateTime.isoformat (DateTime.datetime 2026 10 20 12 0 0 0) = "2026-10-20T12:00:00"
  /\ r_is_active r = true
  /\ cleanup_old_tournaments Fixture.today Fixture.today default_days_old [r]
     = Returns [deactivate r].
Proof. vm_compute. repeat split; reflexivity. Qed.

(** ** The query facade *)

Section Facade.

Variable fromisoformat : string -> DateTime.iso_result.

Lemma insert_sorted_In (x r : row) (l : list row) :
  In x (insert_sorted r l) <-> x = r \/ In x l.
Proof.
  induction l as [|y l IH]; simpl; [intuition congruence|].
  destruct (start_date_le r y); simpl; [intuition congruence|].
  rewrite IH. intuition congruence.
Qed.

Lemma order_by_start_date_In (x : row) (l : list row) :
  In x (order_by_start_date l) <-> In x l.
Proof.
  unfold order_by_start_date. induction l as [|y l IH]; simpl; [tauto|].
  rewrite insert_sorted_In, IH. intuition congruence.
Qed.

(** [get_all_tournaments] returns the active rows, each as a
    [Tournament]. *)
Lemma get_all_active (db : table) (t : Tournament) :
  In t (get_all_tournaments (Open db)) <-> active_in db t.
Proof.
  unfold get_all_tournaments, fetchall, select_active, active_in.
  rewrite in_map_iff. split.
  - intros (r & <- & Hin). apply order_by_start_date_In, filter_In in Hin as [Hin Ha].
    eauto.
  - intros (r & Hin & Ha & ->). exists r. split; [reflexivity|].
    apply order_by_start_date_In, filter_In. auto.
Qed.

Lemma truthy_nonempty (s : string) : Py.truthy s = true <-> s <> "".
Proof. destruct s; simpl; split; congruence. Qed.

Lemma kept_iff (now cutoff : Z) (t : Tournament) :
  kept fromisoformat now cutoff t = true
  <-> t_start_date t <> ""
      /\ (start_of fromisoformat t = DateTime.ValueError
          \/ exists start, start_of fromisoformat t = DateTime.Naive start
                           /\ (now <= start <= cutoff)%Z).
Proof.
  unfold kept. rewrite andb_true_iff, truthy_nonempty.
  destruct (start_of fromisoformat t) as [start|u|]; split; intros [H1 H2];
    split; try assumption; try reflexivity.
  - right. exists start. split; [reflexivity|]. lia.
  - destruct H2 as [H2|[s [H2 H3]]]; [discriminate|]. injection H2 as <-. lia.
  - discriminate.
  - destruct H2 as [H2|[s [H2 H3]]]; discriminate.
  - now left.
Qed.

Lemma upcoming_loop_filter (now cutoff : Z) (l : list Tournament) :
  (forall t, In t l -> t_start_date t <> "" ->
             forall u, start_of fromisoformat t <> DateTime.Aware u) ->
  upcoming_loop fromisoformat now cutoff l
  = Returns (filter (kept fromisoformat now cutoff) l).
Proof.
  induction l as [|t l IH]; intros H; [reflexivity|].
  cbn [upcoming_loop filter]. rewrite IH by (intros; apply H; [now right | assumption]).
  unfold upcoming_test, kept.
  pose proof (H t (or_introl eq_refl)) as Ht. unfold start_of in *.
  destruct (Py.truthy (t_start_date t)) eqn:Hs; [|reflexivity].
  apply truthy_nonempty in Hs. specialize (Ht Hs).
  destruct (fromisoformat _) as [start|u|]; cbn [andb]; try reflexivity.
  now destruct (Ht u).
Qed.

End Facade.

(** C1, as the code has it.  When [now + days] is a datetime and no start
    date of an active record parses to an aware datetime,
    [get_upcoming_tournaments(days)] returns, in the order of
    [get_all_tournaments], the active records whose start date is not empty
    and either does not parse or lies within [now .. now + days]; a record
    without a start date is not returned. *)
Theorem upcoming_is_the_dated_window
    (fromisoformat : string -> DateTime.iso_result)
    (now days cutoff : Z) (db : table) :
  (0 <= days)%Z ->
  DateTime.add_days now days = Some cutoff ->
  (forall t, active_in db t -> t_start_date t <> "" ->
             forall u, start_of fromisoformat t <> DateTime.Aware u) ->
  exists upcoming,
    get_upcoming_tournaments fromisoformat now days (Open db) = Returns upcoming
    /\ upcoming = filter (kept fromisoformat now cutoff) (get_all_tournaments (Open db))
    /\ cutoff = (now + days * DateTime.US_PER_DAY)%Z
    /\ (forall t,
           In t upcoming <->
           active_in db t
           /\ t_start_date t <> ""
           /\ (start_of fromisoformat t = DateTime.ValueError
               \/ exists start, start_of fromisoformat t = DateTime.Naive start
                                /\ (now <= start <= cutoff)%Z))
    /\ (forall t, In t upcoming -> t_start_date t <> "").
Proof.
  intros Hd Hc Haware. eexists. split; [|split; [reflexivity|]].
  - unfold get_upcoming_tournaments. rewrite Hc. apply upcoming_loop_filter.
    intros t Hin. apply Haware. now apply get_all_active.
  - split; [|split].
    + unfold DateTime.add_days in Hc.
      destruct (_ || _); [discriminate|]. destruct (_ || _); [discriminate|].
      now injection Hc as <-.
    + intros t. rewrite filter_In, get_all_active, kept_iff. tauto.
    + intros t Hin. apply filter_In in Hin as [_ Hk]. now apply kept_iff in Hk.
Qed.

Lemma upcoming_is_the_dated_window_witness :
  let cutoff := DateTime.datetime 2026 12 3 12 0 0 0 in
  (0 <= 30)%Z
  /\ DateTime.add_days Fixture.today 30 = Some cutoff
  /\ (forall t, active_in Fixture.scenario t -> t_start_date t <> "" ->
                forall u, start_of DateTime.fromisoformat t <> DateTime.Aware u)
  /\ exists upcoming,
       get_upcoming_tournaments DateTime.fromisoformat Fixture.today 30
         (Open Fixture.scenario) = Returns upcoming
       /\ upcoming = filter (kept DateTime.fromisoformat Fixture.today cutoff)
                            (get_all_tournaments (Open Fixture.scenario))
       /\ cutoff = (Fixture.today + 30 * DateTime.US_PER_DAY)%Z
       /\ (forall t,
              In t upcoming <->
              active_in Fixture.scenario t
              /\ t_start_date t <> ""
              /\ (start_of DateTime.fromisoformat t = DateTime.ValueError
                  \/ exists start,
                       start_of DateTime.fromisoformat t = DateTime.Naive start
                       /\ (Fixture.today <= start <= cutoff)%Z))
       /\ (forall t, In t upcoming -> t_start_date t <> "").
Proof.
  intros cutoff.
  assert (H1 : (0 <= 30)%Z) by lia.
  assert (H2 : DateTime.add_days Fixture.today 30 = Some cutoff)
    by (vm_compute; reflexivity).
  assert (H3 : forall t, active_in Fixture.scenario t -> t_start_date t <> "" ->
                         forall u, start_of DateTime.fromisoformat t <> DateTime.Aware u).
  { intros t (r & Hin & _ & ->) _ u.
    destruct Hin as [<-|[<-|[<-|[]]]]; vm_compute; discriminate. }
  split; [exact H1|]. split; [exact H2|]. split; [exact H3|].
  exact (upcoming_is_the_dated_window DateTime.fromisoformat Fixture.today 30 cutoff
           Fixture.scenario H1 H2 H3).
Defined.

(** C1, as stated, fails on the record without a date: of the three
    records of the scenario, [get_upcoming_tournaments(30)] returns the one
    that starts in 5 days and nothing else. *)
Lemma upcoming_leaves_out_the_undated_record :
  r_start_date Fixture.undated = None
  /\ r_is_active Fixture.undated = true
  /\ In (of_row Fixture.undated) (get_all_tournaments (Open Fixture.scenario))
  /\ get_upcoming_tournaments DateTime.fromisoformat Fixture.today 30
       (Open Fixture.scenario) = Returns [of_row Fixture.in_5_days]
  /\ ~ In (of_row Fixture.undated) [of_row Fixture.in_5_days].
Proof.
  split; [reflexivity|]. split; [reflexivity|]. split; [vm_compute; tauto|].
  split; [vm_compute; reflexivity|].
  intros [H|[]]. vm_compute in H. discriminate.
Qed.

(** An aware start date makes the whole query raise. *)
Example upcoming_raises_on_an_aware_start_date :
  get_upcoming_tournaments DateTime.fromisoformat Fixture.today 30
    (Open [Fixture.stored "utc" (Some "2026-11-08T10:00:00Z") None "2026-11-02 06:00:00"])
  = Raises TypeError.
Proof. vm_compute. reflexivity. Qed.

(** C9.  When the database raises on a read, every reader returns an
    empty result: [get_all_tournaments], [search_tournaments] and
    [get_tournaments_with_registration] the empty list,
    [get_upcoming_tournaments] the empty list when [now + days] is a
    datetime, [get_tournament_stats] three zeros when [now + 30 days] is
    one. *)
Theorem store_fault_reads_as_empty
    (fromisoformat : string -> DateTime.iso_result)
    (now days : Z) (query : string) :
  get_all_tournaments Fault = []
  /\ search_tournaments query Fault = []
  /\ get_tournaments_with_registration Fault = []
  /\ (DateTime.add_days now days <> None ->
      get_upcoming_tournaments fromisoformat now days Fault = Returns [])
  /\ (DateTime.add_days now 30 <> None ->
      get_tournament_stats fromisoformat now Fault Fault Fault
      = Returns {| total := 0; upcoming_30_days := 0; with_registration := 0 |}).
Proof.
  unfold get_tournament_stats, get_upcoming_tournaments.
  repeat split; intros H.
  - destruct (DateTime.add_days now days); [reflexivity | congruence].
  - destruct (DateTime.add_days now 30); [reflexivity | congruence].
Qed.

Lemma store_fault_reads_as_empty_witness :
  DateTime.add_days Fixture.today 7 <> None
  /\ DateTime.add_days Fixture.today 30 <> None
  /\ get_all_tournaments Fault = []
  /\ search_tournaments "rotterdam" Fault = []
  /\ get_tournaments_with_registration Fault = []
  /\ get_upcoming_tournaments DateTime.fromisoformat Fixture.today 7 Fault = Returns []
  /\ get_tournament_stats DateTime.fromisoformat Fixture.today Fault Fault Fault
     = Returns {| total := 0; upcoming_30_days := 0; with_registration := 0 |}.
Proof.
  assert (H7 : DateTime.add_days Fixture.today 7 <> None) by (vm_compute; discriminate).
  assert (H30 : DateTime.add_days Fixture.today 30 <> None) by (vm_compute; discriminate).
  destruct (store_fault_reads_as_empty DateTime.fromisoformat Fixture.today 7 "rotterdam")
    as (H1 & H2 & H3 & H4 & H5).
  split; [exact H7|]. split; [exact H30|]. split; [exact H1|]. split; [exact H2|].
  split; [exact H3|]. split; [exact (H4 H7) | exact (H5 H30)].
Defined.

(** C10.  For every active row, [get_all_tournaments] returns its
    [Tournament], in which a NULL location reads ["Unknown"], a NULL date
    ["TBA"], a NULL start date [""] and a NULL source ["unknown"]; the
    search runs on these texts, so a row without a location is found by
    [search_tournaments('unknown')]. *)
Theorem absent_columns_read_as_defaults (db : table) (r : row) :
  In r db ->
  r_is_active r = true ->
  In (of_row r) (get_all_tournaments (Open db))
  /\ (r_location r = None -> t_location (of_row r) = "Unknown")
  /\ (r_date r = None -> t_date (of_row r) = "TBA")
  /\ (r_start_date r = None -> t_start_date (of_row r) = "")
  /\ (r_source r = None -> t_source (of_row r) = "unknown")
  /\ (r_location r = None -> In (of_row r) (search_tournaments "unknown" (Open db))).
Proof.
  intros Hin Ha.
  assert (Hall : In (of_row r) (get_all_tournaments (Open db)))
    by (apply get_all_active; exists r; auto).
  split; [exact Hall|].
  repeat split; intros H; try (unfold of_row; simpl; rewrite H; reflexivity).
  unfold search_tournaments. apply filter_In. split; [exact Hall|].
  unfold of_row at 2. cbn [t_location]. rewrite H. cbn [Py.or_default].
  apply orb_true_iff. right. vm_compute. reflexivity.
Qed.

Lemma absent_columns_read_as_defaults_witness :
  In Fixture.undated Fixture.scenario
  /\ r_is_active Fixture.undated = true
  /\ r_location Fixture.undated = None
  /\ In (of_row Fixture.undated) (get_all_tournaments (Open Fixture.scenario))
  /\ t_location (of_row Fixture.undated) = "Unknown"
  /\ t_date (of_row Fixture.undated) = "TBA"
  /\ t_start_date (of_row Fixture.undated) = ""
  /\ t_source (of_row Fixture.undated) = "unknown"
  /\ In (of_row Fixture.undated) (search_tournaments "unknown" (Open Fixture.scenario)).
Proof.
  assert (Hin : In Fixture.undated Fixture.scenario) by (vm_compute; tauto).
  assert (Ha : r_is_active Fixture.undated = true) by reflexivity.
  destruct (absent_columns_read_as_defaults Fixture.scenario Fixture.undated Hin Ha)
    as (H0 & H1 & H2 & H3 & H4 & H5).
  split; [exact Hin|]. split; [exact Ha|]. split; [reflexivity|].
  split; [exact H0|]. split; [exact (H1 eq_refl)|]. split; [exact (H2 eq_refl)|].
  split; [exact (H3 eq_refl)|]. split; [exact (H4 eq_refl)|]. exact (H5 eq_refl).
Defined.

(* ================================================================== *)
(** * Further properties of the code *)
(* ================================================================== *)

(** ** What a reconciliation writes and what it leaves alone *)

Section SaveFacts.

Variable now : nat -> string.

Lemma carries_overwrite (t : tournament) (n k : string) (r : row) :
  c_name t = Some n -> carries t (overwrite t n k r).
Proof. intros H. unfold carries. simpl. rewrite H. repeat split. Qed.

Lemma carries_new_row (t : tournament) (n k : string) :
  c_name t = Some n -> carries t (new_row t n k).
Proof. intros H. unfold carries. simpl. rewrite H. repeat split. Qed.

Lemma active_with_hash_eq (h h' : string) (r : row) :
  active_with_hash h r = true -> active_with_hash h' r = true -> h = h'.
Proof.
  unfold active_with_hash. destruct (r_hash r) as [x|]; [|discriminate].
  intros H H'. apply andb_true_iff in H as [H _], H' as [H' _].
  apply String.eqb_eq in H, H'. congruence.
Qed.

(** After a run that succeeded every candidate has an active row. *)
Lemma save_loop_covers (l : list tournament) :
  forall st0 st,
    save_loop now l (Returns st0) = Returns st ->
    forall t, In t l -> existsb (active_with_hash (c_hash t)) (rows st) = true.
Proof.
  induction l as [|x l IH] using rev_ind; intros st0 st H t Hin; [destruct Hin|].
  rewrite save_loop_snoc in H.
  destruct (save_loop now l (Returns st0)) as [st1|e] eqn:Hl; [|discriminate].
  apply in_app_or in Hin as [Hin|[<-|[]]].
  - eapply save_step_keeps; eauto.
  - eapply save_step_own; eauto.
Qed.

(** After a run that succeeded the active rows of a fingerprint hold the
    last candidate with it. *)
Lemma save_loop_carries (l : list tournament) :
  forall st0 st,
    save_loop now l (Returns st0) = Returns st ->
    forall h t r,
      last_with_hash h l = Some t ->
      In r (rows st) -> active_with_hash h r = true -> carries t r.
Proof.
  induction l as [|x l IH] using rev_ind; intros st0 st H h t r Hlast Hin Hact;
    [discriminate|].
  rewrite save_loop_snoc in H.
  destruct (save_loop now l (Returns st0)) as [st1|e] eqn:Hl; [|discriminate].
  unfold last_with_hash in Hlast. rewrite rev_app_distr in Hlast.
  cbn [rev app List.find] in Hlast.
  destruct (save_step_inv _ _ _ _ H) as (n & Hn & Hcase).
  destruct (String.eqb h (c_hash x)) eqn:E.
  - injection Hlast as <-. apply String.eqb_eq in E. subst h.
    destruct Hcase as [(_ & Hrows & _)|(Hex & _ & Hrows & _)]; rewrite Hrows in Hin.
    + apply in_map_iff in Hin as (r1 & <- & _).
      rewrite active_with_hash_update in Hact. unfold update_row. rewrite Hact.
      now apply carries_overwrite.
    + apply in_app_or in Hin as [Hin|[<-|[]]].
      * rewrite (existsb_false_In _ _ _ Hex Hin) in Hact. discriminate.
      * now apply carries_new_row.
  - destruct Hcase as [(_ & Hrows & _)|(_ & _ & Hrows & _)]; rewrite Hrows in Hin.
    + apply in_map_iff in Hin as (r1 & <- & Hin1).
      rewrite active_with_hash_update in Hact.
      unfold update_row. destruct (active_with_hash (c_hash x) r1) eqn:Hx.
      * rewrite (active_with_hash_eq _ _ _ Hact Hx), String.eqb_refl in E. discriminate.
      * eapply IH; eauto.
    + apply in_app_or in Hin as [Hin|[<-|[]]].
      * eapply IH; eauto.
      * rewrite (active_with_hash_eq _ _ _ Hact (new_row_active x n _)),
          String.eqb_refl in E. discriminate.
Qed.

(** What a run that succeeded did to the table it started from. *)
Lemma save_loop_frame (l : list tournament) :
  forall st0 st,
    save_loop now l (Returns st0) = Returns st ->
    exists kept added,
      rows st = kept ++ added
      /\ Forall2 (fun r r' => frame r' = frame r /\ (untouched_by l r -> r' = r))
                 (rows st0) kept
      /\ saved_count st = saved_count st0 + List.length added
      /\ Forall (fun r => r_is_active r = true
                          /\ exists t, In t l /\ r_hash r = Some (c_hash t)
                                       /\ r_id r = c_id t) added.
Proof.
  induction l as [|x l IH]; intros st0 st H.
  - injection H as <-. exists (rows st0), []. rewrite app_nil_r. repeat split.
    + induction (rows st0); constructor; auto.
    + simpl. lia.
    + constructor.
  - rewrite save_loop_cons in H.
    destruct (save_step now st0 x) as [st1|e] eqn:Hs;
      [|rewrite save_loop_raises in H; discriminate].
    destruct (IH _ _ H) as (kept1 & added1 & Hrows & Hkept & Hcount & Hadded).
    assert (Hadded' : Forall (fun r => r_is_active r = true
                          /\ exists t, In t (x :: l) /\ r_hash r = Some (c_hash t)
                                       /\ r_id r = c_id t) added1).
    { eapply Forall_impl; [|exact Hadded]. intros r (Ha & t & Hin & Hh & Hi).
      split; [exact Ha|]. exists t. repeat split; auto. now right. }
    destruct (save_step_inv _ _ _ _ Hs) as (n & Hn & [(_ & Hr1 & Hc1)|(_ & _ & Hr1 & Hc1)]).
    + exists kept1, added1. split; [exact Hrows|]. split; [|split; [lia | exact Hadded']].
      rewrite Hr1 in Hkept. clear - Hkept.
      remember (rows st0) as R eqn:ER. clear ER. revert kept1 Hkept.
      induction R as [|r R IHR]; intros kept1 Hkept; inversion Hkept; subst;
        constructor; [|now apply IHR].
      destruct H1 as [Hf Hu]. split.
      * rewrite Hf. apply frame_update_row.
      * intros Hun. rewrite Hu.
        -- unfold update_row. now rewrite (Hun x (or_introl eq_refl)).
        -- intros t Hin. rewrite active_with_hash_update. apply Hun. now right.
    + rewrite Hr1 in Hkept. apply Forall2_app_inv_l in Hkept
        as (kept & one & Hkept & Hone & ->).
      inversion Hone as [|? n' ? rest [Hfn _] Hnil]; subst. inversion Hnil; subst.
      exists kept, (n' :: added1). split; [now rewrite Hrows, <- app_assoc|].
      split; [|split].
      * eapply Forall2_impl; [|exact Hkept]. intros r r' [Hf Hu]. split; [exact Hf|].
        intros Hun. apply Hu. intros t Hin. apply Hun. now right.
      * simpl. lia.
      * constructor; [|exact Hadded'].
        unfold frame in Hfn. injection Hfn as Hi _ _ _ _ _ Hh Ha. split; [exact Ha|].
        exists x. repeat split; [now left | exact Hh | exact Hi].
Qed.

(** The loop raises nothing but [IntegrityError]. *)
Lemma save_loop_exn (l : list tournament) :
  forall st e, save_loop now l (Returns st) = Raises e -> e = IntegrityError.
Proof.
  induction l as [|x l IH]; intros st e H; [discriminate|].
  rewrite save_loop_cons in H.
  destruct (save_step now st x) as [st1|e1] eqn:Hs; [eauto|].
  rewrite save_loop_raises in H. injection H as <-.
  unfold save_step in Hs.
  repeat match type of Hs with
         | context [if ?b then _ else _] => destruct b
         | context [match ?o with Some _ => _ | None => _ end] => destruct o
         end; congruence.
Qed.

Lemma save_loop_nameless (l : list tournament) :
  forall st t,
    In t l -> c_name t = None ->
    save_loop now l (Returns st) = Raises IntegrityError.
Proof.
  induction l as [|x l IH]; intros st t Hin Hn; [destruct Hin|].
  rewrite save_loop_cons.
  destruct (save_step now st x) as [st1|e] eqn:Hs.
  - destruct Hin as [->|Hin]; [|eauto].
    destruct (save_step_inv _ _ _ _ Hs) as (n & Hn' & _). congruence.
  - rewrite save_loop_raises. f_equal.
    apply (save_loop_exn [x] st). rewrite save_loop_cons, Hs. reflexivity.
Qed.

Lemma id_taken_In (i : string) (R : table) :
  existsb (fun r => String.eqb i (r_id r)) R = true <-> In i (map r_id R).
Proof.
  rewrite existsb_exists, in_map_iff. split.
  - intros (r & Hin & E). apply String.eqb_eq in E. eauto.
  - intros (r & E & Hin). exists r. split; [exact Hin|]. now apply String.eqb_eq.
Qed.

(** Named candidates with ids that are new and distinct are all stored. *)
Lemma save_loop_succeeds (l : list tournament) :
  forall st,
    (forall t, In t l -> c_name t <> None) ->
    NoDup (map c_id l) ->
    (forall t, In t l -> ~ In (c_id t) (map r_id (rows st))) ->
    exists st', save_loop now l (Returns st) = Returns st'.
Proof.
  induction l as [|x l IH]; intros st Hname Hnd Hfresh; [eexists; reflexivity|].
  rewrite save_loop_cons. inversion Hnd as [|? ? Hx Hnd']; subst.
  destruct (c_name x) as [n|] eqn:Hn; [|exfalso; eapply Hname; [now left | exact Hn]].
  unfold save_step. rewrite Hn.
  destruct (existsb (active_with_hash (c_hash x)) (rows st)).
  - apply IH; [intros; apply Hname; now right | exact Hnd'|].
    intros t Hin. cbn [rows]. rewrite map_map.
    rewrite (map_ext _ r_id).
    + apply Hfresh. now right.
    + intros r. unfold update_row. now destruct (active_with_hash (c_hash x) r).
  - destruct (existsb (fun r => String.eqb (c_id x) (r_id r)) (rows st)) eqn:Hid.
    + apply id_taken_In in Hid. exfalso. eapply Hfresh; [now left | exact Hid].
    + apply IH; [intros; apply Hname; now right | exact Hnd'|].
      intros t Hin. cbn [rows]. rewrite map_app. intros Hi.
      apply in_app_or in Hi as [Hi|[Hi|[]]].
      * eapply Hfresh; [right; exact Hin | exact Hi].
      * apply Hx. simpl in Hi. rewrite Hi. now apply in_map.
Qed.

End SaveFacts.

Lemma last_with_hash_In (h : string) (l : list tournament) (t : tournament) :
  last_with_hash h l = Some t -> In t l /\ h = c_hash t.
Proof.
  unfold last_with_hash. intros H. apply find_some in H as [Hin E].
  apply in_rev in Hin. apply String.eqb_eq in E. auto.
Qed.

(** X1.  [_save_tournaments_to_db] only updates and appends.  When it
    returns, the table is the old rows in their places followed by the
    inserted ones: an old row keeps its id, hash and [is_active] (and is
    wholly unchanged when no candidate has the fingerprint of an active
    row), the inserted rows are active, carry the id and hash of a
    candidate, and are as many as [saved_count].  When it raises, the
    exception is [IntegrityError] and the table is as before. *)
Theorem reconciliation_only_updates_and_appends
    (now : nat -> string) (tournaments : list tournament) (db : table) :
  match snd (_save_tournaments_to_db now tournaments db) with
  | Returns saved =>
      exists kept added,
        table_after now tournaments db = kept ++ added
        /\ Forall2 (fun r r' => frame r' = frame r
                                /\ (untouched_by tournaments r -> r' = r)) db kept
        /\ List.length added = saved
        /\ Forall (fun r => r_is_active r = true
                            /\ exists t, In t tournaments
                                         /\ r_hash r = Some (c_hash t)
                                         /\ r_id r = c_id t) added
  | Raises e => e = IntegrityError /\ table_after now tournaments db = db
  end.
Proof.
  unfold table_after, _save_tournaments_to_db.
  destruct (save_loop now tournaments _) as [st|e] eqn:H; cbn [fst snd].
  - destruct (save_loop_frame now _ _ _ H) as (kept & added & H1 & H2 & H3 & H4).
    exists kept, added. cbn [rows saved_count] in *. repeat split; auto.
  - split; [|reflexivity]. eapply save_loop_exn; eauto.
Qed.

(** X2.  What was saved is what is stored: after a run that returned, the
    fingerprint of every candidate has an active row, and every active row
    with that fingerprint holds the name, location, dates, categories,
    registration fields, url, source and extraction method of the last
    candidate with it. *)
Theorem saved_candidate_is_stored
    (now : nat -> string) (tournaments : list tournament) (db : table)
    (saved : nat) (h : string) (t : tournament) :
  snd (_save_tournaments_to_db now tournaments db) = Returns saved ->
  last_with_hash h tournaments = Some t ->
  (exists r, In r (table_after now tournaments db) /\ active_with_hash h r = true)
  /\ (forall r, In r (table_after now tournaments db) ->
                active_with_hash h r = true -> carries t r).
Proof.
  unfold table_after, _save_tournaments_to_db.
  destruct (save_loop now tournaments _) as [st|e] eqn:H; cbn [fst snd];
    [|discriminate].
  intros _ Hlast. split.
  - destruct (last_with_hash_In _ _ _ Hlast) as [Hin ->].
    pose proof (save_loop_covers now _ _ _ H t Hin) as Hex.
    apply existsb_exists in Hex. exact Hex.
  - intros r Hin Hact. eapply save_loop_carries; eauto.
Qed.

Lemma saved_candidate_is_stored_witness :
  let first := Fixture.candidate "tournament_upcoming_0_1793707200"
                 "Open Toernooi" "2026-11-08" "Rotterdam" "upcoming" in
  let second := Fixture.candidate "tournament_upcoming_1_1793707200"
                  "Jeugdtoernooi" "2026-11-15" "Zwolle" "upcoming" in
  let now := fun _ : nat => "2026-11-03 12:00:00" in
  snd (_save_tournaments_to_db now [first; second] []) = Returns 2
  /\ last_with_hash (c_hash second) [first; second] = Some second
  /\ (exists r, In r (table_after now [first; second] [])
                /\ active_with_hash (c_hash second) r = true)
  /\ (forall r, In r (table_after now [first; second] []) ->
                active_with_hash (c_hash second) r = true -> carries second r).
Proof.
  intros first second now.
  assert (H1 : snd (_save_tournaments_to_db now [first; second] []) = Returns 2)
    by (vm_compute; reflexivity).
  assert (H2 : last_with_hash (c_hash second) [first; second] = Some second)
    by (vm_compute; reflexivity).
  split; [exact H1|]. split; [exact H2|].
  exact (saved_candidate_is_stored now [first; second] [] 2 (c_hash second) second H1 H2).
Defined.

(** X3.  One candidate without a name fails the whole run: the method
    raises [IntegrityError] (the NOT NULL constraint on [name]) and commits
    nothing, whatever the other candidates are. *)
Theorem nameless_candidate_fails_the_run
    (now : nat -> string) (tournaments : list tournament) (db : table)
    (t : tournament) :
  In t tournaments ->
  c_name t = None ->
  _save_tournaments_to_db now tournaments db = (db, Raises IntegrityError).
Proof.
  intros Hin Hn. unfold _save_tournaments_to_db.
  now rewrite (save_loop_nameless now tournaments _ t Hin Hn).
Qed.

Lemma nameless_candidate_fails_the_run_witness :
  let good := Fixture.candidate "tournament_upcoming_0_1793707200"
                "Open Toernooi" "2026-11-08" "Rotterdam" "upcoming" in
  let nameless :=
    {| c_id := "tournament_upcoming_1_1793707200";
       c_extraction_method := "nttb_scraper_v2";
       c_timestamp := "2026-11-03T12:00:00";
       c_source := "upcoming";
       c_name := None;
       c_tournament_url := None;
       c_tournament_id := None;
       c_location := Some "Zwolle";
       c_date := None;
       c_start_date := None;
       c_end_date := None;
       c_categories := None;
       c_registration_available := false;
       c_registration_url := None;
       c_registration_status := None;
       c_hash := "d41d8cd98f00b204e9800998ecf8427e" |} in
  In nameless [good; nameless]
  /\ c_name nameless = None
  /\ _save_tournaments_to_db (fun _ => "2026-11-03 12:00:00") [good; nameless]
       Fixture.scenario
     = (Fixture.scenario, Raises IntegrityError).
Proof.
  intros good nameless.
  assert (Hin : In nameless [good; nameless]) by (right; left; reflexivity).
  split; [exact Hin|]. split; [reflexivity|].
  exact (nameless_candidate_fails_the_run (fun _ => "2026-11-03 12:00:00")
           [good; nameless] Fixture.scenario nameless Hin eq_refl).
Defined.

(** X4.  A run whose candidates all have a name and carry ids that are
    pairwise distinct and not yet in the table does not raise. *)
Theorem fresh_named_candidates_are_saved
    (now : nat -> string) (tournaments : list tournament) (db : table) :
  (forall t, In t tournaments -> c_name t <> None) ->
  NoDup (map c_id tournaments) ->
  (forall t, In t tournaments -> ~ In (c_id t) (map r_id db)) ->
  exists saved,
    snd (_save_tournaments_to_db now tournaments db) = Returns saved
    /\ List.length (table_after now tournaments db) = List.length db + saved.
Proof.
  intros Hname Hnd Hfresh.
  destruct (save_loop_succeeds now tournaments
              {| rows := db; saved_count := 0; handled := 0 |} Hname Hnd Hfresh)
    as [st H].
  unfold table_after, _save_tournaments_to_db. rewrite H. cbn [fst snd].
  exists (saved_count st). split; [reflexivity|].
  destruct (save_loop_frame now _ _ _ H) as (kept & added & -> & Hk & Hc & _).
  cbn [rows saved_count] in *.
  rewrite length_app. apply Forall2_length in Hk. lia.
Qed.

Lemma fresh_named_candidates_are_saved_witness :
  let first := Fixture.candidate "tournament_upcoming_0_1793707200"
                 "Open Toernooi" "2026-11-08" "Rotterdam" "upcoming" in
  let second := Fixture.candidate "tournament_upcoming_1_1793707200"
                  "Jeugdtoernooi" "2026-11-15" "Zwolle" "upcoming" in
  let now := fun _ : nat => "2026-11-03 12:00:00" in
  (forall t, In t [first; second] -> c_name t <> None)
  /\ NoDup (map c_id [first; second])
  /\ (forall t, In t [first; second] -> ~ In (c_id t) (map r_id Fixture.scenario))
  /\ exists saved,
       snd (_save_tournaments_to_db now [first; second] Fixture.scenario) = Returns saved
       /\ List.length (table_after now [first; second] Fixture.scenario)
          = List.length Fixture.scenario + saved.
Proof.
  intros first second now.
  assert (H1 : forall t, In t [first; second] -> c_name t <> None)
    by (intros t [<-|[<-|[]]]; vm_compute; discriminate).
  assert (H2 : NoDup (map c_id [first; second])).
  { vm_compute. constructor; [intros [H|[]]; discriminate|].
    constructor; [intros []|constructor]. }
  assert (H3 : forall t, In t [first; second] ->
                         ~ In (c_id t) (map r_id Fixture.scenario))
    by (intros t [<-|[<-|[]]]; vm_compute; intuition discriminate).
  split; [exact H1|]. split; [exact H2|]. split; [exact H3|].
  exact (fresh_named_candidates_are_saved now [first; second] Fixture.scenario H1 H2 H3).
Defined.

(** ** The retention sweep, again *)

Lemma is_old_deactivate (c w : string) (r : row) :
  is_old c w (deactivate r) = is_old c w r.
Proof. reflexivity. Qed.

(** X5.  [cleanup_old_tournaments] only retires: it keeps every row in its
    place and changes no column but [is_active], a row that is active
    afterwards is a row of the table before, unchanged, and a second sweep
    at the same moment changes nothing more. *)
Theorem cleanup_only_retires (now now' days_old : Z) (db db' : table) :
  cleanup_old_tournaments now now' days_old db = Returns db' ->
  cleanup_old_tournaments now now' days_old db' = Returns db'
  /\ Forall2 (fun r r' => deactivate r' = deactivate r
                          /\ (r_is_active r' = true -> r' = r)) db db'
  /\ active_count db' <= active_count db.
Proof.
  unfold cleanup_old_tournaments.
  destruct (DateTime.add_days now (- days_old)) as [cutoff|]; [|discriminate].
  destruct (DateTime.add_days now' (-7)) as [week|]; [|discriminate].
  intros H. injection H as <-. split; [|split].
  - rewrite map_map. apply f_equal. apply map_ext. intros r.
    destruct (is_old _ _ r) eqn:E; [rewrite is_old_deactivate|]; now rewrite E.
  - induction db as [|r db IH]; simpl; constructor; [|exact IH].
    destruct (is_old _ _ r); split; try reflexivity. discriminate.
  - unfold active_count. induction db as [|r db IH]; simpl; [lia|].
    destruct (is_old _ _ r); simpl; destruct (r_is_active r); simpl; lia.
Qed.

Lemma cleanup_only_retires_witness :
  let old := Fixture.stored "old" (Some "2026-10-20") None "2026-11-02 06:00:00" in
  let db := [old; Fixture.in_5_days] in
  let db' := [deactivate old; Fixture.in_5_days] in
  cleanup_old_tournaments Fixture.today Fixture.today 14 db = Returns db'
  /\ cleanup_old_tournaments Fixture.today Fixture.today 14 db' = Returns db'
  /\ Forall2 (fun r r' => deactivate r' = deactivate r
                          /\ (r_is_active r' = true -> r' = r)) db db'
  /\ active_count db' <= active_count db.
Proof.
  intros old db db'.
  assert (H : cleanup_old_tournaments Fixture.today Fixture.today 14 db = Returns db')
    by (vm_compute; reflexivity).
  split; [exact H|].
  exact (cleanup_only_retires Fixture.today Fixture.today 14 db db' H).
Defined.

(** X6.  After a sweep the readers serve the rows that were active and
    that the WHERE clause of the sweep does not hold for, and no other. *)
Theorem swept_rows_are_not_served
    (now now' days_old cutoff week : Z) (db : table) :
  DateTime.add_days now (- days_old) = Some cutoff ->
  DateTime.add_days now' (-7) = Some week ->
  exists db',
    cleanup_old_tournaments now now' days_old db = Returns db'
    /\ forall t,
         In t (get_all_tournaments (Open db')) <->
         exists r, In r db /\ r_is_active r = true
                   /\ is_old (DateTime.isoformat cutoff) (DateTime.isoformat week) r = false
                   /\ t = of_row r.
Proof.
  intros Hc Hw. unfold cleanup_old_tournaments. rewrite Hc, Hw.
  eexists. split; [reflexivity|]. intros t. rewrite get_all_active.
  unfold active_in. split.
  - intros (r' & Hin & Ha & ->). apply in_map_iff in Hin as (r & Hr & Hin).
    destruct (is_old _ _ r) eqn:E; subst r'; [discriminate|]. eauto 6.
  - intros (r & Hin & Ha & E & ->). exists r. split; [|auto].
    apply in_map_iff. exists r. rewrite E. auto.
Qed.

Lemma swept_rows_are_not_served_witness :
  let cutoff := DateTime.datetime 2026 10 20 12 0 0 0 in
  let week := DateTime.datetime 2026 10 27 12 0 0 0 in
  DateTime.add_days Fixture.today (- 14) = Some cutoff
  /\ DateTime.add_days Fixture.today (-7) = Some week
  /\ exists db',
       cleanup_old_tournaments Fixture.today Fixture.today 14 Fixture.scenario
       = Returns db'
       /\ forall t,
            In t (get_all_tournaments (Open db')) <->
            exists r, In r Fixture.scenario /\ r_is_active r = true
                      /\ is_old (DateTime.isoformat cutoff) (DateTime.isoformat week) r
                         = false
                      /\ t = of_row r.
Proof.
  intros cutoff week.
  assert (H1 : DateTime.add_days Fixture.today (- 14) = Some cutoff)
    by (vm_compute; reflexivity).
  assert (H2 : DateTime.add_days Fixture.today (-7) = Some week)
    by (vm_compute; reflexivity).
  split; [exact H1|]. split; [exact H2|].
  exact (swept_rows_are_not_served Fixture.today Fixture.today 14 cutoff week
           Fixture.scenario H1 H2).
Defined.

(** X7.  What a run saved is what the readers serve: after a run that
    returned, [get_all_tournaments] holds a [Tournament] with the name of
    the last candidate of each fingerprint, with its location, date and
    start date (or their defaults), its registration flag and its urls. *)
Theorem saved_candidate_is_served
    (now : nat -> string) (tournaments : list tournament) (db : table)
    (saved : nat) (h : string) (t : tournament) :
  snd (_save_tournaments_to_db now tournaments db) = Returns saved ->
  last_with_hash h tournaments = Some t ->
  exists served,
    In served (get_all_tournaments (Open (table_after now tournaments db)))
    /\ c_name t = Some (t_name served)
    /\ t_location served = Py.or_default (c_location t) "Unknown"
    /\ t_date served = Py.or_default (c_date t) "TBA"
    /\ t_start_date served = Py.or_default (c_start_date t) ""
    /\ t_end_date served = c_end_date t
    /\ t_registration_available served = c_registration_available t
    /\ t_registration_url served = c_registration_url t
    /\ t_tournament_url served = c_tournament_url t.
Proof.
  unfold table_after, _save_tournaments_to_db.
  destruct (save_loop now tournaments _) as [st|e] eqn:H; cbn [fst snd];
    [|discriminate].
  intros _ Hlast.
  destruct (last_with_hash_In _ _ _ Hlast) as [Hin Hh].
  pose proof (save_loop_covers now _ _ _ H t Hin) as Hex.
  apply existsb_exists in Hex as (r & Hr & Hact). rewrite <- Hh in Hact.
  pose proof (save_loop_carries now _ _ _ H h t r Hlast Hr Hact) as Hc.
  unfold carries in Hc.
  destruct Hc as (C1 & C2 & C3 & C4 & C5 & _ & C7 & C8 & _ & _ & C11 & _).
  exists (of_row r). split.
  - apply get_all_active. exists r. repeat split; [exact Hr|].
    unfold active_with_hash in Hact. destruct (r_hash r); [|discriminate].
    now apply andb_true_iff in Hact.
  - unfold of_row. cbn. rewrite C2, C3, C4, C5, C7, C8, C11. repeat split. exact C1.
Qed.

Lemma saved_candidate_is_served_witness :
  let first := Fixture.candidate "tournament_upcoming_0_1793707200"
                 "Open Toernooi" "2026-11-08" "Rotterdam" "upcoming" in
  let now := fun _ : nat => "2026-11-03 12:00:00" in
  snd (_save_tournaments_to_db now [first] Fixture.scenario) = Returns 1
  /\ last_with_hash (c_hash first) [first] = Some first
  /\ exists served,
       In served (get_all_tournaments (Open (table_after now [first] Fixture.scenario)))
       /\ c_name first = Some (t_name served)
       /\ t_location served = Py.or_default (c_location first) "Unknown"
       /\ t_date served = Py.or_default (c_date first) "TBA"
       /\ t_start_date served = Py.or_default (c_start_date first) ""
       /\ t_end_date served = c_end_date first
       /\ t_registration_available served = c_registration_available first
       /\ t_registration_url served = c_registration_url first
       /\ t_tournament_url served = c_tournament_url first.
Proof.
  intros first now.
  assert (H1 : snd (_save_tournaments_to_db now [first] Fixture.scenario) = Returns 1)
    by (vm_compute; reflexivity).
  assert (H2 : last_with_hash (c_hash first) [first] = Some first)
    by (vm_compute; reflexivity).
  split; [exact H1|]. split; [exact H2|].
  exact (saved_candidate_is_served now [first] Fixture.scenario 1 (c_hash first) first
           H1 H2).
Defined.

(** ** The order of the listings *)

Section SortFacts.

Context {A : Type}.
Variable before : A -> A -> bool.
Hypothesis before_total : forall a b, before a b = false -> before b a = true.

Lemma insert_by_perm (x : A) (l : list A) :
  Permutation (x :: l) (Listing.insert_by before x l).
Proof.
  induction l as [|y l IH]; simpl; [reflexivity|].
  destruct (before x y); [reflexivity|].
  rewrite perm_swap. now constructor.
Qed.

Lemma sort_by_perm (l : list A) : Permutation l (Listing.sort_by before l).
Proof.
  induction l as [|x l IH]; simpl; [constructor|].
  rewrite <- insert_by_perm. now constructor.
Qed.

Lemma insert_by_sorted (x : A) (l : list A) :
  Sorted (fun a b => before a b = true) l ->
  Sorted (fun a b => before a b = true) (Listing.insert_by before x l).
Proof.
  induction l as [|y l IH]; intros Hs; simpl.
  - repeat constructor.
  - destruct (before x y) eqn:E.
    + constructor; [exact Hs | now constructor].
    + inversion Hs as [|? ? Hl Hd]; subst. constructor; [now apply IH|].
      destruct l as [|z l]; simpl.
      * constructor. now apply before_total.
      * destruct (before x z); constructor;
          [now apply before_total | now inversion Hd].
Qed.

Lemma sort_by_sorted (l : list A) :
  Sorted (fun a b => before a b = true) (Listing.sort_by before l).
Proof.
  induction l as [|x l IH]; simpl; [constructor | now apply insert_by_sorted].
Qed.

End SortFacts.

Lemma str_lt_asym (a b : string) : Py.str_lt a b = true -> Py.str_lt b a = false.
Proof.
  unfold Py.str_lt. rewrite (String.compare_antisym b a).
  destruct (String.compare a b); simpl; congruence.
Qed.

Lemma start_date_le_total (a b : row) :
  start_date_le a b = false -> start_date_le b a = true.
Proof.
  unfold start_date_le.
  destruct (r_start_date a) as [x|], (r_start_date b) as [y|]; try congruence.
  intros H. apply negb_false_iff in H. now rewrite (str_lt_asym _ _ H).
Qed.

Lemma listed_before_total (a b : row) :
  Listing.listed_before a b = false -> Listing.listed_before b a = true.
Proof.
  unfold Listing.listed_before.
  destruct (r_start_date a) as [x|], (r_start_date b) as [y|]; try congruence.
  - rewrite (String.compare_antisym y x).
    destruct (String.compare x y); simpl; try congruence.
    intros H. apply negb_false_iff in H. now rewrite (str_lt_asym _ _ H).
  - intros H. apply negb_false_iff in H. now rewrite (str_lt_asym _ _ H).
Qed.

Lemma order_by_start_date_sort (l : list row) :
  order_by_start_date l = Listing.sort_by start_date_le l.
Proof.
  unfold order_by_start_date, Listing.sort_by.
  induction l as [|x l IH]; simpl; [reflexivity|]. rewrite IH.
  generalize (fold_right (Listing.insert_by start_date_le) [] l). intros s.
  induction s as [|y s IHs]; simpl; [reflexivity|]. now rewrite IHs.
Qed.

Lemma str_lt_empty (s : string) : Py.str_lt s "" = false.
Proof. now destruct s. Qed.

(** X8.  [get_all_tournaments] returns every active row exactly once, as a
    [Tournament], by ascending start date: the rows without a start date
    first, then the start dates in the order of their bytes. *)
Theorem get_all_is_the_active_rows_by_start_date (db : table) :
  exists fetched,
    get_all_tournaments (Open db) = map of_row fetched
    /\ Permutation (filter r_is_active db) fetched
    /\ Sorted (fun a b => start_date_le a b = true) fetched
    /\ Listing.start_date_sorted (get_all_tournaments (Open db)).
Proof.
  exists (select_active db). unfold get_all_tournaments, fetchall, select_active.
  rewrite order_by_start_date_sort.
  assert (Hs : Sorted (fun a b => start_date_le a b = true)
                      (Listing.sort_by start_date_le (filter r_is_active db)))
    by (apply sort_by_sorted, start_date_le_total).
  repeat split; [apply sort_by_perm | exact Hs|].
  unfold Listing.start_date_sorted.
  induction Hs as [|r l Hl IH Hd]; simpl; constructor; [exact IH|].
  destruct Hd as [|r' l' Hle]; simpl; constructor.
  unfold start_date_le in Hle. unfold of_row. cbn [t_start_date].
  destruct (r_start_date r) as [x|], (r_start_date r') as [y|];
    cbn [Py.or_default]; try discriminate.
  - apply negb_true_iff in Hle.
    destruct x, y; simpl in *; try reflexivity; try congruence.
  - destruct y; reflexivity.
  - reflexivity.
Qed.

(** X9.  [get_active_tournaments] returns every active row exactly once,
    by ascending start date (rows without one first) and, among equal start
    dates, the row scraped last first; a NULL [categories] reads as the
    empty list. *)
Theorem listing_is_the_active_rows_in_order (db : table) :
  exists fetched,
    Listing.get_active_tournaments db = map Listing.listing_of_row fetched
    /\ Permutation (filter r_is_active db) fetched
    /\ Sorted (fun a b => Listing.listed_before a b = true) fetched
    /\ (forall r, In r fetched -> r_categories r = None ->
                  Listing.l_categories (Listing.listing_of_row r) = []).
Proof.
  exists (Listing.select_listed db). unfold Listing.get_active_tournaments.
  split; [reflexivity|]. split; [apply sort_by_perm|]. split.
  - apply sort_by_sorted, listed_before_total.
  - intros r _ H. unfold Listing.listing_of_row. simpl. now rewrite H.
Qed.

(** ** The readers *)

Section ReaderFacts.

Variable fromisoformat : string -> DateTime.iso_result.

Lemma contains_empty (s : string) : Py.contains "" s = true.
Proof. now destruct s. Qed.

Lemma upcoming_loop_length (now cutoff : Z) (l u : list Tournament) :
  upcoming_loop fromisoformat now cutoff l = Returns u ->
  List.length u <= List.length l.
Proof.
  revert u. induction l as [|t l IH]; intros u H; simpl in H.
  - injection H as <-. simpl. lia.
  - destruct (upcoming_test fromisoformat now cutoff t) as [keep|]; [|discriminate].
    destruct (upcoming_loop fromisoformat now cutoff l) as [u'|]; [|discriminate].
    injection H as <-. specialize (IH u' eq_refl).
    destruct keep; simpl; lia.
Qed.

Lemma upcoming_loop_widens (now c1 c2 : Z) (l u1 u2 : list Tournament) :
  (c1 <= c2)%Z ->
  upcoming_loop fromisoformat now c1 l = Returns u1 ->
  upcoming_loop fromisoformat now c2 l = Returns u2 ->
  forall t, In t u1 -> In t u2.
Proof.
  intros Hc. revert u1 u2. induction l as [|x l IH]; intros u1 u2 H1 H2 t Hin;
    simpl in H1, H2.
  - injection H1 as <-. destruct Hin.
  - unfold upcoming_test in H1, H2.
    destruct (upcoming_loop fromisoformat now c1 l) as [v1|];
      destruct (upcoming_loop fromisoformat now c2 l) as [v2|];
      destruct (Py.truthy (t_start_date x));
      try destruct (fromisoformat _) as [start|u|];
      try discriminate;
      injection H1 as <-; injection H2 as <-;
      specialize (IH v1 v2 eq_refl eq_refl t);
      try (now apply IH);
      try (destruct Hin as [<-|Hin]; [now left | right; now apply IH]).
    destruct ((now <=? start)%Z) eqn:E1; cbn [andb] in *; [|now apply IH].
    destruct ((start <=? c1)%Z) eqn:E2;
      [|destruct ((start <=? c2)%Z); [right|]; now apply IH].
    assert (E3 : (start <=? c2)%Z = true) by (apply Z.leb_le; apply Z.leb_le in E2; lia).
    rewrite E3. destruct Hin as [<-|Hin]; [now left | right; now apply IH].
Qed.

End ReaderFacts.

(** X10.  [search_tournaments] finds what is there: for a query of ASCII
    characters, a tournament of [get_all_tournaments] whose name or location
    holds the query as it was typed is returned; every tournament returned
    is one of [get_all_tournaments], and the empty query returns them
    all. *)
Theorem search_finds_what_holds_the_query (query : string) (d : database) :
  (forall t, In t (get_all_tournaments d) ->
             Py.isascii query = true ->
             Py.contains query (t_name t) = true
             \/ Py.contains query (t_location t) = true ->
             In t (search_tournaments query d))
  /\ (forall t, In t (search_tournaments query d) -> In t (get_all_tournaments d))
  /\ search_tournaments "" d = get_all_tournaments d.
Proof.
  unfold search_tournaments. repeat split.
  - intros t Hin _ H. apply filter_In. split; [exact Hin|]. apply orb_true_iff.
    destruct H as [H|H]; [left | right]; now apply contains_lower.
  - intros t H. now apply filter_In in H.
  - change (Py.lower "") with "".
    induction (get_all_tournaments d) as [|t l IH]; cbn [filter]; [reflexivity|].
    rewrite contains_empty. cbn [orb]. now rewrite IH.
Qed.

Lemma search_finds_what_holds_the_query_witness :
  let d := Open Fixture.scenario in
  In (of_row Fixture.in_5_days) (get_all_tournaments d)
  /\ Py.isascii "in_5" = true
  /\ Py.contains "in_5" (t_name (of_row Fixture.in_5_days)) = true
  /\ In (of_row Fixture.in_5_days) (search_tournaments "in_5" d).
Proof.
  intros d.
  assert (Hin : In (of_row Fixture.in_5_days) (get_all_tournaments d))
    by (vm_compute; tauto).
  assert (Hc : Py.contains "in_5" (t_name (of_row Fixture.in_5_days)) = true)
    by (vm_compute; reflexivity).
  split; [exact Hin|]. split; [reflexivity|]. split; [exact Hc|].
  exact (proj1 (search_finds_what_holds_the_query "in_5" d)
               (of_row Fixture.in_5_days) Hin eq_refl (or_introl Hc)).
Defined.

(** X11.  The counts of [get_tournament_stats] read from one table fit
    together: [total] is the number of active rows, and neither
    [upcoming_30_days] nor [with_registration] is larger than it. *)
Theorem stats_counts_fit_together
    (fromisoformat : string -> DateTime.iso_result) (now : Z) (db : table) (s : stats) :
  get_tournament_stats fromisoformat now (Open db) (Open db) (Open db) = Returns s ->
  total s = active_count db
  /\ upcoming_30_days s <= total s
  /\ with_registration s <= total s.
Proof.
  unfold get_tournament_stats, get_upcoming_tournaments.
  destruct (DateTime.add_days now 30) as [cutoff|]; [|discriminate].
  destruct (upcoming_loop fromisoformat now cutoff _) as [u|] eqn:Hu; [|discriminate].
  intros H. injection H as <-. cbn [total upcoming_30_days with_registration].
  split; [|split].
  - unfold get_all_tournaments, fetchall, select_active, active_count.
    rewrite length_map, order_by_start_date_sort.
    symmetry. apply Permutation_length, sort_by_perm.
  - eapply upcoming_loop_length; eauto.
  - unfold get_tournaments_with_registration. apply filter_length_le.
Qed.

Lemma stats_counts_fit_together_witness :
  let s := {| total := 3; upcoming_30_days := 1; with_registration := 0 |} in
  get_tournament_stats DateTime.fromisoformat Fixture.today
    (Open Fixture.scenario) (Open Fixture.scenario) (Open Fixture.scenario) = Returns s
  /\ total s = active_count Fixture.scenario
  /\ upcoming_30_days s <= total s
  /\ with_registration s <= total s.
Proof.
  intros s.
  assert (H : get_tournament_stats DateTime.fromisoformat Fixture.today
                (Open Fixture.scenario) (Open Fixture.scenario) (Open Fixture.scenario)
              = Returns s) by (vm_compute; reflexivity).
  split; [exact H|].
  exact (stats_counts_fit_together DateTime.fromisoformat Fixture.today
           Fixture.scenario s H).
Defined.

(** X12.  A longer look ahead never loses a tournament: when
    [get_upcoming_tournaments] returns for [days1] and for a larger
    [days2], every tournament of the first list is in the second, and
    neither list is longer than [get_all_tournaments]. *)
Theorem upcoming_grows_with_days
    (fromisoformat : string -> DateTime.iso_result)
    (now days1 days2 : Z) (d : database) (u1 u2 : list Tournament) :
  (days1 <= days2)%Z ->
  get_upcoming_tournaments fromisoformat now days1 d = Returns u1 ->
  get_upcoming_tournaments fromisoformat now days2 d = Returns u2 ->
  (forall t, In t u1 -> In t u2)
  /\ List.length u2 <= List.length (get_all_tournaments d).
Proof.
  unfold get_upcoming_tournaments, DateTime.add_days. intros Hd H1 H2.
  destruct (_ || _) in H1; [discriminate|]. destruct (_ || _) in H1; [discriminate|].
  destruct (_ || _) in H2; [discriminate|]. destruct (_ || _) in H2; [discriminate|].
  split.
  - eapply (upcoming_loop_widens fromisoformat now); [|exact H1 | exact H2].
    unfold DateTime.US_PER_DAY, DateTime.US_PER_SECOND. lia.
  - eapply upcoming_loop_length; eauto.
Qed.

Lemma upcoming_grows_with_days_witness :
  let d := Open Fixture.scenario in
  let u1 := [of_row Fixture.in_5_days] in
  let u2 := [of_row Fixture.in_5_days; of_row Fixture.in_40_days] in
  (7 <= 60)%Z
  /\ get_upcoming_tournaments DateTime.fromisoformat Fixture.today 7 d = Returns u1
  /\ get_upcoming_tournaments DateTime.fromisoformat Fixture.today 60 d = Returns u2
  /\ (forall t, In t u1 -> In t u2)
  /\ List.length u2 <= List.length (get_all_tournaments d).
Proof.
  intros d u1 u2.
  assert (H0 : (7 <= 60)%Z) by lia.
  assert (H1 : get_upcoming_tournaments DateTime.fromisoformat Fixture.today 7 d
               = Returns u1) by (vm_compute; reflexivity).
  assert (H2 : get_upcoming_tournaments DateTime.fromisoformat Fixture.today 60 d
               = Returns u2) by (vm_compute; reflexivity).
  split; [exact H0|]. split; [exact H1|]. split; [exact H2|].
  exact (upcoming_grows_with_days DateTime.fromisoformat Fixture.today 7 60 d u1 u2
           H0 H1 H2).
Defined.

(** ** What every extracted record satisfies *)

Section RecordFacts.

Lemma scan_links_shape (links : list node) :
  let '(available, url, status) := scan_links links in
  (status = None \/ (status = Some "closed" /\ available = false))
  /\ (available = true ->
      exists link,
        List.find (fun l => Py.any_in registration_keywords (Py.lower (get_text l))) links
          = Some link
        /\ says_closed link = false)
  /\ (List.find (fun l => Py.any_in registration_keywords (Py.lower (get_text l))) links
        = None -> available = false /\ url = None /\ status = None)
  /\ (forall u, url = Some u -> Py.startswith u "http" = true).
Proof.
  induction links as [|l rest IH]; cbn [scan_links List.find].
  - repeat split; try discriminate. now left.
  - destruct (Py.any_in registration_keywords (Py.lower (get_text l))) eqn:Hr;
      [|exact IH].
    assert (Hurl : forall u, registration_url_of (Py.get_or_empty (get "href" l)) = Some u ->
                             Py.startswith u "http" = true).
    { intros u. unfold registration_url_of.
      destruct (Py.truthy _); [|discriminate].
      destruct (Py.startswith _ "/"); [intros H; injection H as <-; reflexivity|].
      destruct (Py.startswith _ "http") eqn:E; [|discriminate].
      intros H. injection H as <-. exact E. }
    destruct (Py.any_in closed_keywords (Py.lower (get_text l))) eqn:Hc.
    + repeat split; try discriminate; try exact Hurl. right. now split.
    + repeat split; try discriminate; try exact Hurl; [now left|].
      intros _. exists l. split; [reflexivity | exact Hc].
Qed.

Lemma filter_head {A : Type} (p : A -> bool) (l : list A) (x : A) (rest : list A) :
  filter p l = x :: rest -> p x = true.
Proof.
  intros H. assert (Hin : In x (filter p l)) by (rewrite H; now left).
  now apply filter_In in Hin.
Qed.

Lemma is_time_datetime (n : node) : is_time n = true -> get "datetime" n <> None.
Proof.
  unfold is_time, has_attr. intros H. apply andb_true_iff in H as [_ H].
  destruct (get "datetime" n); [discriminate | discriminate].
Qed.

Lemma extract_dates_shape (element : node) :
  let '(date, start_date, end_date) := extract_dates element in
  (date = None <-> start_date = None)
  /\ (end_date <> None -> start_date <> None).
Proof.
  unfold extract_dates.
  destruct (find_all is_subheading element) as [|s1 [|s2 ss]];
    try (split; [tauto | congruence]).
  destruct (find_all is_time s2) as [|t1 [|t2 ts]] eqn:E;
    try (split; [tauto | congruence]).
  - pose proof (is_time_datetime t1 (filter_head _ _ _ _ E)) as H1.
    split; [split; congruence | congruence].
  - pose proof (is_time_datetime t1 (filter_head _ _ _ _ E)) as H1.
    split; [split; congruence | congruence].
Qed.

Lemma dedup_loop_fixed (l : list tournament) :
  forall seen,
    (forall t, In t l -> has_name t = true) ->
    NoDup (map dedup_key l) ->
    (forall t, In t l -> ~ In (dedup_key t) seen) ->
    dedup_loop seen l = l.
Proof.
  induction l as [|x l IH]; intros seen Hn Hnd Hs; [reflexivity|].
  inversion Hnd as [|? ? Hx Hnd']; subst. cbn [dedup_loop].
  pose proof (Hn x (or_introl eq_refl)) as Hnx. unfold has_name in Hnx.
  rewrite Hnx. cbn [negb].
  destruct (existsb (key_eqb (dedup_key x)) seen) eqn:E.
  - apply seen_In in E. exfalso. eapply Hs; [now left | exact E].
  - f_equal. apply IH; [intros; apply Hn; now right | exact Hnd'|].
    intros t Hin [Hk|Hk].
    + apply Hx. rewrite Hk. now apply in_map.
    + eapply Hs; [right; exact Hin | exact Hk].
Qed.

Lemma dedup_loop_length (l : list tournament) :
  forall seen, List.length (dedup_loop seen l) <= List.length l.
Proof.
  induction l as [|x l IH]; intros seen; simpl; [lia|].
  destruct (negb _); [specialize (IH seen); lia|].
  destruct (existsb _ seen); [specialize (IH seen) | specialize (IH (dedup_key x :: seen))];
    simpl; lia.
Qed.

End RecordFacts.

(** X13.  The registration keys of every extracted record fit together:
    [registration_status] is missing or ['closed'], a closed record is
    never available, an available record has a first registration link
    that does not say closed, an element without a registration link gives
    [False] and no url, and a [registration_url] that is set starts with
    ["http"]. *)
Theorem registration_keys_fit_together
    (clk : clock) (element : node) (index : nat) (source : string) :
  let t := _extract_tournament_details clk element index source in
  (c_registration_status t = None
   \/ (c_registration_status t = Some "closed" /\ c_registration_available t = false))
  /\ (c_registration_available t = true ->
      exists link, first_registration_link element = Some link
                   /\ says_closed link = false)
  /\ (first_registration_link element = None ->
      c_registration_available t = false
      /\ c_registration_url t = None
      /\ c_registration_status t = None)
  /\ (forall u, c_registration_url t = Some u -> Py.startswith u "http" = true).
Proof.
  intros t. pose proof (details_registration clk element index source) as Hd.
  fold t in Hd. cbv zeta in Hd. unfold _extract_registration_info in Hd.
  pose proof (scan_links_shape (hyperlinks element)) as Hs.
  rewrite <- Hd in Hs. exact Hs.
Qed.

Lemma registration_keys_fit_together_witness :
  let t := _extract_tournament_details Fixture.clock0 Fixture.rotterdam 0 "upcoming" in
  c_registration_available t = true
  /\ c_registration_url t = Some "https://nttb.toernooi.nl/register/AB12"
  /\ (exists link, first_registration_link Fixture.rotterdam = Some link
                   /\ says_closed link = false)
  /\ Py.startswith "https://nttb.toernooi.nl/register/AB12" "http" = true.
Proof.
  intros t.
  assert (Ha : c_registration_available t = true) by (vm_compute; reflexivity).
  assert (Hu : c_registration_url t = Some "https://nttb.toernooi.nl/register/AB12")
    by (vm_compute; reflexivity).
  destruct (registration_keys_fit_together Fixture.clock0 Fixture.rotterdam 0 "upcoming")
    as (_ & H2 & _ & H4).
  split; [exact Ha|]. split; [exact Hu|]. split; [exact (H2 Ha) | exact (H4 _ Hu)].
Defined.

(** X14.  The date keys of every extracted record fit together: the
    record has a [date] exactly when it has a [start_date], and it has no
    [end_date] without a [start_date]; its [source] is the tab it was
    parsed for. *)
Theorem date_keys_fit_together
    (clk : clock) (element : node) (index : nat) (source : string) :
  let t := _extract_tournament_details clk element index source in
  (c_date t = None <-> c_start_date t = None)
  /\ (c_end_date t <> None -> c_start_date t <> None)
  /\ c_source t = source.
Proof.
  intros t. pose proof (extract_dates_shape element) as Hs.
  unfold t, _extract_tournament_details.
  destruct (extract_dates element) as [[d s] e].
  destruct (_extract_registration_info element) as [[? ?] ?]. cbn.
  destruct Hs as [H1 H2]. repeat split; tauto.
Qed.

Lemma date_keys_fit_together_witness :
  let two_days :=
    Tag "li" ["list__item"] []
        [Fixture.title "Open Toernooi" "/sport/tournament?id=AB12";
         Fixture.subheading_location "NTTB | Rotterdam";
         Tag "small" ["media__subheading"] []
             [Tag "time" [] [("datetime", "2026-11-08")] [NavigableString "8 nov"];
              Tag "time" [] [("datetime", "2026-11-09")] [NavigableString "9 nov"]]] in
  let t := _extract_tournament_details Fixture.clock0 two_days 0 "upcoming" in
  c_end_date t = Some "2026-11-09"
  /\ c_date t = Some "8 nov t/m 9 nov"
  /\ c_start_date t <> None.
Proof.
  intros two_days t.
  assert (He : c_end_date t = Some "2026-11-09") by (vm_compute; reflexivity).
  split; [exact He|]. split; [vm_compute; reflexivity|].
  apply (proj1 (proj2 (date_keys_fit_together Fixture.clock0 two_days 0 "upcoming"))).
  fold t. rewrite He. discriminate.
Defined.

(** X15.  Deduplicating twice is deduplicating once; the result is never
    longer than the input and holds candidates of the input only, each with
    a name. *)
Theorem dedup_is_idempotent (tournaments : list tournament) :
  let unique := _remove_duplicate_tournaments tournaments in
  _remove_duplicate_tournaments unique = unique
  /\ List.length unique <= List.length tournaments
  /\ Forall (fun t => In t tournaments /\ has_name t = true) unique.
Proof.
  intros unique.
  assert (Hall : Forall (fun t => In t tournaments /\ has_name t = true) unique).
  { apply Forall_forall. intros t Hin.
    apply dedup_loop_first in Hin as [_ Hf]. unfold first_with_key in Hf.
    apply find_some in Hf as [Hin Hn]. apply andb_true_iff in Hn as [Hn _]. auto. }
  split; [|split; [apply dedup_loop_length | exact Hall]].
  unfold _remove_duplicate_tournaments. apply dedup_loop_fixed.
  - intros t Hin. rewrite Forall_forall in Hall. now apply Hall.
  - apply dedup_loop_NoDup.
  - intros t _ [].
Qed.

(** ** The browser pass *)

Import Pipeline.

Section BrowserFacts.

Lemma try_selectors_spec (page : string -> click_outcome) (selectors : list string) :
  let '(tried, clicked) := try_selectors page selectors in
  clicked = existsb (fun s => was_clicked (page s)) selectors
  /\ (exists rest, selectors = tried ++ rest)
  /\ (clicked = true ->
      exists before s, tried = before ++ [s] /\ page s = Clicked
                       /\ forall s', In s' before -> page s' <> Clicked)
  /\ (clicked = false -> tried = selectors).
Proof.
  induction selectors as [|x l IH]; cbn [try_selectors existsb].
  - repeat split; [now exists [] | discriminate].
  - destruct (try_selectors page l) as [tried clicked].
    destruct IH as (H1 & [rest H2] & H3 & H4).
    destruct (page x) eqn:E; cbn [was_clicked orb].
    + repeat split; [now exists l | | discriminate].
      intros _. exists [], x. repeat split; [exact E | intros ? []].
    + repeat split; [exact H1 | exists rest; now rewrite H2 | | intros H; now rewrite H4].
      intros H. destruct (H3 H) as (before & s & -> & Hs & Hb).
      exists (x :: before), s. repeat split; [exact Hs|].
      intros s' [<-|Hin]; [congruence | now apply Hb].
    + repeat split; [exact H1 | exists rest; now rewrite H2 | | intros H; now rewrite H4].
      intros H. destruct (H3 H) as (before & s & -> & Hs & Hb).
      exists (x :: before), s. repeat split; [exact Hs|].
      intros s' [<-|Hin]; [congruence | now apply Hb].
Qed.

Lemma scroll_loop_spec (height : nat -> Z) (budget : nat) :
  forall a,
    let '(attempts, scrolled) := scroll_loop height budget a a (height a) in
    a <= attempts <= a + budget
    /\ (forall k, a <= k < attempts -> height (S k) <> height k)
    /\ ((scrolled = S attempts /\ height (S attempts) = height attempts
         /\ attempts < a + budget)
        \/ (scrolled = attempts /\ attempts = a + budget)).
Proof.
  induction budget as [|b IH]; intros a; cbn [scroll_loop].
  - split; [lia|]. split; [intros; lia|]. right. lia.
  - destruct (Z.eqb_spec (height (S a)) (height a)) as [E|E].
    + split; [lia|]. split; [intros; lia|]. left. repeat split; [exact E | lia].
    + specialize (IH (S a)).
      destruct (scroll_loop height b (S a) (S a) (height (S a))) as [attempts scrolled].
      destruct IH as (H1 & H2 & H3). split; [lia|]. split.
      * intros k Hk. destruct (Nat.eq_dec k a) as [->|Hne]; [exact E|].
        apply H2. lia.
      * destruct H3 as [(-> & H3 & H4)|(-> & H4)]; [left | right]; repeat split;
          try assumption; lia.
Qed.

Lemma dedup_nonempty (t : tournament) (l : list tournament) :
  has_name t = true -> _remove_duplicate_tournaments (t :: l) <> [].
Proof.
  unfold _remove_duplicate_tournaments, has_name. intros H. cbn [dedup_loop].
  rewrite H. cbn [negb existsb]. discriminate.
Qed.

Lemma gathered_have_names (clk clk' : nat -> clock) (u r : tab_view) (t : tournament) :
  In t (gathered clk clk' u r) -> has_name t = true.
Proof.
  unfold gathered, _scrape_upcoming_tab, _scrape_recent_tab. intros H.
  apply in_app_or in H as [H|H]; [destruct u | destruct r];
    try destruct H; eapply parsed_candidates_have_names; eauto.
Qed.

End BrowserFacts.

(** X16.  [_handle_cookie_banner] tries the selectors in their order and
    stops at the first whose element it could click: it returns [True]
    exactly when one of the ten can be clicked, a selector after the clicked
    one is never tried, and a timeout or any other exception only moves it
    on; with nothing to click all ten are tried. *)
Theorem cookie_banner_clicks_the_first_clickable (page : string -> click_outcome) :
  let '(tried, clicked) := _handle_cookie_banner page in
  clicked = existsb (fun s => was_clicked (page s)) accept_selectors
  /\ (exists rest, accept_selectors = tried ++ rest)
  /\ (clicked = true ->
      exists before s, tried = before ++ [s] /\ page s = Clicked
                       /\ forall s', In s' before -> page s' <> Clicked)
  /\ (clicked = false -> tried = accept_selectors /\ List.length tried = 10).
Proof.
  unfold _handle_cookie_banner.
  pose proof (try_selectors_spec page accept_selectors) as H.
  destruct (try_selectors page accept_selectors) as [tried clicked].
  destruct H as (H1 & H2 & H3 & H4). repeat split; auto.
  rewrite (H4 H). reflexivity.
Qed.

(** X17.  [_scroll_to_load_all] scrolls at most five times: it stops at
    the first scroll that leaves the height as it was, every scroll before
    that one changed the height, and after five scrolls that all changed it
    the loop ends without a sixth. *)
Theorem scrolling_stops_within_five (height : nat -> Z) :
  let '(scroll_attempts, scrolled) := _scroll_to_load_all height in
  scrolled <= 5
  /\ (forall k, k < scroll_attempts -> height (S k) <> height k)
  /\ ((scroll_attempts < 5 /\ scrolled = S scroll_attempts
       /\ height (S scroll_attempts) = height scroll_attempts)
      \/ (scroll_attempts = 5 /\ scrolled = 5)).
Proof.
  unfold _scroll_to_load_all, max_scrolls.
  pose proof (scroll_loop_spec height 5 0) as H.
  destruct (scroll_loop height 5 0 0 (height 0)) as [attempts scrolled].
  destruct H as (H1 & H2 & H3). split; [|split].
  - destruct H3 as [(-> & _ & ?)|(-> & ?)]; lia.
  - intros k Hk. apply H2. lia.
  - destruct H3 as [(-> & ? & ?)|(-> & ?)]; [left | right]; repeat split;
      try assumption; lia.
Qed.

(** X18.  [_scrape_with_selenium] succeeds exactly when the two tabs give
    at least one candidate between them.  Then [tournaments_data] is the
    deduplicated list of the candidates of both tabs, not empty, every
    record with a name and no two with the same key; a tab that raised
    counts as a tab without candidates and does not fail the pass.
    Otherwise [tournaments_data] is left as it was. *)
Theorem browser_pass_needs_one_candidate
    (clk clk' : nat -> clock) (upcoming recent : tab_view)
    (old : list tournament) :
  exists ok data,
    _scrape_with_selenium clk clk' (Tabs upcoming recent) old = Some (ok, data)
    /\ (ok = true <-> gathered clk clk' upcoming recent <> [])
    /\ (ok = true ->
        data = _remove_duplicate_tournaments (gathered clk clk' upcoming recent)
        /\ data <> []
        /\ NoDup (map dedup_key data)
        /\ Forall (fun t => has_name t = true) data)
    /\ (ok = false -> data = old)
    /\ gathered clk clk' TabError recent = _scrape_recent_tab clk' recent
    /\ gathered clk clk' upcoming TabError = _scrape_upcoming_tab clk upcoming.
Proof.
  unfold _scrape_with_selenium.
  pose proof (gathered_have_names clk clk' upcoming recent) as Hn.
  assert (Htail : gathered clk clk' TabError recent = _scrape_recent_tab clk' recent
                  /\ gathered clk clk' upcoming TabError
                     = _scrape_upcoming_tab clk upcoming)
    by (unfold gathered; cbn [_scrape_upcoming_tab _scrape_recent_tab];
        now rewrite app_nil_r).
  destruct (gathered clk clk' upcoming recent) as [|t l] eqn:E.
  - exists false, old. repeat split; try discriminate; try tauto; apply Htail.
  - exists true, (_remove_duplicate_tournaments (t :: l)).
    repeat split; try discriminate; try apply Htail.
    + apply dedup_nonempty. apply Hn. now left.
    + apply dedup_loop_NoDup.
    + apply Forall_forall. intros x Hx.
      apply dedup_loop_first in Hx as [_ Hf]. unfold first_with_key in Hf.
      apply find_some in Hf as [_ Hf]. now apply andb_true_iff in Hf.
Qed.

(** X19.  A call of [scrape_tournaments] that returns adds exactly one
    row to [scrape_log] and leaves the earlier rows alone.  The status of
    the new row is ["success"] when the call returns [True] and ["failed"]
    or ["error"] when it returns [False]; a call that returns [False]
    leaves the [tournaments] table as it was and logs 0; a call that
    returns [True] logs the number of rows it inserted, which is the growth
    of the table.  The call raises only when the browser pass succeeded and
    the reconciliation raised [IntegrityError]: then it raises
    [OperationalError], logs nothing and leaves the table as it was. *)
Theorem a_pass_that_returns_logs_one_row
    (clk clk' : nat -> clock) (now : nat -> string)
    (at_ : string) (s : session) (st : state) :
  let '(st', outcome) := scrape_tournaments clk clk' now at_ s st in
  match outcome with
  | Returns ok =>
      exists entry,
        scrape_log st' = scrape_log st ++ [entry]
        /\ g_scraped_at entry = at_
        /\ (if ok
            then g_status entry = "success"
                 /\ tournaments st'
                    = table_after now (tournaments_data st') (tournaments st)
                 /\ List.length (tournaments st')
                    = List.length (tournaments st) + g_tournaments_found entry
            else (g_status entry = "failed" \/ g_status entry = "error")
                 /\ tournaments st' = tournaments st
                 /\ g_tournaments_found entry = 0)
  | Raises e =>
      e = OperationalError
      /\ scrape_log st' = scrape_log st
      /\ tournaments st' = tournaments st
      /\ _scrape_with_selenium clk clk' s (tournaments_data st)
         = Some (true, tournaments_data st')
      /\ snd (_save_tournaments_to_db now (tournaments_data st') (tournaments st))
         = Raises IntegrityError
  end.
Proof.
  unfold scrape_tournaments, _log_scrape_attempt.
  destruct (_scrape_with_selenium clk clk' s (tournaments_data st)) as [[[|] data]|].
  - pose proof (save_loop_frame now data
                  {| rows := tournaments st; saved_count := 0; handled := 0 |}) as Hf.
    pose proof (save_loop_exn now data
                  {| rows := tournaments st; saved_count := 0; handled := 0 |}) as He.
    unfold _save_tournaments_to_db.
    destruct (save_loop now data _) as [sv|e] eqn:H; cbn [fst snd].
    + destruct (Hf sv eq_refl) as (kept & added & Hrows & Hk & Hc & _).
      cbn [rows saved_count] in Hk, Hc. apply Forall2_length in Hk.
      eexists. split; [reflexivity|].
      cbn [g_scraped_at g_status g_tournaments_found tournaments tournaments_data].
      split; [reflexivity|]. split; [reflexivity|]. split.
      * unfold table_after, _save_tournaments_to_db. now rewrite H.
      * rewrite Hrows, length_app. lia.
    + pose proof (He e eq_refl) as Ee. subst e.
      cbn [tournaments scrape_log tournaments_data].
      repeat split. unfold _save_tournaments_to_db. now rewrite H.
  - eexists. split; [reflexivity|]. cbn. repeat split. now left.
  - eexists. split; [reflexivity|]. cbn. repeat split. now right.
Qed.

(** ** The callers *)

Import Frontend.

Section TimerFacts.

Lemma replace_time_inv (dt hour minute target : Z) :
  replace_time dt hour minute = Some target ->
  (0 <= hour < 24)%Z /\ (0 <= minute < 60)%Z
  /\ target = (dt / DateTime.US_PER_DAY * DateTime.US_PER_DAY
               + (hour * 3600 + minute * 60) * DateTime.US_PER_SECOND)%Z.
Proof.
  unfold replace_time.
  destruct (Z.leb_spec 0 hour), (Z.ltb_spec hour 24), (Z.leb_spec 0 minute),
    (Z.ltb_spec minute 60); simpl; try discriminate.
  intros E. injection E as <-. repeat split; assumption.
Qed.

Lemma add_days_inv (dt n r : Z) :
  DateTime.add_days dt n = Some r -> r = (dt + n * DateTime.US_PER_DAY)%Z.
Proof.
  unfold DateTime.add_days.
  destruct (_ || _); [discriminate|]. destruct (_ || _); [discriminate|].
  now intros H; injection H as <-.
Qed.

End TimerFacts.

(** X20.  [_wait_until_time] waits into the next occurrence of the time
    asked for: the wait is more than nothing and at most a day, and the
    target it sleeps until is at [hour:minute:00]. *)
Theorem wait_until_time_is_within_a_day (now hour minute target wait : Z) :
  (0 <= now)%Z ->
  _wait_until_time now hour minute = inr (target, wait) ->
  (0 < wait <= DateTime.US_PER_DAY)%Z
  /\ target = (now + wait)%Z
  /\ (target mod DateTime.US_PER_DAY
      = (hour * 3600 + minute * 60) * DateTime.US_PER_SECOND)%Z.
Proof.
  intros Hnow. unfold _wait_until_time.
  destruct (replace_time now hour minute) as [t0|] eqn:Hr; [|discriminate].
  apply replace_time_inv in Hr as (Hh & Hm & ->).
  destruct (Z.leb_spec (now / DateTime.US_PER_DAY * DateTime.US_PER_DAY
                        + (hour * 3600 + minute * 60) * DateTime.US_PER_SECOND) now)
    as [Hle|Hlt].
  - destruct (DateTime.add_days _ 1) as [t1|] eqn:Ha; [|discriminate].
    apply add_days_inv in Ha. intros H. injection H as <- <-. subst t1.
    unfold DateTime.US_PER_DAY, DateTime.US_PER_SECOND in *.
    repeat split; Z.div_mod_to_equations; lia.
  - intros H. injection H as <- <-.
    unfold DateTime.US_PER_DAY, DateTime.US_PER_SECOND in *.
    repeat split; Z.div_mod_to_equations; lia.
Qed.

Lemma wait_until_time_is_within_a_day_witness :
  let target := DateTime.datetime 2026 11 4 8 0 0 0 in
  let wait := (20 * 3600 * DateTime.US_PER_SECOND)%Z in
  (0 <= Fixture.today)%Z
  /\ _wait_until_time Fixture.today 8 0 = inr (target, wait)
  /\ (0 < wait <= DateTime.US_PER_DAY)%Z
  /\ target = (Fixture.today + wait)%Z
  /\ (target mod DateTime.US_PER_DAY = (8 * 3600 + 0 * 60) * DateTime.US_PER_SECOND)%Z.
Proof.
  intros target wait.
  assert (H0 : (0 <= Fixture.today)%Z) by (vm_compute; discriminate).
  assert (H1 : _wait_until_time Fixture.today 8 0 = inr (target, wait))
    by (vm_compute; reflexivity).
  split; [exact H0|]. split; [exact H1|].
  exact (wait_until_time_is_within_a_day Fixture.today 8 0 target wait H0 H1).
Defined.

(** X21.  [_wait_until_weekday] waits into the week ahead: for a weekday
    from 0 to 6 the wait is more than nothing and less than seven days and
    an hour, and the target is on that weekday at [hour:minute:00]. *)
Theorem wait_until_weekday_is_within_a_week
    (now weekday hour minute target wait : Z) :
  (0 <= now)%Z ->
  (0 <= weekday <= 6)%Z ->
  _wait_until_weekday now weekday hour minute = inr (target, wait) ->
  (0 < wait < 7 * DateTime.US_PER_DAY + 3600 * DateTime.US_PER_SECOND)%Z
  /\ target = (now + wait)%Z
  /\ weekday_of target = weekday
  /\ (target mod DateTime.US_PER_DAY
      = (hour * 3600 + minute * 60) * DateTime.US_PER_SECOND)%Z.
Proof.
  intros Hnow Hw. unfold _wait_until_weekday.
  set (d0 := (weekday - weekday_of now)%Z).
  set (d := if (d0 <? 0)%Z || ((d0 =? 0)%Z && (hour <=? hour_of now)%Z)
            then (d0 + 7)%Z else d0).
  destruct (DateTime.add_days now d) as [t|] eqn:Ha; [|discriminate].
  apply add_days_inv in Ha.
  destruct (replace_time t hour minute) as [t'|] eqn:Hr; [|discriminate].
  apply replace_time_inv in Hr as (Hh & Hm & Ht').
  intros H. injection H as <- <-. subst t' t.
  assert (Hd : ((d = d0 + 7 /\ (d0 < 0 \/ (d0 = 0 /\ hour <= hour_of now)))
                \/ (d = d0 /\ (0 < d0 \/ (d0 = 0 /\ hour_of now < hour))))%Z).
  { unfold d. destruct (Z.ltb_spec d0 0); simpl; [left; lia|].
    destruct (Z.eqb_spec d0 0); simpl; [|right; lia].
    destruct (Z.leb_spec hour (hour_of now)); [left | right]; lia. }
  clearbody d. unfold d0, weekday_of, hour_of in *. clear d0.
  unfold DateTime.US_PER_DAY, DateTime.US_PER_SECOND in *.
  repeat split; Z.div_mod_to_equations; lia.
Qed.

Lemma wait_until_weekday_is_within_a_week_witness :
  let target := DateTime.datetime 2026 11 9 9 0 0 0 in
  let wait := ((5 * 24 + 21) * 3600 * DateTime.US_PER_SECOND)%Z in
  (0 <= Fixture.today)%Z
  /\ (0 <= 0 <= 6)%Z
  /\ _wait_until_weekday Fixture.today 0 9 0 = inr (target, wait)
  /\ (0 < wait < 7 * DateTime.US_PER_DAY + 3600 * DateTime.US_PER_SECOND)%Z
  /\ target = (Fixture.today + wait)%Z
  /\ weekday_of target = 0%Z
  /\ (target mod DateTime.US_PER_DAY = (9 * 3600 + 0 * 60) * DateTime.US_PER_SECOND)%Z.
Proof.
  intros target wait.
  assert (H0 : (0 <= Fixture.today)%Z) by (vm_compute; discriminate).
  assert (Hw : (0 <= 0 <= 6)%Z) by lia.
  assert (H1 : _wait_until_weekday Fixture.today 0 9 0 = inr (target, wait))
    by (vm_compute; reflexivity).
  split; [exact H0|]. split; [exact Hw|]. split; [exact H1|].
  exact (wait_until_weekday_is_within_a_week Fixture.today 0 9 0 target wait H0 Hw H1).
Defined.

Section PageFacts.

Context {A : Type}.

Lemma firstn_add (a b : nat) (l : list A) :
  firstn (a + b) l = firstn a l ++ firstn b (skipn a l).
Proof.
  revert l. induction a as [|a IH]; intros l; [reflexivity|].
  destruct l as [|x l]; simpl; [now rewrite firstn_nil | now rewrite IH].
Qed.

Lemma chunks_concat_firstn (k : nat) (l : list A) (m : nat) :
  List.concat (map (fun j => firstn k (skipn (j * k) l)) (seq 0 m)) = firstn (m * k) l.
Proof.
  induction m as [|m IH]; [reflexivity|].
  rewrite seq_S, map_app, concat_app, IH. cbn [map List.concat Nat.add].
  rewrite app_nil_r. replace (S m * k) with (m * k + k) by lia.
  now rewrite firstn_add.
Qed.

Lemma pages_cover (n k : nat) : 0 < k -> n <= (n + k - 1) / k * k.
Proof.
  intros Hk. pose proof (Nat.div_mod_eq (n + k - 1) k) as H.
  pose proof (Nat.mod_upper_bound (n + k - 1) k ltac:(lia)) as Hm. nia.
Qed.

Lemma pages_start_inside (n k j : nat) : 0 < k -> j < (n + k - 1) / k -> j * k < n.
Proof.
  intros Hk Hj. pose proof (Nat.Div0.mul_div_le (n + k - 1) k) as H. nia.
Qed.

Lemma chunks_spec (items : list A) (k : nat) :
  0 < k ->
  List.concat (chunks items k) = items
  /\ List.length (chunks items k) = (List.length items + k - 1) / k
  /\ Forall (fun c => 0 < List.length c <= k) (chunks items k).
Proof.
  intros Hk. unfold chunks, page_starts, chunk. rewrite map_map. split; [|split].
  - rewrite chunks_concat_firstn. apply firstn_all2. now apply pages_cover.
  - now rewrite length_map, length_seq.
  - apply Forall_forall. intros c Hin. apply in_map_iff in Hin as (j & <- & Hj).
    apply in_seq in Hj. rewrite length_firstn, length_skipn.
    pose proof (pages_start_inside (List.length items) k j Hk ltac:(lia)). lia.
Qed.

Lemma create_embeds_pages (utc_now : nat -> Z) (items : list A) (title : string)
    (format_func : A -> string) (k : nat) (color : option Z) :
  0 < k -> items <> [] ->
  exists pages,
    create_embeds utc_now items title format_func (Z.of_nat k) color = Some pages
    /\ map e_description pages
       = map (fun c => Some (join_with (nl ++ nl)%string (map format_func c))) (chunks items k)
    /\ List.length pages = (List.length items + k - 1) / k.
Proof.
  intros Hk Hne. unfold create_embeds. destruct items as [|x l]; [congruence|].
  destruct (Z.eqb_spec (Z.of_nat k) 0); [lia|].
  destruct (Z.ltb_spec (Z.of_nat k) 0); [lia|].
  rewrite Nat2Z.id. eexists. split; [reflexivity|]. split.
  - unfold chunks. now rewrite !map_map.
  - unfold page_starts. now rewrite !length_map, length_seq.
Qed.

End PageFacts.

(** X22.  [create_embeds] with a positive page size loses nothing: the
    pages hold the items in their order, each page between one item and
    [items_per_page] of them, and there are as many pages as the footer
    says.  Without items it gives the one page that says so, whatever the
    page size; a page size of 0 with items raises. *)
Theorem pages_hold_every_item
    {A : Type} (utc_now : nat -> Z) (items : list A) (title : string)
    (format_func : A -> string) (k : nat) (color : option Z) :
  0 < k ->
  items <> [] ->
  (exists pages,
      create_embeds utc_now items title format_func (Z.of_nat k) color = Some pages
      /\ map e_description pages
         = map (fun c => Some (join_with (nl ++ nl)%string (map format_func c)))
               (chunks items k)
      /\ List.length pages = (List.length items + k - 1) / k)
  /\ List.concat (chunks items k) = items
  /\ Forall (fun c => 0 < List.length c <= k) (chunks items k)
  /\ create_embeds utc_now items title format_func 0 color = None
  /\ (exists e, create_embeds utc_now (@nil A) title format_func 0 color = Some [e]
                /\ e_description e = Some "Geen data beschikbaar").
Proof.
  intros Hk Hne. destruct (chunks_spec items k Hk) as (H1 & _ & H3).
  split; [now apply create_embeds_pages|]. split; [exact H1|]. split; [exact H3|].
  split.
  - destruct items; [congruence | reflexivity].
  - eexists. split; reflexivity.
Qed.

Lemma pages_hold_every_item_witness :
  let items := [1; 2; 3; 4; 5; 6; 7] in
  0 < 3
  /\ items <> []
  /\ chunks items 3 = [[1; 2; 3]; [4; 5; 6]; [7]]
  /\ List.concat (chunks items 3) = items
  /\ Forall (fun c => 0 < List.length c <= 3) (chunks items 3).
Proof.
  intros items.
  assert (Hk : 0 < 3) by lia.
  assert (Hne : items <> []) by discriminate.
  destruct (pages_hold_every_item (fun _ => 0%Z) items "Titel" Py.str_of_nat 3 None Hk Hne)
    as (_ & H2 & H3 & _).
  split; [exact Hk|]. split; [exact Hne|]. split; [reflexivity|].
  split; [exact H2 | exact H3].
Defined.

(** X23.  The weekly reminder shows at most five tournaments: when
    [build_tournament_reminder] gives an embed, the query returned a list
    that is not empty, the fields are named after its first five
    tournaments in their order and the description counts them all; it
    gives nothing when the query returned no tournament or raised, and so
    when the database cannot be read. *)
Theorem reminder_shows_the_first_five
    (fromisoformat : string -> DateTime.iso_result) (now utc_now : Z) (d : database) :
  match build_tournament_reminder fromisoformat now utc_now d with
  | Some e =>
      exists upcoming,
        get_upcoming_tournaments fromisoformat now 7 d = Returns upcoming
        /\ upcoming <> []
        /\ map (fun f => fst (fst f)) (e_fields e) = map t_name (firstn 5 upcoming)
        /\ List.length (e_fields e) = Nat.min 5 (List.length upcoming)
        /\ e_description e
           = Some (Py.str_of_nat (List.length upcoming)
                     ++ " toernooien in de komende 7 dagen")%string
  | None =>
      get_upcoming_tournaments fromisoformat now 7 d = Returns []
      \/ exists e, get_upcoming_tournaments fromisoformat now 7 d = Raises e
  end
  /\ build_tournament_reminder fromisoformat now utc_now Fault = None.
Proof.
  split.
  - unfold build_tournament_reminder.
    destruct (get_upcoming_tournaments fromisoformat now 7 d) as [[|t l]|e];
      [now left | | right; eauto].
    exists (t :: l). cbn [e_fields e_description]. repeat split; [discriminate | |].
    + rewrite map_map. reflexivity.
    + now rewrite length_map, length_firstn.
  - unfold build_tournament_reminder, get_upcoming_tournaments.
    destruct (DateTime.add_days now 7); reflexivity.
Qed.

Section CommandFacts.

Variable fromisoformat : string -> DateTime.iso_result.

Lemma some_pages (utc_now : nat -> Z) (t : Tournament) (l : list Tournament)
    (title : string) :
  exists e es,
    create_embeds utc_now (t :: l) title format_tournament 5 (Some ACCENT_ORANGE)
    = Some (e :: es)
    /\ List.length (e :: es) = (List.length (t :: l) + 4) / 5.
Proof.
  destruct (create_embeds_pages utc_now (t :: l) title format_tournament 5
              (Some ACCENT_ORANGE) ltac:(lia) ltac:(discriminate))
    as (pages & Hp & _ & Hlen).
  change (Z.of_nat 5) with 5%Z in Hp. rewrite Hp.
  replace (List.length (t :: l) + 5 - 1) with (List.length (t :: l) + 4) in Hlen by lia.
  destruct pages as [|e es].
  - exfalso. cbn [List.length] in Hlen.
    pose proof (Nat.div_mod_eq (S (List.length l) + 4) 5) as H.
    pose proof (Nat.mod_upper_bound (S (List.length l) + 4) 5 ltac:(lia)) as Hm.
    rewrite <- Hlen in H. lia.
  - exists e, es. split; [reflexivity | exact Hlen].
Qed.

End CommandFacts.

(** X24.  [tournaments_command] answers with its error text exactly when
    the query raised.  A database that cannot be read is not such a case:
    the reader has turned it into an empty list, and the command answers
    that no tournaments were found.  Up to five tournaments come as one
    embed, more as pages of five under a [PaginationView] that starts on
    the first page. *)
Theorem command_reports_a_fault_as_nothing_found
    (fromisoformat : string -> DateTime.iso_result)
    (now : Z) (utc_now : nat -> Z) (days : Z) (d : database) :
  let answer := tournaments_command fromisoformat true now utc_now days d in
  (answer = Text error_text true
   <-> exists e, get_upcoming_tournaments fromisoformat now days d = Raises e)
  /\ (forall l, get_upcoming_tournaments fromisoformat now days d = Returns l ->
                match answer with
                | Text _ _ => False
                | Single e => l = [] \/ (0 < List.length l <= 5)
                | Paged e v =>
                    5 < List.length l
                    /\ List.length (embeds v) = (List.length l + 4) / 5
                    /\ current_page v = 0%Z
                    /\ shown v = Some e
                    /\ previous_disabled v = true
                    /\ next_disabled v = false
                end)
  /\ (DateTime.add_days now days <> None ->
      tournaments_command fromisoformat true now utc_now days Fault
      = Single (nothing_found days))
  /\ tournaments_command fromisoformat false now utc_now days d
     = Text unavailable_text true.
Proof.
  intros answer.
  assert (Hshape :
    match get_upcoming_tournaments fromisoformat now days d with
    | Raises _ => answer = Text error_text true
    | Returns l =>
        match answer with
        | Text _ _ => False
        | Single e => l = [] \/ (0 < List.length l <= 5)
        | Paged e v =>
            5 < List.length l
            /\ List.length (embeds v) = (List.length l + 4) / 5
            /\ current_page v = 0%Z
            /\ shown v = Some e
            /\ previous_disabled v = true
            /\ next_disabled v = false
        end
    end).
  { unfold answer, tournaments_command. cbn [negb].
    destruct (get_upcoming_tournaments fromisoformat now days d) as [[|t l]|e];
      [now left | | reflexivity].
    destruct (some_pages utc_now t l
                ("Komende Toernooien (" ++ Py.str_of_Z days ++ " dagen)")%string)
      as (e & es & -> & Hlen).
    assert (Hn : 0 < List.length (t :: l)) by (simpl; lia).
    remember (List.length (t :: l)) as n eqn:En. clear En.
    destruct es as [|e2 es].
    - right. split; [exact Hn|]. cbn [List.length] in Hlen.
      pose proof (Nat.div_mod_eq (n + 4) 5) as Hq.
      pose proof (Nat.mod_upper_bound (n + 4) 5 ltac:(lia)) as Hr. lia.
    - assert (H2 : 2 <= (n + 4) / 5)
        by (rewrite <- Hlen; simpl; lia).
      split.
      + pose proof (Nat.Div0.mul_div_le (n + 4) 5). lia.
      + split; [exact Hlen|]. unfold new_view, update_buttons, shown.
        cbn [embeds current_page previous_disabled next_disabled].
        repeat split. cbn [List.length]. apply Z.eqb_neq. lia. }
  split; [|split; [|split]].
  - split.
    + intros Ha. destruct (get_upcoming_tournaments fromisoformat now days d) as [l|e];
        [|eauto]. rewrite Ha in Hshape. destruct Hshape.
    + intros [e He]. now rewrite He in Hshape.
  - intros l Hl. now rewrite Hl in Hshape.
  - intros Hd. unfold tournaments_command, get_upcoming_tournaments. cbn [negb].
    destruct (DateTime.add_days now days); [reflexivity | congruence].
  - reflexivity.
Qed.

Lemma command_reports_a_fault_as_nothing_found_witness :
  DateTime.add_days Fixture.today 30 <> None
  /\ tournaments_command DateTime.fromisoformat true Fixture.today (fun _ => 0%Z) 30 Fault
     = Single (nothing_found 30)
  /\ (exists e, tournaments_command DateTime.fromisoformat true Fixture.today
                  (fun _ => 0%Z) 30 (Open Fixture.scenario) = Single e).
Proof.
  assert (H30 : DateTime.add_days Fixture.today 30 <> None) by (vm_compute; discriminate).
  split; [exact H30|]. split.
  - exact (proj1 (proj2 (proj2 (command_reports_a_fault_as_nothing_found
             DateTime.fromisoformat Fixture.today (fun _ => 0%Z) 30 Fault))) H30).
  - eexists. vm_compute. reflexivity.
Defined.

(** X25.  A [PaginationView] never leaves its pages: after any presses of
    its two buttons the current page is one of the embeds, the previous
    button is disabled exactly on the first page and the next button exactly
    on the last. *)
Theorem pagination_stays_on_a_page (es : list embed) (presses : list press) :
  es <> [] ->
  let v := fold_left pressed presses (new_view es) in
  embeds v = es
  /\ (0 <= current_page v < Z.of_nat (List.length es))%Z
  /\ (exists e, shown v = Some e)
  /\ previous_disabled v = (current_page v =? 0)%Z
  /\ next_disabled v = (current_page v =? Z.of_nat (List.length es) - 1)%Z.
Proof.
  intros Hne.
  assert (Hlen : 0 < List.length es) by (destruct es; [congruence | simpl; lia]).
  assert (Hinv : forall v,
    (embeds v = es
     /\ (0 <= current_page v < Z.of_nat (List.length es))%Z
     /\ previous_disabled v = (current_page v =? 0)%Z
     /\ next_disabled v = (current_page v =? Z.of_nat (List.length es) - 1)%Z) ->
    forall p,
      let v' := pressed v p in
      embeds v' = es
      /\ (0 <= current_page v' < Z.of_nat (List.length es))%Z
      /\ previous_disabled v' = (current_page v' =? 0)%Z
      /\ next_disabled v' = (current_page v' =? Z.of_nat (List.length es) - 1)%Z).
  { intros v (He & Hp & Hprev & Hnext) [|]; unfold pressed, previous_button, next_button.
    - destruct (Z.ltb_spec 0 (current_page v)); [|auto].
      unfold turn_to, update_buttons. cbn. rewrite He. repeat split; lia.
    - rewrite He. destruct (Z.ltb_spec (current_page v) (Z.of_nat (List.length es) - 1));
        [|auto].
      unfold turn_to, update_buttons. cbn. rewrite He. repeat split; lia. }
  assert (Hall : forall ps v,
    (embeds v = es
     /\ (0 <= current_page v < Z.of_nat (List.length es))%Z
     /\ previous_disabled v = (current_page v =? 0)%Z
     /\ next_disabled v = (current_page v =? Z.of_nat (List.length es) - 1)%Z) ->
    let v' := fold_left pressed ps v in
    embeds v' = es
    /\ (0 <= current_page v' < Z.of_nat (List.length es))%Z
    /\ previous_disabled v' = (current_page v' =? 0)%Z
    /\ next_disabled v' = (current_page v' =? Z.of_nat (List.length es) - 1)%Z).
  { induction ps as [|p ps IH]; intros v Hv; [exact Hv|].
    cbn [fold_left]. apply IH. now apply Hinv. }
  intros v.
  destruct (Hall presses (new_view es)) as (H1 & H2 & H3 & H4).
  { unfold new_view, update_buttons. cbn. repeat split; lia. }
  fold v in H1, H2, H3, H4. repeat split; try assumption; try lia.
  unfold shown. cbv zeta. destruct (Z.ltb_spec (current_page v) 0) as [|_]; [lia|].
  destruct (Z.ltb_spec (current_page v) 0) as [|_]; [lia|].
  destruct (nth_error (embeds v) (Z.to_nat (current_page v))) as [e|] eqn:E; [eauto|].
  apply nth_error_None in E. rewrite H1 in E. lia.
Qed.

Lemma pagination_stays_on_a_page_witness :
  let es := [nothing_found 1; nothing_found 2; nothing_found 3] in
  let v := fold_left pressed [Next; Next; Next; Previous] (new_view es) in
  es <> []
  /\ current_page v = 1%Z
  /\ embeds v = es
  /\ (0 <= current_page v < Z.of_nat (List.length es))%Z
  /\ (exists e, shown v = Some e)
  /\ previous_disabled v = (current_page v =? 0)%Z
  /\ next_disabled v = (current_page v =? Z.of_nat (List.length es) - 1)%Z.
Proof.
  intros es v.
  assert (Hne : es <> []) by discriminate.
  split; [exact Hne|]. split; [vm_compute; reflexivity|].
  exact (pagination_stays_on_a_page es [Next; Next; Next; Previous] Hne).
Defined.
